(** * SecureMe host inventory collectors: a shallow embedding

    The Python collectors of [utils/] (installed software, listening
    ports, firmware) are embedded as Rocq functions.  External tools are
    reached through [subprocess.run]; here every call asks an oracle of the
    environment for its outcome, and the calls made and the lines printed
    are recorded in an explicit state.  Exceptions are values of an error
    monad, and [try ... except] is a handler that filters on the class of
    the exception.

    Conventions of the model:
    - a Python [str] is a [string], a sequence of 8-bit characters, and the
      character classes (whitespace, digits, letter case) are the ASCII
      ones;
    - a dictionary whose order of iteration no collector observes (the
      software mappings) is a [gmap]; the others keep their items in
      insertion order;
    - [subprocess.run] and [json.loads] belong to the environment: the
      keyword arguments of [subprocess.run] (captured text output, the
      time-out) are part of what its oracle stands for;
    - [print] appends a line to the state and raises nothing; the modules
      are taken as imported. *)

From Stdlib Require Import ZArith Ascii DecimalString DecimalZ Lia.
From Stdlib Require String.
From stdpp Require Import base gmap strings list fin_maps.

Local Open Scope Z_scope.
#[local] Set Warnings "-register-all".

(** ** Python string operations *)

Module PyStr.

(** [str.isspace] on one ASCII character: TAB, LF, VT, FF, CR, the four
    separators FS GS RS US, and the space. *)
Definition is_space (c : ascii) : bool :=
  let n := N_of_ascii c in
  (((9 <=? n) && (n <=? 13)) || ((28 <=? n) && (n <=? 32)))%N.

Definition is_digit (c : ascii) : bool :=
  let n := N_of_ascii c in ((48 <=? n) && (n <=? 57))%N.

Fixpoint lstrip (s : string) : string :=
  match s with
  | EmptyString => EmptyString
  | String c s' => if is_space c then lstrip s' else s
  end.

Fixpoint rstrip (s : string) : string :=
  match s with
  | EmptyString => EmptyString
  | String c s' =>
      match rstrip s' with
      | EmptyString => if is_space c then EmptyString else String c EmptyString
      | r => String c r
      end
  end.

(** [s.strip()] *)
Definition strip (s : string) : string := rstrip (lstrip s).

(** Truth value of a [str]: non-empty. *)
Definition nonempty (s : string) : bool :=
  match s with EmptyString => false | _ => true end.

(** [s.startswith(p)] *)
Definition startswith (p s : string) : bool := String.prefix p s.

(** [sub in s] *)
Fixpoint contains (sub s : string) : bool :=
  String.prefix sub s
  || match s with
     | EmptyString => false
     | String _ s' => contains sub s'
     end.

(** [c in s] for a one-character [c] *)
Fixpoint has_char (c : ascii) (s : string) : bool :=
  match s with
  | EmptyString => false
  | String d s' => Ascii.eqb d c || has_char c s'
  end.

(** [s.split(sep)] for a one-character separator: never empty. *)
Fixpoint split_char (sep : ascii) (s : string) : list string :=
  match s with
  | EmptyString => [EmptyString]
  | String c s' =>
      if Ascii.eqb c sep then EmptyString :: split_char sep s'
      else match split_char sep s' with
           | w :: ws => String c w :: ws
           | [] => [String c EmptyString]
           end
  end.

(** [s.split()] : maximal runs of non-whitespace characters. *)
Fixpoint split_ws (s : string) : list string :=
  match s with
  | EmptyString => []
  | String c s' =>
      if is_space c then split_ws s'
      else match s' with
           | EmptyString => [String c EmptyString]
           | String c' _ =>
               if is_space c' then String c EmptyString :: split_ws s'
               else match split_ws s' with
                    | w :: ws => String c w :: ws
                    | [] => [String c EmptyString]
                    end
           end
  end.

Fixpoint strip_prefix (p s : string) : option string :=
  match p with
  | EmptyString => Some s
  | String a p' =>
      match s with
      | EmptyString => None
      | String b s' => if Ascii.eqb a b then strip_prefix p' s' else None
      end
  end.

(** The text before and after the first occurrence of [sep]. *)
Fixpoint partition (sep s : string) : option (string * string) :=
  match strip_prefix sep s with
  | Some rest => Some (EmptyString, rest)
  | None =>
      match s with
      | EmptyString => None
      | String c s' =>
          match partition sep s' with
          | Some (a, b) => Some (String c a, b)
          | None => None
          end
      end
  end.

(** [s.split(sep, 1)] *)
Definition split1 (sep s : string) : list string :=
  match partition sep s with
  | Some (a, b) => [a; b]
  | None => [s]
  end.

(** The text before and after the last occurrence of the character. *)
Fixpoint rpartition_char (sep : ascii) (s : string) : option (string * string) :=
  match s with
  | EmptyString => None
  | String c s' =>
      match rpartition_char sep s' with
      | Some (a, b) => Some (String c a, b)
      | None => if Ascii.eqb c sep then Some (EmptyString, s') else None
      end
  end.

(** [s.rsplit(sep, 1)] for a one-character separator *)
Definition rsplit1 (sep : ascii) (s : string) : list string :=
  match rpartition_char sep s with
  | Some (a, b) => [a; b]
  | None => [s]
  end.

Definition lower_char (c : ascii) : ascii :=
  let n := N_of_ascii c in
  if ((65 <=? n) && (n <=? 90))%N then ascii_of_N (n + 32) else c.

(** [s.lower()] *)
Fixpoint lower (s : string) : string :=
  match s with
  | EmptyString => EmptyString
  | String c s' => String (lower_char c) (lower s')
  end.

(** [s.replace(c, '')] for a one-character [c] *)
Fixpoint remove_char (c : ascii) (s : string) : string :=
  match s with
  | EmptyString => EmptyString
  | String d s' =>
      if Ascii.eqb d c then remove_char c s' else String d (remove_char c s')
  end.

(** [sep.join(l)] *)
Definition join (sep : string) (l : list string) : string := String.concat sep l.

(** [str(n)] for an [int] *)
Definition of_Z (z : Z) : string := NilZero.string_of_int (Z.to_int z).

Definition digit_val (c : ascii) : Z := Z.of_N (N_of_ascii c) - 48.

(** Decimal digits, single underscores allowed between two digits. *)
Fixpoint digits (acc : Z) (after_digit : bool) (s : string) : option Z :=
  match s with
  | EmptyString => if after_digit then Some acc else None
  | String c s' =>
      if is_digit c then digits (10 * acc + digit_val c) true s'
      else if Ascii.eqb c "_" && after_digit then digits acc false s'
      else None
  end.

(** The whitespace [int] skips around a number: TAB, LF, VT, FF, CR and
    the space, but not the four separators. *)
Definition is_blank (c : ascii) : bool :=
  let n := N_of_ascii c in
  (((9 <=? n) && (n <=? 13)) || (n =? 32))%N.

Fixpoint skip_blanks (s : string) : string :=
  match s with
  | EmptyString => EmptyString
  | String c s' => if is_blank c then skip_blanks s' else s
  end.

Fixpoint drop_trailing_blanks (s : string) : string :=
  match s with
  | EmptyString => EmptyString
  | String c s' =>
      match drop_trailing_blanks s' with
      | EmptyString => if is_blank c then EmptyString else String c EmptyString
      | r => String c r
      end
  end.

(** [int(s)]: surrounding whitespace, an optional sign, decimal digits;
    [None] stands for [ValueError]. *)
Definition to_int (s : string) : option Z :=
  match drop_trailing_blanks (skip_blanks s) with
  | String "-" d => Z.opp <$> digits 0 false d
  | String "+" d => digits 0 false d
  | d => digits 0 false d
  end.

Definition newline : ascii := ascii_of_N 10.
Definition tab : ascii := ascii_of_N 9.

(** [s.split('\n')] *)
Definition lines (s : string) : list string := split_char newline s.

Fixpoint take_chars (n : nat) (s : string) : string :=
  match n, s with
  | S n', String c s' => String c (take_chars n' s')
  | _, _ => EmptyString
  end.

Fixpoint drop_chars (n : nat) (s : string) : string :=
  match n, s with
  | S n', String _ s' => drop_chars n' s'
  | _, _ => s
  end.

Definition upper_char (c : ascii) : ascii :=
  let n := N_of_ascii c in
  if ((97 <=? n) && (n <=? 122))%N then ascii_of_N (n - 32) else c.

(** [s.upper()] *)
Fixpoint upper (s : string) : string :=
  match s with
  | EmptyString => EmptyString
  | String c s' => String (upper_char c) (upper s')
  end.

End PyStr.

(** ** The regular expressions of the parsers

    Every pattern used by the collectors is a sequence of literal text,
    one-or-more repetitions of a character class (greedy [+] or lazy [+?],
    captured by a group or not) and the end anchor [$].  [match_here]
    explores the repetition lengths in the order of a backtracking matcher,
    so the groups returned are those of Python's [re]. *)

Module Re.

Inductive item :=
| Lit (s : string)
| Plus (group greedy : bool) (cls : ascii -> bool)
| End_.

(** [.] : any character but a newline *)
Definition any (c : ascii) : bool := negb (Ascii.eqb c PyStr.newline).
(** [[^...]] *)
Definition none_of (l : list ascii) (c : ascii) : bool :=
  negb (existsb (Ascii.eqb c) l).
(** [\d], [\s], [\S] *)
Definition digit : ascii -> bool := PyStr.is_digit.
Definition space : ascii -> bool := PyStr.is_space.
Definition non_space (c : ascii) : bool := negb (PyStr.is_space c).

Fixpoint run_length (cls : ascii -> bool) (s : string) : nat :=
  match s with
  | String c s' => if cls c then S (run_length cls s') else O
  | EmptyString => O
  end.

Fixpoint first_some {A B} (f : A -> option B) (l : list A) : option B :=
  match l with
  | [] => None
  | a :: l' => match f a with Some b => Some b | None => first_some f l' end
  end.

(** [$] : at the end, or before a final newline *)
Definition at_end (s : string) : bool :=
  match s with
  | EmptyString => true
  | String c EmptyString => Ascii.eqb c PyStr.newline
  | _ => false
  end.

Fixpoint match_here (p : list item) (s : string) : option (list string) :=
  match p with
  | [] => Some []
  | Lit l :: p' =>
      match PyStr.strip_prefix l s with
      | Some rest => match_here p' rest
      | None => None
      end
  | End_ :: p' => if at_end s then match_here p' s else None
  | Plus g greedy cls :: p' =>
      let n := run_length cls s in
      let lens := if greedy then rev (seq 1 n) else seq 1 n in
      first_some
        (fun i => match match_here p' (PyStr.drop_chars i s) with
                  | Some gs => Some (if g then PyStr.take_chars i s :: gs else gs)
                  | None => None
                  end)
        lens
  end.

(** [re.match(p, s)]: the groups, when the pattern matches at the start *)
Definition re_match (p : list item) (s : string) : option (list string) :=
  match_here p s.

(** [re.search(p, s)]: the groups of the leftmost match *)
Fixpoint re_search (p : list item) (s : string) : option (list string) :=
  match match_here p s with
  | Some gs => Some gs
  | None =>
      match s with
      | EmptyString => None
      | String _ s' => re_search p s'
      end
  end.

End Re.

(** ** Python values, exceptions and the environment *)

Module Py.

(** The objects [json.loads] produces, which are also the values the
    collectors store in their result dictionaries.  A [float] is carried
    by its [repr] text; a [dict] by its items in insertion order. *)
Inductive value :=
| VNone
| VBool (b : bool)
| VInt (z : Z)
| VFloat (repr : string)
| VStr (s : string)
| VList (l : list value)
| VDict (d : list (string * value)).

(** Truth value of an object *)
Definition truthy (v : value) : bool :=
  match v with
  | VNone => false
  | VBool b => b
  | VInt z => negb (z =? 0)
  | VFloat r => negb (String.eqb r "0.0" || String.eqb r "-0.0")
  | VStr s => PyStr.nonempty s
  | VList l => match l with [] => false | _ => true end
  | VDict d => match d with [] => false | _ => true end
  end.

Fixpoint assoc {V} (k : string) (d : list (string * V)) : option V :=
  match d with
  | [] => None
  | (k', v) :: d' => if String.eqb k' k then Some v else assoc k d'
  end.

(** [d.get(k, default)] on the items of a dict *)
Definition get (d : list (string * value)) (k : string) (default : value) : value :=
  match assoc k d with Some v => v | None => default end.

Definition dquote : ascii := ascii_of_N 34.
Definition squote : ascii := ascii_of_N 39.
Definition backslash : ascii := ascii_of_N 92.

Definition hex_digit (n : N) : ascii :=
  if (n <? 10)%N then ascii_of_N (48 + n) else ascii_of_N (87 + n).

Definition escape_char (quote c : ascii) : string :=
  let n := N_of_ascii c in
  if Ascii.eqb c backslash then String backslash (String backslash EmptyString)
  else if Ascii.eqb c quote then String backslash (String quote EmptyString)
  else if (n =? 10)%N then String backslash "n"
  else if (n =? 13)%N then String backslash "r"
  else if (n =? 9)%N then String backslash "t"
  else if ((n <? 32) || (n =? 127))%N
       then String backslash
              (String "x" (String (hex_digit (n / 16)) (String (hex_digit (n mod 16)) EmptyString)))
  else String c EmptyString.

Fixpoint escape (quote : ascii) (s : string) : string :=
  match s with
  | EmptyString => EmptyString
  | String c s' => escape_char quote c +:+ escape quote s'
  end.

(** [repr(s)] of a [str]: single quotes, unless the text has a single
    quote and no double quote. *)
Definition repr_str (s : string) : string :=
  let q := if PyStr.has_char squote s && negb (PyStr.has_char dquote s)
           then dquote else squote in
  String q (escape q s +:+ String q EmptyString).

(** [repr(v)] *)
Fixpoint repr (v : value) : string :=
  match v with
  | VNone => "None"
  | VBool true => "True"
  | VBool false => "False"
  | VInt z => PyStr.of_Z z
  | VFloat r => r
  | VStr s => repr_str s
  | VList l => "[" +:+ PyStr.join ", " (map repr l) +:+ "]"
  | VDict d =>
      "{" +:+ PyStr.join ", " (map (fun kv => repr_str (fst kv) +:+ ": " +:+ repr (snd kv)) d)
          +:+ "}"
  end.

(** [str(v)], which is what an f-string field prints *)
Definition str (v : value) : string :=
  match v with
  | VStr s => s
  | _ => repr v
  end.

(** Exception classes, with the parent of each in Python's hierarchy *)
Inductive exn_class :=
| BaseException | Exception | KeyboardInterrupt | SystemExit
| OSError | FileNotFoundError | PermissionError
| SubprocessError | TimeoutExpired
| ValueError | UnicodeError | UnicodeDecodeError | JSONDecodeError
| LookupError | KeyError | IndexError
| AttributeError | TypeError.

Definition parent (c : exn_class) : option exn_class :=
  match c with
  | BaseException => None
  | Exception | KeyboardInterrupt | SystemExit => Some BaseException
  | OSError | SubprocessError | ValueError | LookupError
  | AttributeError | TypeError => Some Exception
  | FileNotFoundError | PermissionError => Some OSError
  | TimeoutExpired => Some SubprocessError
  | UnicodeError | JSONDecodeError => Some ValueError
  | UnicodeDecodeError => Some UnicodeError
  | KeyError | IndexError => Some LookupError
  end.

Definition class_eqb (a b : exn_class) : bool :=
  match a, b with
  | BaseException, BaseException | Exception, Exception
  | KeyboardInterrupt, KeyboardInterrupt | SystemExit, SystemExit
  | OSError, OSError | FileNotFoundError, FileNotFoundError
  | PermissionError, PermissionError | SubprocessError, SubprocessError
  | TimeoutExpired, TimeoutExpired | ValueError, ValueError
  | UnicodeError, UnicodeError | UnicodeDecodeError, UnicodeDecodeError
  | JSONDecodeError, JSONDecodeError | LookupError, LookupError
  | KeyError, KeyError | IndexError, IndexError
  | AttributeError, AttributeError | TypeError, TypeError => true
  | _, _ => false
  end.

Fixpoint subclass_fuel (n : nat) (c target : exn_class) : bool :=
  class_eqb c target
  || match n with
     | O => false
     | S n' => match parent c with
               | Some p => subclass_fuel n' p target
               | None => false
               end
     end.

(** [issubclass(c, target)]; the hierarchy is four levels deep. *)
Definition subclass (c target : exn_class) : bool := subclass_fuel 4 c target.

(** An exception: its class and the text [str(e)] *)
Record exn := Exn { exn_cls : exn_class; exn_text : string }.

(** What [except T1, T2, ...] catches *)
Definition catches (targets : list exn_class) (x : exn) : bool :=
  existsb (subclass (exn_cls x)) targets.

Inductive result (A : Type) :=
| Ok (a : A)
| Raise (x : exn).
Arguments Ok {A} a.
Arguments Raise {A} x.

(** What [subprocess.run(argv, capture_output=True, text=True, timeout=t)]
    does: it raises (executable missing, time-out, undecodable output,
    ...) or completes with a return code and the captured text. *)
Inductive outcome :=
| Raised (x : exn)
| Completed (returncode : Z) (stdout : string).

(** The host.  [subprocess_run n argv] is the outcome of running [argv]
    as the [n]-th external command of the collection (counted from 0);
    [json_loads] is the decoder of the [json] module. *)
Record env := Env {
  platform_system : string;
  sys_executable : string;
  subprocess_run : nat -> list string -> outcome;
  json_loads : string -> result value
}.

(** The external commands run so far with their outcomes, and the lines
    printed so far, both oldest first. *)
Record state := State {
  calls : list (list string * outcome);
  printed : list string
}.

Definition initial : state := State [] [].

Definition M (A : Type) : Type := state -> result A * state.

Definition ret {A} (a : A) : M A := fun st => (Ok a, st).

Definition bind {A B} (m : M A) (k : A -> M B) : M B :=
  fun st =>
    match m st with
    | (Ok a, st') => k a st'
    | (Raise x, st') => (Raise x, st')
    end.

Definition raise {A} (x : exn) : M A := fun st => (Raise x, st).

Definition print (line : string) : M unit :=
  fun st => (Ok tt, State (calls st) (printed st ++ [line])).

Definition run (e : env) (argv : list string) : M (Z * string) :=
  fun st =>
    let o := subprocess_run e (length (calls st)) argv in
    let st' := State (calls st ++ [(argv, o)]) (printed st) in
    match o with
    | Raised x => (Raise x, st')
    | Completed rc out => (Ok (rc, out), st')
    end.

Definition loads (e : env) (text : string) : M value :=
  fun st => (json_loads e text, st).

(** [try: body  except targets as x: handler x] *)
Definition try_except {A} (body : M A) (targets : list exn_class)
    (handler : exn -> M A) : M A :=
  fun st =>
    match body st with
    | (Raise x, st') =>
        if catches targets x then handler x st' else (Raise x, st')
    | r => r
    end.

(** [dict.update]: the items of [other] replace those of [d]. *)
Definition update (d other : gmap string string) : gmap string string :=
  other ∪ d.

(** [list(d.keys())] *)
Definition keys (d : gmap string string) : list string := (map_to_list d).*1.

(** Dictionaries whose iteration order is observed: the items in
    insertion order.  [oset] is [d[k] = v]. *)
Fixpoint oset {V} (k : string) (v : V) (d : list (string * V)) : list (string * V) :=
  match d with
  | [] => [(k, v)]
  | (k', v') :: d' =>
      if String.eqb k' k then (k, v) :: d' else (k', v') :: oset k v d'
  end.

Definition omem {V} (k : string) (d : list (string * V)) : bool :=
  match assoc k d with Some _ => true | None => false end.

End Py.

#[export] Instance M_ret : MRet Py.M := @Py.ret.
#[export] Instance M_bind : MBind Py.M := fun A B k m => Py.bind m k.

(** ** utils/software_reader_linux.py *)

Module Linux.

Import PyStr.

Definition package_managers : list (string * list string) :=
  [ ("dpkg", ["dpkg"; "-l"]);
    ("rpm", ["rpm"; "-qa"]);
    ("pacman", ["pacman"; "-Q"]);
    ("apk", ["apk"; "list"; "--installed"]);
    ("zypper", ["zypper"; "se"; "--installed-only"]);
    ("portage", ["qlist"; "-I"]) ].

(** [^(.+)-([^-]+)-([^-]+)\.(.+)$] *)
Definition rpm_re : list Re.item :=
  [ Re.Plus true true Re.any; Re.Lit "-";
    Re.Plus true true (Re.none_of ["-"%char]); Re.Lit "-";
    Re.Plus true true (Re.none_of ["-"%char]); Re.Lit ".";
    Re.Plus true true Re.any; Re.End_ ].

(** [^(.+)/(.+)-([^-]+)$] *)
Definition portage_re : list Re.item :=
  [ Re.Plus true true Re.any; Re.Lit "/";
    Re.Plus true true Re.any; Re.Lit "-";
    Re.Plus true true (Re.none_of ["-"%char]); Re.End_ ].

Definition dpkg_line (software_list : gmap string string) (line : string)
    : gmap string string :=
  if startswith "ii" line then
    match split_ws line with
    | _ :: name :: version :: _ => <[name := version]> software_list
    | _ => software_list
    end
  else software_list.

Definition rpm_line (software_list : gmap string string) (line : string)
    : gmap string string :=
  if has_char "-" line then
    match Re.re_match rpm_re (strip line) with
    | Some [name; v; r; _] => <[name := v +:+ "-" +:+ r]> software_list
    | _ => software_list
    end
  else software_list.

Definition pacman_line (software_list : gmap string string) (line : string)
    : gmap string string :=
  if has_char " " line then
    match split1 " " line with
    | [name; version] => <[name := version]> software_list
    | _ => software_list
    end
  else software_list.

Definition apk_line (software_list : gmap string string) (line : string)
    : gmap string string :=
  if nonempty line && negb (startswith "WARNING" line) then
    match split_char " " line with
    | pkg_info :: _ =>
        if has_char "-" pkg_info then
          let name_version := split_char "-" pkg_info in
          let n := (length name_version - 2)%nat in
          let name := join "-" (take n name_version) in
          let version := join "-" (drop n name_version) in
          if nonempty name then <[name := version]> software_list
          else software_list
        else software_list
    | [] => software_list
    end
  else software_list.

Definition zypper_line (software_list : gmap string string) (line : string)
    : gmap string string :=
  if has_char "|" line && negb (startswith "S" line) then
    match map strip (split_char "|" line) with
    | _ :: name :: version :: _ =>
        if nonempty name && nonempty version
        then <[name := version]> software_list
        else software_list
    | _ => software_list
    end
  else software_list.

Definition portage_line (software_list : gmap string string) (line : string)
    : gmap string string :=
  if has_char "/" line then
    match Re.re_match portage_re (strip line) with
    | Some [category; name; version] =>
        <[category +:+ "/" +:+ name := version]> software_list
    | _ => software_list
    end
  else software_list.

(** The [if pm_name == ... elif ...] cascade over the output lines. *)
Definition parse_output (pm_name : string) (lines : list string)
    (software_list : gmap string string) : gmap string string :=
  if String.eqb pm_name "dpkg" then foldl dpkg_line software_list lines
  else if String.eqb pm_name "rpm" then foldl rpm_line software_list lines
  else if String.eqb pm_name "pacman" then foldl pacman_line software_list lines
  else if String.eqb pm_name "apk" then foldl apk_line software_list lines
  else if String.eqb pm_name "zypper" then foldl zypper_line software_list lines
  else if String.eqb pm_name "portage" then foldl portage_line software_list lines
  else software_list.

Section WithEnv.
Context (e : Py.env).

(** One turn of the [for pm_name, command in package_managers] loop:
    [Some d] when the turn ends in [break], with the dictionary it
    leaves; [None] when the loop goes on to the next manager. *)
Definition try_package_manager (pm_name : string) (command : list string)
    (software_list : gmap string string)
    : Py.M (option (gmap string string)) :=
  Py.try_except
    (Py.print ("Trying " +:+ pm_name +:+ " package manager...");;
     result ← Py.run e command;
     if result.1 =? 0 then
       mret (Some (parse_output pm_name (lines (strip result.2)) software_list))
     else mret None)
    [Py.Exception]
    (fun x => Py.print (pm_name +:+ " failed: " +:+ Py.exn_text x);;
              mret None).

Fixpoint package_manager_loop (pms : list (string * list string))
    (software_list : gmap string string) : Py.M (gmap string string) :=
  match pms with
  | [] => mret software_list
  | (pm_name, command) :: rest =>
      r ← try_package_manager pm_name command software_list;
      match r with
      | Some d => mret d
      | None => package_manager_loop rest software_list
      end
  end.

Definition get_linux_software : Py.M (gmap string string) :=
  package_manager_loop package_managers ∅.

Definition snap_line (snap_packages : gmap string string) (line : string)
    : gmap string string :=
  if nonempty (strip line) then
    match split_ws line with
    | name :: version :: _ => <["Snap: " +:+ name := version]> snap_packages
    | _ => snap_packages
    end
  else snap_packages.

Definition get_snap_packages : Py.M (gmap string string) :=
  Py.try_except
    (Py.print "Scanning Snap packages...";;
     result ← Py.run e ["snap"; "list"];
     if result.1 =? 0 then
       mret (foldl snap_line ∅ (drop 1 (lines (strip result.2))))
     else mret ∅)
    [Py.Exception]
    (fun _ => mret ∅).

Definition flatpak_line (flatpak_packages : gmap string string) (line : string)
    : gmap string string :=
  if nonempty (strip line) && has_char tab line then
    match split_char tab line with
    | name :: version :: _ =>
        let name := strip name in
        let version := strip version in
        if nonempty name && nonempty version
        then <["Flatpak: " +:+ name := version]> flatpak_packages
        else flatpak_packages
    | _ => flatpak_packages
    end
  else flatpak_packages.

Definition get_flatpak_packages : Py.M (gmap string string) :=
  Py.try_except
    (Py.print "Scanning Flatpak packages...";;
     result ← Py.run e ["flatpak"; "list"; "--app"; "--columns=name,version"];
     if result.1 =? 0 then
       mret (foldl flatpak_line ∅ (lines (strip result.2)))
     else mret ∅)
    [Py.Exception]
    (fun _ => mret ∅).

Definition pip_line (python_packages : gmap string string) (line : string)
    : gmap string string :=
  if nonempty (strip line) then
    match split_ws line with
    | name :: version :: _ => <["Python: " +:+ name := version]> python_packages
    | _ => python_packages
    end
  else python_packages.

Definition get_python_packages : Py.M (gmap string string) :=
  Py.try_except
    (Py.print "Scanning Python packages...";;
     result ← Py.run e [Py.sys_executable e; "-m"; "pip"; "list"];
     if result.1 =? 0 then
       mret (foldl pip_line ∅ (drop 2 (lines (strip result.2))))
     else mret ∅)
    [Py.Exception]
    (fun x => Py.print ("Python packages scan failed: " +:+ Py.exn_text x);;
              mret ∅).

Definition get_installed_software : Py.M (gmap string string) :=
  let all_software : gmap string string := ∅ in
  Py.print "Detecting software on Linux...";;
  d ← get_linux_software;
  let all_software := Py.update all_software d in
  d ← get_snap_packages;
  let all_software := Py.update all_software d in
  d ← get_flatpak_packages;
  let all_software := Py.update all_software d in
  d ← get_python_packages;
  let all_software := Py.update all_software d in
  mret all_software.

Record summary := Summary {
  total_count : nat;
  python_packages : nat;
  system_packages : nat;
  snap_packages : nat;
  flatpak_packages : nat;
  software_list : gmap string string
}.

(** [k.startswith(('Python:', 'Snap:', 'Flatpak:'))] *)
Definition startswith_any (ps : list string) (k : string) : bool :=
  existsb (fun p => startswith p k) ps.

(** The dictionary built from a collected [software] mapping. *)
Definition summarize (software : gmap string string) : summary :=
  {| total_count := size software;
     python_packages :=
       length (filter (fun k => startswith "Python:" k = true) (Py.keys software));
     system_packages :=
       length (filter (fun k => startswith_any ["Python:"; "Snap:"; "Flatpak:"] k = false)
                      (Py.keys software));
     snap_packages :=
       length (filter (fun k => startswith "Snap:" k = true) (Py.keys software));
     flatpak_packages :=
       length (filter (fun k => startswith "Flatpak:" k = true) (Py.keys software));
     software_list := software |}.

Definition get_software_summary : Py.M summary :=
  software ← get_installed_software;
  mret (summarize software).

End WithEnv.

End Linux.

(** ** utils/software_reader_windows.py *)

Module Windows.

Import PyStr.

Definition nl : string := String newline EmptyString.
Definition dq : string := String Py.dquote EmptyString.

Definition registry_paths : list string :=
  [ "HKLM:\Software\Microsoft\Windows\CurrentVersion\Uninstall\*";
    "HKLM:\Software\Wow6432Node\Microsoft\Windows\CurrentVersion\Uninstall\*";
    "HKCU:\Software\Microsoft\Windows\CurrentVersion\Uninstall\*" ].

(** [l[-2]] of a list of strings (the lists it is applied to have at
    least two elements) *)
Definition second_last (l : list string) : string :=
  nth (length l - 2) l EmptyString.

Definition registry_script (registry_path : string) : string :=
  join nl
    [ EmptyString;
      "            Get-ItemProperty '" +:+ registry_path +:+ "' | ";
      "            Select-Object DisplayName, DisplayVersion, Publisher, InstallDate | ";
      "            Where-Object {$_.DisplayName -ne $null -and $_.DisplayName -ne "
        +:+ dq +:+ dq +:+ "} | ";
      "            ConvertTo-Json";
      "            " ].

Definition package_script : string :=
  join nl
    [ EmptyString;
      "        Get-Package | ";
      "        Select-Object Name, Version, Source | ";
      "        ConvertTo-Json";
      "        " ].

Definition appx_script : string :=
  join nl
    [ EmptyString;
      "        Get-AppxPackage | ";
      "        Where-Object {$_.Name -notlike " +:+ dq +:+ "*Microsoft*" +:+ dq
        +:+ " -and $_.Name -notlike " +:+ dq +:+ "*Windows*" +:+ dq +:+ "} |";
      "        Select-Object Name, Version | ";
      "        ConvertTo-Json";
      "        " ].

Definition wmic_line (software_list : gmap string string) (line : string)
    : gmap string string :=
  if nonempty (strip line) && has_char "," line then
    match split_char "," line with
    | _ :: name :: version :: _ =>
        let name := strip name in
        let version := strip version in
        if nonempty name && nonempty version
        then <[name := version]> software_list
        else software_list
    | _ => software_list
    end
  else software_list.

(** [name in software_list] *)
Definition mem (name : string) (software_list : gmap string string) : bool :=
  bool_decide (is_Some (software_list !! name)).

(** [version.strip() if version and isinstance(version, str) else 'Unknown'] *)
Definition version_text (version : Py.value) : string :=
  match version with
  | Py.VStr v => if nonempty v then strip v else "Unknown"
  | _ => "Unknown"
  end.

(** The body run on one decoded registry object. *)
Definition registry_entry (software_list : gmap string string)
    (item : list (string * Py.value)) : gmap string string :=
  let name := Py.get item "DisplayName" Py.VNone in
  let version := Py.get item "DisplayVersion" Py.VNone in
  match name with
  | Py.VStr name =>
      if nonempty name then
        let name := strip name in
        if nonempty name && negb (mem name software_list)
        then <[name := version_text version]> software_list
        else software_list
      else software_list
  | _ => software_list
  end.

Definition package_entry (software_list : gmap string string)
    (item : list (string * Py.value)) : gmap string string :=
  let name := Py.get item "Name" Py.VNone in
  let version := Py.get item "Version" Py.VNone in
  let source := Py.get item "Source" (Py.VStr EmptyString) in
  match name with
  | Py.VStr name =>
      if nonempty name then
        let name := strip name in
        let display_name :=
          if Py.truthy source then name +:+ " (" +:+ Py.str source +:+ ")" else name in
        if negb (mem display_name software_list)
        then <[display_name := version_text version]> software_list
        else software_list
      else software_list
  | _ => software_list
  end.

Definition appx_entry (software_list : gmap string string)
    (item : list (string * Py.value)) : gmap string string :=
  let name := Py.get item "Name" Py.VNone in
  let version := Py.get item "Version" Py.VNone in
  match name with
  | Py.VStr name =>
      if nonempty name then
        let name := strip name in
        let display_name := "Store: " +:+ name in
        if negb (mem display_name software_list)
        then <[display_name := version_text version]> software_list
        else software_list
      else software_list
  | _ => software_list
  end.

(** [if isinstance(data, list): for item in data: if isinstance(item, dict): ...
     elif isinstance(data, dict): ...] *)
Definition each_object (entry : gmap string string -> list (string * Py.value) -> gmap string string)
    (software_list : gmap string string) (data : Py.value) : gmap string string :=
  match data with
  | Py.VList items =>
      foldl (fun sl item => match item with
                            | Py.VDict d => entry sl d
                            | _ => sl
                            end) software_list items
  | Py.VDict d => entry software_list d
  | _ => software_list
  end.

Section WithEnv.
Context (e : Py.env).

Definition wmi_method (software_list : gmap string string)
    : Py.M (gmap string string) :=
  Py.try_except
    (Py.print "Scanning Windows software via WMI...";;
     result ← Py.run e ["wmic"; "product"; "get"; "name,version"; "/format:csv"];
     if result.1 =? 0 then
       mret (foldl wmic_line software_list (drop 1 (lines (strip result.2))))
     else mret software_list)
    [Py.Exception]
    (fun x => Py.print ("WMI method failed: " +:+ Py.exn_text x);;
              mret software_list).

(** A PowerShell probe whose output is decoded with [json.loads]: the
    inner handler is [except (json.JSONDecodeError, AttributeError)],
    the outer one [except Exception]. *)
Definition json_method (announce : string) (script : string)
    (entry : gmap string string -> list (string * Py.value) -> gmap string string)
    (parse_failed scan_failed : string)
    (software_list : gmap string string) : Py.M (gmap string string) :=
  Py.try_except
    (Py.print announce;;
     result ← Py.run e ["powershell"; "-Command"; script];
     if (result.1 =? 0) && nonempty (strip result.2) then
       Py.try_except
         (data ← Py.loads e result.2;
          mret (each_object entry software_list data))
         [Py.JSONDecodeError; Py.AttributeError]
         (fun x => Py.print (parse_failed +:+ Py.exn_text x);;
                   mret software_list)
     else mret software_list)
    [Py.Exception]
    (fun x => Py.print (scan_failed +:+ Py.exn_text x);;
              mret software_list).

Definition registry_method (registry_path : string)
    (software_list : gmap string string) : Py.M (gmap string string) :=
  json_method
    ("Scanning registry path: "
       +:+ second_last (split_char Py.backslash registry_path) +:+ "...")
    (registry_script registry_path)
    registry_entry
    ("JSON parsing failed for " +:+ registry_path +:+ ": ")
    ("Registry scan failed for " +:+ registry_path +:+ ": ")
    software_list.

Fixpoint registry_loop (paths : list string) (software_list : gmap string string)
    : Py.M (gmap string string) :=
  match paths with
  | [] => mret software_list
  | registry_path :: rest =>
      software_list ← registry_method registry_path software_list;
      registry_loop rest software_list
  end.

Definition package_method : gmap string string -> Py.M (gmap string string) :=
  json_method "Scanning via PackageManagement..." package_script package_entry
    "PackageManagement JSON parsing failed: " "PackageManagement method failed: ".

Definition appx_method : gmap string string -> Py.M (gmap string string) :=
  json_method "Scanning Windows Store apps..." appx_script appx_entry
    "AppX JSON parsing failed: " "AppX method failed: ".

Definition get_windows_software : Py.M (gmap string string) :=
  software_list ← wmi_method ∅;
  software_list ← registry_loop registry_paths software_list;
  software_list ← package_method software_list;
  software_list ← appx_method software_list;
  mret software_list.

(** [get_python_packages] is written word for word as in the Linux file. *)
Definition get_python_packages : Py.M (gmap string string) :=
  Linux.get_python_packages e.

Definition get_installed_software : Py.M (gmap string string) :=
  let all_software : gmap string string := ∅ in
  Py.print "Detecting software on Windows...";;
  d ← get_windows_software;
  let all_software := Py.update all_software d in
  d ← get_python_packages;
  let all_software := Py.update all_software d in
  mret all_software.

Record summary := Summary {
  total_count : nat;
  python_packages : nat;
  system_software : nat;
  store_apps : nat;
  software_list : gmap string string
}.

(** The dictionary built from a collected [software] mapping. *)
Definition summarize (software : gmap string string) : summary :=
  {| total_count := size software;
     python_packages :=
       length (filter (fun k => startswith "Python:" k = true) (Py.keys software));
     system_software :=
       length (filter (fun k => startswith "Python:" k = false) (Py.keys software));
     store_apps :=
       length (filter (fun k => startswith "Store:" k = true) (Py.keys software));
     software_list := software |}.

Definition get_software_summary : Py.M summary :=
  software ← get_installed_software;
  mret (summarize software).

End WithEnv.

End Windows.

(** ** utils/software_reader_macos.py *)

Module Macos.

Import PyStr.

(** [<string>(.+)</string>] *)
Definition string_re : list Re.item :=
  [ Re.Lit "<string>"; Re.Plus true true Re.any; Re.Lit "</string>" ].

(** [^(\S+)\s+@([^\s+]+)] *)
Definition macports_re : list Re.item :=
  [ Re.Plus true true Re.non_space; Re.Plus false true Re.space; Re.Lit "@";
    Re.Plus true true (fun c => negb (is_space c) && negb (Ascii.eqb c "+")) ].

(** [^(\d+)\s+(.+?)\s+\(([^)]+)\)$] *)
Definition mas_re : list Re.item :=
  [ Re.Plus true true Re.digit; Re.Plus false true Re.space;
    Re.Plus true false Re.any; Re.Plus false true Re.space; Re.Lit "(";
    Re.Plus true true (Re.none_of [")"%char]); Re.Lit ")"; Re.End_ ].

(** The [for i, line in enumerate(lines)] loop over the property list:
    [rest] holds [lines[i+1:]], so [lines[i + 1]] exists when it is not
    empty. *)
Fixpoint applications_loop (lines : list string) (current_app : option string)
    (software_list : gmap string string) : gmap string string :=
  match lines with
  | [] => software_list
  | line :: rest =>
      if contains "<key>_name</key>" line then
        match rest with
        | next :: _ =>
            match Re.re_search string_re next with
            | Some [name] => applications_loop rest (Some name) software_list
            | _ => applications_loop rest current_app software_list
            end
        | [] => applications_loop rest current_app software_list
        end
      else
        match current_app with
        | Some app =>
            if contains "<key>version</key>" line && nonempty app then
              match rest with
              | next :: _ =>
                  match Re.re_search string_re next with
                  | Some [version] =>
                      applications_loop rest None (<[app := version]> software_list)
                  | _ => applications_loop rest current_app software_list
                  end
              | [] => applications_loop rest current_app software_list
              end
            else applications_loop rest current_app software_list
        | None => applications_loop rest current_app software_list
        end
  end.

Definition homebrew_line (homebrew_packages : gmap string string) (line : string)
    : gmap string string :=
  if nonempty (strip line) then
    match split1 " " line with
    | name :: version :: _ => <["Homebrew: " +:+ name := version]> homebrew_packages
    | _ => homebrew_packages
    end
  else homebrew_packages.

Definition cask_line (cask_packages : gmap string string) (line : string)
    : gmap string string :=
  if nonempty (strip line) then
    match split1 " " line with
    | name :: version :: _ => <["Homebrew Cask: " +:+ name := version]> cask_packages
    | [name] => <["Homebrew Cask: " +:+ name := "Unknown"]> cask_packages
    | [] => cask_packages
    end
  else cask_packages.

Definition macports_line (macports_packages : gmap string string) (line : string)
    : gmap string string :=
  if nonempty (strip line) then
    match Re.re_match macports_re (strip line) with
    | Some [name; version] => <["MacPorts: " +:+ name := version]> macports_packages
    | _ => macports_packages
    end
  else macports_packages.

Definition mas_line (app_store_apps : gmap string string) (line : string)
    : gmap string string :=
  if nonempty (strip line) then
    match Re.re_match mas_re (strip line) with
    | Some [app_id; name; version] =>
        <["App Store: " +:+ name := version]> app_store_apps
    | _ => app_store_apps
    end
  else app_store_apps.

Section WithEnv.
Context (e : Py.env).

Definition get_macos_applications : Py.M (gmap string string) :=
  Py.try_except
    (Py.print "Scanning macOS applications...";;
     result ← Py.run e ["system_profiler"; "SPApplicationsDataType"; "-xml"];
     if result.1 =? 0 then
       mret (applications_loop (lines result.2) None ∅)
     else mret ∅)
    [Py.Exception]
    (fun x => Py.print ("macOS system_profiler failed: " +:+ Py.exn_text x);;
              mret ∅).

(** The four probes that end in [except Exception: pass]. *)
Definition silent_probe (announce : string) (argv : list string)
    (parse : list string -> gmap string string) : Py.M (gmap string string) :=
  Py.try_except
    (Py.print announce;;
     result ← Py.run e argv;
     if result.1 =? 0 then mret (parse (lines (strip result.2))) else mret ∅)
    [Py.Exception]
    (fun _ => mret ∅).

Definition get_homebrew_packages : Py.M (gmap string string) :=
  silent_probe "Scanning Homebrew packages..." ["brew"; "list"; "--versions"]
    (foldl homebrew_line ∅).

Definition get_homebrew_cask_packages : Py.M (gmap string string) :=
  silent_probe "Scanning Homebrew Cask packages..."
    ["brew"; "list"; "--cask"; "--versions"]
    (foldl cask_line ∅).

Definition get_macports_packages : Py.M (gmap string string) :=
  silent_probe "Scanning MacPorts packages..." ["port"; "installed"]
    (fun ls => foldl macports_line ∅ (drop 1 ls)).

Definition get_app_store_apps : Py.M (gmap string string) :=
  silent_probe "Scanning Mac App Store apps..." ["mas"; "list"]
    (foldl mas_line ∅).

(** [get_python_packages] is written word for word as in the Linux file. *)
Definition get_python_packages : Py.M (gmap string string) :=
  Linux.get_python_packages e.

Definition get_installed_software : Py.M (gmap string string) :=
  let all_software : gmap string string := ∅ in
  Py.print "Detecting software on macOS...";;
  d ← get_macos_applications;
  let all_software := Py.update all_software d in
  d ← get_homebrew_packages;
  let all_software := Py.update all_software d in
  d ← get_homebrew_cask_packages;
  let all_software := Py.update all_software d in
  d ← get_macports_packages;
  let all_software := Py.update all_software d in
  d ← get_app_store_apps;
  let all_software := Py.update all_software d in
  d ← get_python_packages;
  let all_software := Py.update all_software d in
  mret all_software.

Record summary := Summary {
  total_count : nat;
  python_packages : nat;
  system_applications : nat;
  homebrew_packages : nat;
  macports_packages : nat;
  app_store_apps : nat;
  software_list : gmap string string
}.

(** The dictionary built from a collected [software] mapping. *)
Definition summarize (software : gmap string string) : summary :=
  {| total_count := size software;
     python_packages :=
       length (filter (fun k => startswith "Python:" k = true) (Py.keys software));
     system_applications :=
       length (filter (fun k =>
                         Linux.startswith_any
                           ["Python:"; "Homebrew:"; "MacPorts:"; "App Store:"] k = false)
                      (Py.keys software));
     homebrew_packages :=
       length (filter (fun k => startswith "Homebrew:" k = true) (Py.keys software));
     macports_packages :=
       length (filter (fun k => startswith "MacPorts:" k = true) (Py.keys software));
     app_store_apps :=
       length (filter (fun k => startswith "App Store:" k = true) (Py.keys software));
     software_list := software |}.

Definition get_software_summary : Py.M summary :=
  software ← get_installed_software;
  mret (summarize software).

End WithEnv.

End Macos.

(** ** utils/software_reader.py *)

Module SoftwareReader.

Inductive reader := software_reader_windows | software_reader_linux | software_reader_macos.

Section WithEnv.
Context (e : Py.env).

(** The module chosen for the lower-cased [platform.system()]; an
    unknown system raises [OSError]. *)
Definition get_platform_reader : Py.M reader :=
  let system := PyStr.lower (Py.platform_system e) in
  if String.eqb system "windows" then mret software_reader_windows
  else if String.eqb system "linux" then mret software_reader_linux
  else if String.eqb system "darwin" then mret software_reader_macos
  else Py.raise (Py.Exn Py.OSError ("Unsupported operating system: " +:+ system)).

Definition get_installed_software : Py.M (gmap string string) :=
  reader ← get_platform_reader;
  match reader with
  | software_reader_windows => Windows.get_installed_software e
  | software_reader_linux => Linux.get_installed_software e
  | software_reader_macos => Macos.get_installed_software e
  end.

(** The summary of the platform's reader. *)
Inductive summary :=
| windows_summary (s : Windows.summary)
| linux_summary (s : Linux.summary)
| macos_summary (s : Macos.summary).

Definition get_software_summary : Py.M summary :=
  reader ← get_platform_reader;
  match reader with
  | software_reader_windows => s ← Windows.get_software_summary e; mret (windows_summary s)
  | software_reader_linux => s ← Linux.get_software_summary e; mret (linux_summary s)
  | software_reader_macos => s ← Macos.get_software_summary e; mret (macos_summary s)
  end.

End WithEnv.

End SoftwareReader.

(** ** utils/port_listener.py *)

Module PortListener.

Import PyStr.

(** The dictionary stored for one port. *)
Record port_entry := PortEntry {
  Protocol : Py.value;
  Port : Py.value;
  Local_Address : Py.value;
  State : Py.value;
  PID : Py.value;
  Process : Py.value
}.

(** A value of the returned dictionary: the table of one scan, or the
    text stored under ['error']. *)
Inductive info_value :=
| Table (t : list (string * port_entry))
| Text (s : string).

(** [l[i]], read under the length test that guards it *)
Definition item (i : nat) (l : list string) : string := nth i l EmptyString.

(** [if table: port_info[name] = table] *)
Definition store (name : string) (table : list (string * port_entry))
    (port_info : list (string * info_value)) : list (string * info_value) :=
  match table with
  | [] => port_info
  | _ => Py.oset name (Table table) port_info
  end.

(** *** Windows *)

Definition windows_netstat_line (listening_ports : list (string * port_entry))
    (line : string) : list (string * port_entry) :=
  if contains "LISTENING" line || contains "ESTABLISHED" line then
    let parts := split_ws line in
    if (5 <=? length parts)%nat then
      let protocol := item 0 parts in
      let local_address := item 1 parts in
      let state := item 3 parts in
      let pid := if String.eqb (item 4 parts) "0" then "Unknown" else item 4 parts in
      if has_char ":" local_address then
        match rsplit1 ":" local_address with
        | [ip; port] =>
            match to_int port with
            | Some port_num =>
                let key := protocol +:+ ":" +:+ of_Z port_num in
                if negb (Py.omem key listening_ports) then
                  Py.oset key
                    {| Protocol := Py.VStr protocol;
                       Port := Py.VInt port_num;
                       Local_Address := Py.VStr ip;
                       State := Py.VStr state;
                       PID := Py.VStr pid;
                       Process := Py.VStr "Unknown" |}
                    listening_ports
                else listening_ports
            | None => listening_ports
            end
        | _ => listening_ports
        end
      else listening_ports
    else listening_ports
  else listening_ports.

Definition set_process (port_data : port_entry) (process : Py.value) : port_entry :=
  {| Protocol := Protocol port_data;
     Port := Port port_data;
     Local_Address := Local_Address port_data;
     State := State port_data;
     PID := PID port_data;
     Process := process |}.

Definition value_is (v : Py.value) (s : string) : bool :=
  match v with
  | Py.VStr t => String.eqb t s
  | _ => false
  end.

(** The record built from one object of the PowerShell answer. *)
Definition tcp_listener (tcp_listeners : list (string * port_entry))
    (conn : list (string * Py.value)) : list (string * port_entry) :=
  let port := Py.get conn "LocalPort" Py.VNone in
  let address := Py.get conn "LocalAddress" (Py.VStr "0.0.0.0") in
  let pid := Py.get conn "OwningProcess" Py.VNone in
  if Py.truthy port then
    let key := "TCP:" +:+ Py.str port in
    Py.oset key
      {| Protocol := Py.VStr "TCP";
         Port := port;
         Local_Address := address;
         State := Py.VStr "LISTENING";
         PID := pid;
         Process := Py.VStr "Unknown" |}
      tcp_listeners
  else tcp_listeners.

Definition tcp_listeners_of (data : Py.value) : list (string * port_entry) :=
  match data with
  | Py.VList conns =>
      foldl (fun t conn => match conn with
                           | Py.VDict d => tcp_listener t d
                           | _ => t
                           end) [] conns
  | Py.VDict d => tcp_listener [] d
  | _ => []
  end.

Definition ps_script : string :=
  join Windows.nl
    [ EmptyString;
      "        Get-NetTCPConnection | Where-Object {$_.State -eq "
        +:+ Windows.dq +:+ "Listen" +:+ Windows.dq +:+ "} | ";
      "        Select-Object LocalAddress, LocalPort, OwningProcess | ";
      "        ConvertTo-Json";
      "        " ].

(** *** Linux *)

Definition linux_netstat_line (listening_ports : list (string * port_entry))
    (line : string) : list (string * port_entry) :=
  if contains "LISTEN" line || contains "udp" (lower line) then
    let parts := split_ws line in
    if (6 <=? length parts)%nat then
      let protocol := item 0 parts in
      let local_address := item 3 parts in
      let process_info := if (6 <? length parts)%nat then item 6 parts else "Unknown" in
      if has_char ":" local_address then
        match rsplit1 ":" local_address with
        | [ip; port] =>
            match to_int port with
            | Some port_num =>
                let key := protocol +:+ ":" +:+ of_Z port_num in
                let '(pid, process) :=
                  if has_char "/" process_info then
                    match split1 "/" process_info with
                    | [pid_part; process] => (pid_part, process)
                    | _ => ("Unknown", "Unknown")
                    end
                  else ("Unknown", "Unknown") in
                Py.oset key
                  {| Protocol := Py.VStr protocol;
                     Port := Py.VInt port_num;
                     Local_Address := Py.VStr ip;
                     State := Py.VStr "LISTENING";
                     PID := Py.VStr pid;
                     Process := Py.VStr process |}
                  listening_ports
            | None => listening_ports
            end
        | _ => listening_ports
        end
      else listening_ports
    else listening_ports
  else listening_ports.

(** [pid=(\d+)] *)
Definition pid_re : list Re.item := [ Re.Lit "pid="; Re.Plus true true Re.digit ].

(** [\(Q([^Q]+)Q], where Q stands for the double quote character *)
Definition process_re : list Re.item :=
  [ Re.Lit (String "(" (String Py.dquote EmptyString));
    Re.Plus true true (Re.none_of [Py.dquote]);
    Re.Lit (String Py.dquote EmptyString) ].

Definition ss_line (ss_ports : list (string * port_entry)) (line : string)
    : list (string * port_entry) :=
  if contains "LISTEN" line || contains "UNCONN" line then
    let parts := split_ws line in
    if (5 <=? length parts)%nat then
      let protocol := item 0 parts in
      let local_address := item 4 parts in
      let process_info := if (6 <? length parts)%nat then item 6 parts else "Unknown" in
      if has_char ":" local_address then
        match rsplit1 ":" local_address with
        | [ip; port] =>
            match to_int port with
            | Some port_num =>
                let key := protocol +:+ ":" +:+ of_Z port_num in
                let pid :=
                  if contains "pid=" process_info then
                    match Re.re_search pid_re process_info with
                    | Some [p] => p
                    | _ => "Unknown"
                    end
                  else "Unknown" in
                let process :=
                  if has_char "(" process_info && has_char ")" process_info then
                    match Re.re_search process_re process_info with
                    | Some [p] => p
                    | _ => "Unknown"
                    end
                  else "Unknown" in
                Py.oset key
                  {| Protocol := Py.VStr protocol;
                     Port := Py.VInt port_num;
                     Local_Address := Py.VStr ip;
                     State := Py.VStr "LISTENING";
                     PID := Py.VStr pid;
                     Process := Py.VStr process |}
                  ss_ports
            | None => ss_ports
            end
        | _ => ss_ports
        end
      else ss_ports
    else ss_ports
  else ss_ports.

(** *** macOS *)

Definition macos_netstat_line (listening_ports : list (string * port_entry))
    (line : string) : list (string * port_entry) :=
  if contains "LISTEN" line then
    let parts := split_ws line in
    if (6 <=? length parts)%nat then
      let protocol := item 0 parts in
      let local_address := item 3 parts in
      if has_char "." local_address then
        match rsplit1 "." local_address with
        | [ip; port] =>
            match to_int port with
            | Some port_num =>
                let key := protocol +:+ ":" +:+ of_Z port_num in
                Py.oset key
                  {| Protocol := Py.VStr protocol;
                     Port := Py.VInt port_num;
                     Local_Address := Py.VStr ip;
                     State := Py.VStr "LISTENING";
                     PID := Py.VStr "Unknown";
                     Process := Py.VStr "Unknown" |}
                  listening_ports
            | None => listening_ports
            end
        | _ => listening_ports
        end
      else listening_ports
    else listening_ports
  else listening_ports.

Definition lsof_line (lsof_ports : list (string * port_entry)) (line : string)
    : list (string * port_entry) :=
  if contains "LISTEN" line then
    let parts := split_ws line in
    if (9 <=? length parts)%nat then
      let process := item 0 parts in
      let pid := item 1 parts in
      let protocol_port := item 8 parts in
      if has_char ":" protocol_port && negb (contains "->" protocol_port) then
        match rsplit1 ":" protocol_port with
        | [address; port] =>
            match to_int port with
            | Some port_num =>
                let protocol := "TCP" in
                let key := protocol +:+ ":" +:+ of_Z port_num in
                Py.oset key
                  {| Protocol := Py.VStr protocol;
                     Port := Py.VInt port_num;
                     Local_Address :=
                       Py.VStr (if String.eqb address "*" then "0.0.0.0" else address);
                     State := Py.VStr "LISTENING";
                     PID := Py.VStr pid;
                     Process := Py.VStr process |}
                  lsof_ports
            | None => lsof_ports
            end
        | _ => lsof_ports
        end
      else lsof_ports
    else lsof_ports
  else lsof_ports.

Section WithEnv.
Context (e : Py.env).

(** A text scan: [try: print; run; if returncode == 0: parse and store
    except Exception as e: print]. *)
Definition text_scan (announce : string) (argv : list string)
    (parse : string -> list (string * port_entry)) (name failed : string)
    (port_info : list (string * info_value)) : Py.M (list (string * info_value)) :=
  Py.try_except
    (Py.print announce;;
     result ← Py.run e argv;
     if result.1 =? 0 then mret (store name (parse result.2) port_info)
     else mret port_info)
    [Py.Exception]
    (fun x => Py.print (failed +:+ Py.exn_text x);; mret port_info).

(** One turn of the loop over [port_info['Listening Ports'].items()]. *)
Definition map_process (port_data : port_entry) : Py.M port_entry :=
  let pid := PID port_data in
  if Py.truthy pid && negb (value_is pid "Unknown") && negb (value_is pid "0") then
    Py.try_except
      (result ← Py.run e ["tasklist"; "/FI"; "PID eq " +:+ Py.str pid; "/FO"; "CSV"];
       if result.1 =? 0 then
         match lines (strip result.2) with
         | _ :: line1 :: _ =>
             match split_char "," (remove_char Py.dquote line1) with
             | process :: _ => mret (set_process port_data (Py.VStr process))
             | [] => mret port_data
             end
         | _ => mret port_data
         end
       else mret port_data)
      [Py.Exception]
      (fun _ => mret port_data)
  else mret port_data.

Fixpoint map_processes (items : list (string * port_entry))
    : Py.M (list (string * port_entry)) :=
  match items with
  | [] => mret []
  | (port_key, port_data) :: rest =>
      port_data ← map_process port_data;
      rest ← map_processes rest;
      mret ((port_key, port_data) :: rest)
  end.

Definition process_mapping (port_info : list (string * info_value))
    : Py.M (list (string * info_value)) :=
  Py.try_except
    (Py.print "Mapping processes to ports...";;
     match Py.assoc "Listening Ports" port_info with
     | Some (Table items) =>
         items ← map_processes items;
         mret (Py.oset "Listening Ports" (Table items) port_info)
     | _ => mret port_info
     end)
    [Py.Exception]
    (fun x => Py.print ("Process mapping failed: " +:+ Py.exn_text x);;
              mret port_info).

Definition powershell_scan (port_info : list (string * info_value))
    : Py.M (list (string * info_value)) :=
  Py.try_except
    (Py.print "Scanning services via PowerShell...";;
     result ← Py.run e ["powershell"; "-Command"; ps_script];
     if (result.1 =? 0) && nonempty (strip result.2) then
       Py.try_except
         (data ← Py.loads e result.2;
          mret (store "TCP Listeners" (tcp_listeners_of data) port_info))
         [Py.JSONDecodeError; Py.AttributeError]
         (fun x => Py.print ("PowerShell TCP parsing failed: " +:+ Py.exn_text x);;
                   mret port_info)
     else mret port_info)
    [Py.Exception]
    (fun x => Py.print ("PowerShell TCP scan failed: " +:+ Py.exn_text x);;
              mret port_info).

Definition get_windows_ports : Py.M (list (string * info_value)) :=
  port_info ←
    text_scan "Scanning open ports via netstat..." ["netstat"; "-ano"]
      (fun out => foldl windows_netstat_line [] (drop 4 (lines (strip out))))
      "Listening Ports" "Netstat scan failed: " [];
  port_info ← process_mapping port_info;
  powershell_scan port_info.

Definition get_linux_ports : Py.M (list (string * info_value)) :=
  port_info ←
    text_scan "Scanning open ports via netstat..." ["netstat"; "-tulpn"]
      (fun out => foldl linux_netstat_line [] (lines (strip out)))
      "Listening Ports" "Linux netstat scan failed: " [];
  text_scan "Scanning ports via ss command..." ["ss"; "-tulpn"]
    (fun out => foldl ss_line [] (drop 1 (lines (strip out))))
    "SS Listeners" "Linux ss scan failed: " port_info.

Definition get_macos_ports : Py.M (list (string * info_value)) :=
  port_info ←
    text_scan "Scanning open ports via netstat..." ["netstat"; "-an"]
      (fun out => foldl macos_netstat_line [] (lines (strip out)))
      "Listening Ports" "macOS netstat scan failed: " [];
  text_scan "Scanning ports via lsof..." ["lsof"; "-i"; "-P"; "-n"]
    (fun out => foldl lsof_line [] (drop 1 (lines (strip out))))
    "LSOF Listeners" "macOS lsof scan failed: " port_info.

Definition get_listening_ports : Py.M (list (string * info_value)) :=
  let system := lower (Py.platform_system e) in
  Py.print ("Detecting listening ports on " +:+ system +:+ "...");;
  if String.eqb system "windows" then get_windows_ports
  else if String.eqb system "linux" then get_linux_ports
  else if String.eqb system "darwin" then get_macos_ports
  else mret [("error", Text ("Unsupported operating system: " +:+ system))].

(** *** The summary *)

Record summary := Summary {
  total_ports : nat;
  tcp_ports : nat;
  udp_ports : nat;
  categories : list string;
  port_details : list (string * info_value)
}.

(** What [get_port_summary] returns: the dictionary of the scan itself
    when it has an ['error'] entry, the summary otherwise. *)
Inductive summary_value :=
| Unsummarized (ports : list (string * info_value))
| Summarized (s : summary).

(** [len(v) if isinstance(v, dict) else 0] *)
Definition ports_in (v : info_value) : nat :=
  match v with
  | Table t => length t
  | Text _ => 0
  end.

(** [v.upper()]: only a [str] has the method. *)
Definition upper_of (v : Py.value) : Py.M string :=
  match v with
  | Py.VStr s => mret (upper s)
  | _ => Py.raise (Py.Exn Py.AttributeError "object has no attribute 'upper'")
  end.

(** The loop over [port_list.values()]: the TCP and UDP counts so far. *)
Fixpoint count_protocols (port_list : list (string * port_entry)) (counts : nat * nat)
    : Py.M (nat * nat) :=
  match port_list with
  | [] => mret counts
  | (_, port_info) :: rest =>
      protocol ← upper_of (Protocol port_info);
      let counts :=
        if contains "TCP" protocol then (S counts.1, counts.2)
        else if contains "UDP" protocol then (counts.1, S counts.2)
        else counts in
      count_protocols rest counts
  end.

(** The loop over [ports.items()]. *)
Fixpoint count_categories (ports : list (string * info_value)) (counts : nat * nat)
    : Py.M (nat * nat) :=
  match ports with
  | [] => mret counts
  | (_, Table port_list) :: rest =>
      counts ← count_protocols port_list counts;
      count_categories rest counts
  | (_, Text _) :: rest => count_categories rest counts
  end.

Definition get_port_summary : Py.M summary_value :=
  ports ← get_listening_ports;
  if Py.omem "error" ports then mret (Unsummarized ports)
  else
    let total_ports := list_sum (map (fun kv => ports_in kv.2) ports) in
    counts ← count_categories ports (0%nat, 0%nat);
    mret (Summarized
            {| total_ports := total_ports;
               tcp_ports := counts.1;
               udp_ports := counts.2;
               categories := map fst ports;
               port_details := ports |}).

End WithEnv.

End PortListener.


(** ** utils/hardware_firmware_reader.py *)

Module Firmware.

Import PyStr.

(** A value of the returned dictionary: the attributes of one component,
    the attributes of several devices by device name, or the text stored
    under ['error']. *)
Inductive fw_value :=
| Fields (d : list (string * Py.value))
| Devices (d : list (Py.value * list (string * Py.value)))
| Text (s : string).

(** [type(v).__name__] *)
Definition type_name (v : Py.value) : string :=
  match v with
  | Py.VNone => "NoneType"
  | Py.VBool _ => "bool"
  | Py.VInt _ => "int"
  | Py.VFloat _ => "float"
  | Py.VStr _ => "str"
  | Py.VList _ => "list"
  | Py.VDict _ => "dict"
  end.

(** [obj.get(k, default)]: only a dict has the method. *)
Definition get (obj : Py.value) (k : string) (default : Py.value) : Py.M Py.value :=
  match obj with
  | Py.VDict d => mret (Py.get d k default)
  | _ => Py.raise (Py.Exn Py.AttributeError
                     ("'" +:+ type_name obj +:+ "' object has no attribute 'get'"))
  end.

(** [len(obj)] *)
Definition len (obj : Py.value) : Py.M nat :=
  match obj with
  | Py.VStr s => mret (String.length s)
  | Py.VList l => mret (length l)
  | Py.VDict d => mret (length d)
  | _ => Py.raise (Py.Exn Py.TypeError
                     ("object of type '" +:+ type_name obj +:+ "' has no len()"))
  end.

(** [obj[0]]; the keys of a decoded dict are strings, so [0] is missing. *)
Definition first (obj : Py.value) : Py.M Py.value :=
  match obj with
  | Py.VList (x :: _) => mret x
  | Py.VList [] => Py.raise (Py.Exn Py.IndexError "list index out of range")
  | Py.VStr (String c _) => mret (Py.VStr (String c EmptyString))
  | Py.VStr EmptyString => Py.raise (Py.Exn Py.IndexError "string index out of range")
  | Py.VDict _ => Py.raise (Py.Exn Py.KeyError "0")
  | _ => Py.raise (Py.Exn Py.TypeError
                     ("'" +:+ type_name obj +:+ "' object is not subscriptable"))
  end.

Fixpoint chars (s : string) : list Py.value :=
  match s with
  | EmptyString => []
  | String c s' => Py.VStr (String c EmptyString) :: chars s'
  end.

(** The elements [for x in obj] goes through. *)
Definition iter (obj : Py.value) : Py.M (list Py.value) :=
  match obj with
  | Py.VList l => mret l
  | Py.VStr s => mret (chars s)
  | Py.VDict d => mret (map (fun kv => Py.VStr (fst kv)) d)
  | _ => Py.raise (Py.Exn Py.TypeError
                     ("'" +:+ type_name obj +:+ "' object is not iterable"))
  end.

Definition hashable (v : Py.value) : bool :=
  match v with
  | Py.VList _ | Py.VDict _ => false
  | _ => true
  end.

(** The integer a float equals, read off its [repr] ([1.0], [-0.0]); a
    float printed with an exponent is taken to equal no integer. *)
Definition float_int (r : string) : option Z :=
  match rsplit1 "." r with
  | [a; "0"] => to_int a
  | _ => None
  end.

Definition number (v : Py.value) : option Z :=
  match v with
  | Py.VBool b => Some (if b then 1 else 0)
  | Py.VInt z => Some z
  | Py.VFloat r => float_int r
  | _ => None
  end.

(** Equality of two hashable keys: [True == 1 == 1.0]; a NaN decoded from
    the text is a key of its own. *)
Definition key_eqb (a b : Py.value) : bool :=
  match a, b with
  | Py.VNone, Py.VNone => true
  | Py.VStr s, Py.VStr t => String.eqb s t
  | _, _ =>
      match number a, number b with
      | Some x, Some y => x =? y
      | _, _ =>
          match a, b with
          | Py.VFloat r, Py.VFloat r' => String.eqb r r' && negb (String.eqb r "nan")
          | _, _ => false
          end
      end
  end.

Fixpoint dset_items {V} (k : Py.value) (v : V) (d : list (Py.value * V))
    : list (Py.value * V) :=
  match d with
  | [] => [(k, v)]
  | (k', v') :: d' =>
      if key_eqb k' k then (k', v) :: d' else (k', v') :: dset_items k v d'
  end.

(** [d[k] = v] for a key of any type *)
Definition dset {V} (k : Py.value) (v : V) (d : list (Py.value * V))
    : Py.M (list (Py.value * V)) :=
  if hashable k then mret (dset_items k v d)
  else Py.raise (Py.Exn Py.TypeError ("unhashable type: '" +:+ type_name k +:+ "'")).

(** [{out: d.get(key, 'Unknown'), ...}] *)
Definition attributes (fields : list (string * string)) (d : list (string * Py.value))
    : list (string * Py.value) :=
  map (fun f => (fst f, Py.get d (snd f) (Py.VStr "Unknown"))) fields.

Definition bios_script : string :=
  join Windows.nl
    [ EmptyString;
      "        Get-WmiObject -Class Win32_BIOS | ";
      "        Select-Object Manufacturer, Name, Version, ReleaseDate, SerialNumber | ";
      "        ConvertTo-Json";
      "        " ].

Definition baseboard_script : string :=
  join Windows.nl
    [ EmptyString;
      "        Get-WmiObject -Class Win32_BaseBoard | ";
      "        Select-Object Manufacturer, Product, Version, SerialNumber | ";
      "        ConvertTo-Json";
      "        " ].

Definition network_script : string :=
  join Windows.nl
    [ EmptyString;
      "        Get-WmiObject -Class Win32_NetworkAdapter | ";
      "        Where-Object {$_.PhysicalAdapter -eq $true -and $_.AdapterType -ne $null} |";
      "        Select-Object Name, Manufacturer, Description, DriverVersion | ";
      "        ConvertTo-Json";
      "        " ].

Definition disk_script : string :=
  join Windows.nl
    [ EmptyString;
      "        Get-WmiObject -Class Win32_DiskDrive | ";
      "        Select-Object Model, Manufacturer, FirmwareRevision, SerialNumber, InterfaceType | ";
      "        ConvertTo-Json";
      "        " ].

Definition video_script : string :=
  join Windows.nl
    [ EmptyString;
      "        Get-WmiObject -Class Win32_VideoController | ";
      "        Select-Object Name, DriverVersion, DriverDate, VideoProcessor | ";
      "        ConvertTo-Json";
      "        " ].

Definition bios_fields : list (string * string) :=
  [ ("Manufacturer", "Manufacturer"); ("Name", "Name"); ("Version", "Version");
    ("Release Date", "ReleaseDate"); ("Serial Number", "SerialNumber") ].

Definition baseboard_fields : list (string * string) :=
  [ ("Manufacturer", "Manufacturer"); ("Product", "Product"); ("Version", "Version");
    ("Serial Number", "SerialNumber") ].

Definition network_fields : list (string * string) :=
  [ ("Manufacturer", "Manufacturer"); ("Description", "Description");
    ("Driver Version", "DriverVersion") ].

Definition disk_fields : list (string * string) :=
  [ ("Manufacturer", "Manufacturer"); ("Firmware Revision", "FirmwareRevision");
    ("Serial Number", "SerialNumber"); ("Interface Type", "InterfaceType") ].

Definition video_fields : list (string * string) :=
  [ ("Driver Version", "DriverVersion"); ("Driver Date", "DriverDate");
    ("Video Processor", "VideoProcessor") ].

(** [for i, device in enumerate(data)]: the device is named by its
    [name_key], or [label i+1] when it has none. *)
Fixpoint devices_loop (name_key label : string) (fields : list (string * string))
    (i : nat) (data : list Py.value)
    (devices : list (Py.value * list (string * Py.value)))
    : Py.M (list (Py.value * list (string * Py.value))) :=
  match data with
  | [] => mret devices
  | device :: rest =>
      match device with
      | Py.VDict d =>
          let device_name :=
            Py.get d name_key
              (Py.VStr (label +:+ " " +:+ of_Z (Z.of_nat i + 1))) in
          devices ← dset device_name (attributes fields d) devices;
          devices_loop name_key label fields (S i) rest devices
      | _ => devices_loop name_key label fields (S i) rest devices
      end
  end.

Definition devices_of (name_key label : string) (fields : list (string * string))
    (data : Py.value) : Py.M (list (Py.value * list (string * Py.value))) :=
  match data with
  | Py.VList l => devices_loop name_key label fields 0 l []
  | Py.VDict d =>
      let device_name := Py.get d name_key (Py.VStr label) in
      dset device_name (attributes fields d) []
  | _ => mret []
  end.

(** [if devices: firmware_info[name] = devices] *)
Definition store_devices (name : string)
    (devices : list (Py.value * list (string * Py.value)))
    (firmware_info : list (string * fw_value)) : list (string * fw_value) :=
  match devices with
  | [] => firmware_info
  | _ => Py.oset name (Devices devices) firmware_info
  end.

Definition store_fields (name : string) (fields : list (string * Py.value))
    (firmware_info : list (string * fw_value)) : list (string * fw_value) :=
  match fields with
  | [] => firmware_info
  | _ => Py.oset name (Fields fields) firmware_info
  end.

(** *** Linux parsers *)

(** [line.split(':', 1)[1].strip()], read when the line has a colon *)
Definition after_colon (line : string) : string :=
  strip (PortListener.item 1 (split1 ":" line)).

Definition dmidecode_line (bios_info : list (string * Py.value)) (line : string)
    : list (string * Py.value) :=
  if contains "Vendor:" line then
    Py.oset "Manufacturer" (Py.VStr (after_colon line)) bios_info
  else if contains "Version:" line then
    Py.oset "Version" (Py.VStr (after_colon line)) bios_info
  else if contains "Release Date:" line then
    Py.oset "Release Date" (Py.VStr (after_colon line)) bios_info
  else bios_info.

(** The loop over the [lspci -v] lines: the devices found so far and
    [current_device] ([None] before the first controller line). *)
Definition lspci_line
    (st : list (string * list (string * Py.value)) * option string) (line : string)
    : list (string * list (string * Py.value)) * option string :=
  let '(network_devices, current_device) := st in
  if contains "Ethernet controller" line || contains "Network controller" line then
    let device :=
      if contains ": " line then PortListener.item 1 (split1 ": " line) else line in
    (Py.oset device [] network_devices, Some device)
  else
    match current_device with
    | Some device =>
        if nonempty device && contains "Kernel driver in use:" line then
          match Py.assoc device network_devices with
          | Some info =>
              (Py.oset device (Py.oset "Driver" (Py.VStr (after_colon line)) info)
                 network_devices, current_device)
          | None => st
          end
        else st
    | None => st
    end.

Definition string_of_codes (l : list N) : string :=
  fold_right (fun n s => String (ascii_of_N n) s) EmptyString l.

(** The two prefixes tested on the first column of [lsblk], as the bytes of
    the source literals. *)
Definition branch_prefix : string := string_of_codes [195; 162; 226; 128; 157; 197; 147]%N.
Definition corner_prefix : string :=
  string_of_codes [195; 162; 226; 128; 157; 226; 128; 157]%N.

Definition lsblk_line (storage_devices : list (string * list (string * Py.value)))
    (line : string) : list (string * list (string * Py.value)) :=
  let parts := split_ws line in
  if (2 <=? length parts)%nat
     && negb (startswith branch_prefix (PortListener.item 0 parts))
     && negb (startswith corner_prefix (PortListener.item 0 parts)) then
    let device_name :=
      if (1 <? length parts)%nat && nonempty (PortListener.item 1 parts)
      then PortListener.item 1 parts else PortListener.item 0 parts in
    let device_info : list (string * Py.value) := [] in
    let device_info :=
      if (2 <? length parts)%nat
      then Py.oset "Serial" (Py.VStr (PortListener.item 2 parts)) device_info
      else device_info in
    let device_info :=
      if (3 <? length parts)%nat
      then Py.oset "Firmware Revision" (Py.VStr (PortListener.item 3 parts)) device_info
      else device_info in
    match device_info with
    | [] => storage_devices
    | _ => Py.oset device_name device_info storage_devices
    end
  else storage_devices.

Definition named (d : list (string * list (string * Py.value)))
    : list (Py.value * list (string * Py.value)) :=
  map (fun kv => (Py.VStr (fst kv), snd kv)) d.

Section WithEnv.
Context (e : Py.env).

(** A PowerShell probe decoded with [json.loads]; [use] is the code under
    the inner [try], after the decoding. *)
Definition json_probe (announce script : string)
    (use : Py.value -> list (string * fw_value) -> Py.M (list (string * fw_value)))
    (parse_failed scan_failed : string)
    (firmware_info : list (string * fw_value)) : Py.M (list (string * fw_value)) :=
  Py.try_except
    (Py.print announce;;
     result ← Py.run e ["powershell"; "-Command"; script];
     if (result.1 =? 0) && nonempty (strip result.2) then
       Py.try_except
         (data ← Py.loads e result.2;
          use data firmware_info)
         [Py.JSONDecodeError; Py.AttributeError]
         (fun x => Py.print (parse_failed +:+ Py.exn_text x);; mret firmware_info)
     else mret firmware_info)
    [Py.Exception]
    (fun x => Py.print (scan_failed +:+ Py.exn_text x);; mret firmware_info).

(** [if isinstance(data, dict): firmware_info[name] = {...}] *)
Definition use_fields (name : string) (fields : list (string * string))
    (data : Py.value) (firmware_info : list (string * fw_value))
    : Py.M (list (string * fw_value)) :=
  match data with
  | Py.VDict d => mret (Py.oset name (Fields (attributes fields d)) firmware_info)
  | _ => mret firmware_info
  end.

Definition use_devices (name name_key label : string) (fields : list (string * string))
    (data : Py.value) (firmware_info : list (string * fw_value))
    : Py.M (list (string * fw_value)) :=
  devices ← devices_of name_key label fields data;
  mret (store_devices name devices firmware_info).

Definition get_windows_firmware : Py.M (list (string * fw_value)) :=
  firmware_info ←
    json_probe "Scanning BIOS/UEFI firmware..." bios_script
      (use_fields "BIOS/UEFI" bios_fields)
      "BIOS JSON parsing failed: " "BIOS scan failed: " [];
  firmware_info ←
    json_probe "Scanning motherboard firmware..." baseboard_script
      (use_fields "Motherboard" baseboard_fields)
      "Motherboard JSON parsing failed: " "Motherboard scan failed: " firmware_info;
  firmware_info ←
    json_probe "Scanning network adapter firmware..." network_script
      (use_devices "Network Adapters" "Name" "Network Adapter" network_fields)
      "Network adapter JSON parsing failed: " "Network adapter scan failed: "
      firmware_info;
  firmware_info ←
    json_probe "Scanning storage device firmware..." disk_script
      (use_devices "Storage Devices" "Model" "Storage Device" disk_fields)
      "Storage device JSON parsing failed: " "Storage device scan failed: "
      firmware_info;
  json_probe "Scanning graphics card firmware..." video_script
    (use_devices "Graphics Cards" "Name" "Graphics Card" video_fields)
    "Graphics card JSON parsing failed: " "Graphics card scan failed: "
    firmware_info.

(** A text probe of the Linux reader. *)
Definition text_probe (announce : string) (argv : list string)
    (use : string -> list (string * fw_value) -> list (string * fw_value))
    (failed : string)
    (firmware_info : list (string * fw_value)) : Py.M (list (string * fw_value)) :=
  Py.try_except
    (Py.print announce;;
     result ← Py.run e argv;
     if result.1 =? 0 then mret (use result.2 firmware_info)
     else mret firmware_info)
    [Py.Exception]
    (fun x => Py.print (failed +:+ Py.exn_text x);; mret firmware_info).

Definition get_linux_firmware : Py.M (list (string * fw_value)) :=
  firmware_info ←
    text_probe "Scanning BIOS/UEFI firmware..." ["dmidecode"; "-t"; "bios"]
      (fun out => store_fields "BIOS/UEFI" (foldl dmidecode_line [] (lines out)))
      "Linux BIOS scan failed: " [];
  firmware_info ←
    text_probe "Scanning network interface firmware..." ["lspci"; "-v"]
      (fun out =>
         store_devices "Network Devices"
           (named (foldl lspci_line ([], None) (lines out)).1))
      "Linux network scan failed: " firmware_info;
  text_probe "Scanning storage device firmware..."
    ["lsblk"; "-o"; "NAME,MODEL,SERIAL,REV"]
    (fun out =>
       store_devices "Storage Devices"
         (named (foldl lsblk_line [] (drop 1 (lines (strip out))))))
    "Linux storage scan failed: " firmware_info.

(** A [system_profiler -json] probe of the macOS reader: no test on the
    text before decoding, and the inner handler is
    [except (json.JSONDecodeError, KeyError)]. *)
Definition profiler_probe (announce data_type : string)
    (use : Py.value -> list (string * fw_value) -> Py.M (list (string * fw_value)))
    (parse_failed scan_failed : string)
    (firmware_info : list (string * fw_value)) : Py.M (list (string * fw_value)) :=
  Py.try_except
    (Py.print announce;;
     result ← Py.run e ["system_profiler"; data_type; "-json"];
     if result.1 =? 0 then
       Py.try_except
         (data ← Py.loads e result.2;
          use data firmware_info)
         [Py.JSONDecodeError; Py.KeyError]
         (fun x => Py.print (parse_failed +:+ Py.exn_text x);; mret firmware_info)
     else mret firmware_info)
    [Py.Exception]
    (fun x => Py.print (scan_failed +:+ Py.exn_text x);; mret firmware_info).

Definition use_hardware (data : Py.value) (firmware_info : list (string * fw_value))
    : Py.M (list (string * fw_value)) :=
  hardware_info ← get data "SPHardwareDataType" (Py.VList []);
  if Py.truthy hardware_info then
    n ← len hardware_info;
    if (0 <? n)%nat then
      hw ← first hardware_info;
      boot ← get hw "boot_rom_version" (Py.VStr "Unknown");
      smc ← get hw "SMC_version_system" (Py.VStr "Unknown");
      serial ← get hw "serial_number" (Py.VStr "Unknown");
      mret (Py.oset "System Firmware"
              (Fields [ ("Boot ROM Version", boot); ("SMC Version", smc);
                        ("Serial Number", serial) ])
              firmware_info)
    else mret firmware_info
  else mret firmware_info.

Fixpoint storage_loop (devices : list Py.value)
    (storage_devices : list (Py.value * list (string * Py.value)))
    : Py.M (list (Py.value * list (string * Py.value))) :=
  match devices with
  | [] => mret storage_devices
  | device :: rest =>
      device_name ← get device "_name" (Py.VStr "Unknown Storage");
      drive ← get device "com.apple.diskUtility.partitionMapType" (Py.VStr "Unknown");
      media ← get device "device_model" (Py.VStr "Unknown");
      revision ← get device "device_revision" (Py.VStr "Unknown");
      storage_devices ←
        dset device_name
          [ ("Physical Drive", drive); ("Media Name", media); ("Revision", revision) ]
          storage_devices;
      storage_loop rest storage_devices
  end.

Definition use_storage (data : Py.value) (firmware_info : list (string * fw_value))
    : Py.M (list (string * fw_value)) :=
  storage_info ← get data "SPStorageDataType" (Py.VList []);
  devices ← iter storage_info;
  storage_devices ← storage_loop devices [];
  mret (store_devices "Storage Devices" storage_devices firmware_info).

Definition get_macos_firmware : Py.M (list (string * fw_value)) :=
  firmware_info ←
    profiler_probe "Scanning macOS system firmware..." "SPHardwareDataType"
      use_hardware
      "macOS hardware JSON parsing failed: " "macOS system firmware scan failed: " [];
  profiler_probe "Scanning macOS storage firmware..." "SPStorageDataType"
    use_storage
    "macOS storage JSON parsing failed: " "macOS storage scan failed: " firmware_info.

Definition get_firmware_info : Py.M (list (string * fw_value)) :=
  let system := lower (Py.platform_system e) in
  Py.print ("Detecting firmware on " +:+ system +:+ "...");;
  if String.eqb system "windows" then get_windows_firmware
  else if String.eqb system "linux" then get_linux_firmware
  else if String.eqb system "darwin" then get_macos_firmware
  else mret [("error", Text ("Unsupported operating system: " +:+ system))].

(** *** The summary *)

Record summary := Summary {
  total_components : nat;
  categories : list string;
  firmware_details : list (string * fw_value)
}.

(** What [get_firmware_summary] returns: the dictionary of the scan itself
    when it has an ['error'] entry, the summary otherwise. *)
Inductive summary_value :=
| Unsummarized (firmware : list (string * fw_value))
| Summarized (s : summary).

(** [len(v) if isinstance(v, dict) else 1] *)
Definition components (v : fw_value) : nat :=
  match v with
  | Fields d => length d
  | Devices d => length d
  | Text _ => 1
  end.

Definition get_firmware_summary : Py.M summary_value :=
  firmware ← get_firmware_info;
  if Py.omem "error" firmware then mret (Unsummarized firmware)
  else
    mret (Summarized
            {| total_components := list_sum (map (fun kv => components kv.2) firmware);
               categories := map fst firmware;
               firmware_details := firmware |}).

End WithEnv.

End Firmware.

(** ** Notions used to state the properties *)

Module Props.

(** The exception is an instance of [Exception], which is what the
    failure of an external tool raises (a missing executable raises
    [FileNotFoundError], a time-out [TimeoutExpired], an undecodable
    output [UnicodeDecodeError]); [KeyboardInterrupt] is not. *)
Definition is_exception (x : Py.exn) : Prop := Py.catches [Py.Exception] x = true.

(** A host on which running a tool and decoding JSON raise nothing but
    instances of [Exception]. *)
Definition ordinary (e : Py.env) : Prop :=
  (∀ n argv x, Py.subprocess_run e n argv = Py.Raised x → is_exception x)
  ∧ (∀ text x, Py.json_loads e text = Py.Raise x → is_exception x).

(** The probe failed: it raised, or it exited with a non-zero status. *)
Definition failed (o : Py.outcome) : Prop :=
  match o with
  | Py.Raised x => is_exception x
  | Py.Completed rc _ => rc ≠ 0
  end.

(** A host on which every external tool fails. *)
Definition all_fail (e : Py.env) : Prop :=
  ∀ n argv, failed (Py.subprocess_run e n argv).

(** The computation raises nothing but instances of [Exception]. *)
Definition raises_ordinary {A} (m : Py.M A) : Prop :=
  ∀ st x st', m st = (Py.Raise x, st') → is_exception x.

(** The computation returns a value from every state. *)
Definition returns {A} (m : Py.M A) : Prop :=
  ∀ st, ∃ a st', m st = (Py.Ok a, st').

(** The computation returns [a] from every state. *)
Definition returns_value {A} (m : Py.M A) (a : A) : Prop :=
  ∀ st, ∃ st', m st = (Py.Ok a, st').

(** Every value the computation returns satisfies [P]. *)
Definition yields {A} (P : A → Prop) (m : Py.M A) : Prop :=
  ∀ st a st', m st = (Py.Ok a, st') → P a.

(** The dictionary has no ['error'] entry. *)
Definition no_error {V} (d : list (string * V)) : Prop := Py.assoc "error" d = None.

(** The value a collector's run holds for an identity, if any. *)
Definition resolved (r : Py.result (gmap string string) * Py.state) (k : string)
    : option string :=
  match r.1 with
  | Py.Ok m => m !! k
  | Py.Raise _ => None
  end.

(** No identity present in both mappings carries conflicting non-unset
    values, an unset value being the text ['Unknown']. *)
Definition no_conflict (A B : gmap string string) : Prop :=
  ∀ k a b, A !! k = Some a → B !! k = Some b → a = b ∨ a = "Unknown" ∨ b = "Unknown".

(** Every identity present in both mappings carries the same value. *)
Definition agree (A B : gmap string string) : Prop :=
  ∀ k a b, A !! k = Some a → B !! k = Some b → a = b.

(** The probe succeeded: the tool completed with exit status 0. *)
Definition success (o : Py.outcome) : bool :=
  match o with
  | Py.Completed rc _ => rc =? 0
  | Py.Raised _ => false
  end.

(** The package managers tried form a stop-at-first-success chain: they
    are tried in the declared order, none is tried after one succeeded, and
    the chain stops before its end only at a success. *)
Definition stops_at_first_success (tried : list (list string * Py.outcome)) : Prop :=
  tried.*1 `prefix_of` Linux.package_managers.*2
  ∧ (∀ i c o, tried !! i = Some (c, o) → success o = true → S i = length tried)
  ∧ ((length tried < length Linux.package_managers)%nat →
     ∃ c o, last tried = Some (c, o) ∧ success o = true).

(** The state after one more tool was run with outcome [o] and [lines]
    were printed. *)
Definition after (st : Py.state) (argv : list string) (o : Py.outcome)
    (lines : list string) : Py.state :=
  Py.State (Py.calls st ++ [(argv, o)]) (Py.printed st ++ lines).

(** The key and the record [get_windows_ports] builds from one decoded
    connection object. *)
Definition listener_key (conn : list (string * Py.value)) : string :=
  "TCP:" +:+ Py.str (Py.get conn "LocalPort" Py.VNone).

Definition listener_record (conn : list (string * Py.value)) : PortListener.port_entry :=
  {| PortListener.Protocol := Py.VStr "TCP";
     PortListener.Port := Py.get conn "LocalPort" Py.VNone;
     PortListener.Local_Address := Py.get conn "LocalAddress" (Py.VStr "0.0.0.0");
     PortListener.State := Py.VStr "LISTENING";
     PortListener.PID := Py.get conn "OwningProcess" Py.VNone;
     PortListener.Process := Py.VStr "Unknown" |}.

(** The object has a port the parser accepts. *)
Definition has_port (conn : list (string * Py.value)) : Prop :=
  Py.truthy (Py.get conn "LocalPort" Py.VNone) = true.

(** The name under which the registry scan records the object: its
    [DisplayName], a non-blank text, stripped. *)
Definition display_name (item : list (string * Py.value)) : option string :=
  match Py.get item "DisplayName" Py.VNone with
  | Py.VStr name =>
      if PyStr.nonempty name && PyStr.nonempty (PyStr.strip name)
      then Some (PyStr.strip name) else None
  | _ => None
  end.

(** The category of a record, read off the prefix of its key. *)
Inductive category := python | snap | flatpak | system.

#[export] Instance category_eq_dec : EqDecision category.
Proof. solve_decision. Defined.

Definition category_of (k : string) : category :=
  if PyStr.startswith "Python:" k then python
  else if PyStr.startswith "Snap:" k then snap
  else if PyStr.startswith "Flatpak:" k then flatpak
  else system.

(** The number of records of the mapping in a category. *)
Definition records_in (c : category) (software : gmap string string) : nat :=
  size (filter (λ kv, category_of kv.1 = c) software).

Definition count_of (s : Linux.summary) (c : category) : nat :=
  match c with
  | python => Linux.python_packages s
  | snap => Linux.snap_packages s
  | flatpak => Linux.flatpak_packages s
  | system => Linux.system_packages s
  end.

(** The keys a probe stores all start with the probe's prefix. *)
Definition keys_start (p : string) (d : gmap string string) : Prop :=
  ∀ k, is_Some (d !! k) → PyStr.startswith p k = true.

(** The steps of the loops over a decoded array, as [tcp_listeners_of] and
    [each_object] write them. *)
Abbreviation listener_step :=
  (λ (t : list (string * PortListener.port_entry)) (conn : Py.value),
     match conn with
     | Py.VDict d => PortListener.tcp_listener t d
     | _ => t
     end).

Abbreviation registry_step :=
  (λ (sl : gmap string string) (item : Py.value),
     match item with
     | Py.VDict d => Windows.registry_entry sl d
     | _ => sl
     end).

Definition supported (e : Py.env) : Prop :=
  PyStr.lower (Py.platform_system e) ∈ ["windows"; "linux"; "darwin"].

(** Every character of the text satisfies [P]. *)
Fixpoint all_chars (P : ascii → bool) (s : string) : bool :=
  match s with
  | EmptyString => true
  | String c s' => P c && all_chars P s'
  end.

(** No name of the mapping holds a space. *)
Definition spaceless (d : gmap string string) : Prop :=
  ∀ k, is_Some (d !! k) → PyStr.has_char " " k = false.

(** What a pattern means: [spells p gs s] when a prefix of [s] is spelt by
    [p], item by item, the groups capturing [gs].  A repetition spells any
    non-empty run of characters of its class, whether greedy or lazy. *)
Inductive spells : list Re.item → list string → string → Prop :=
| spells_nil s : spells [] [] s
| spells_lit l p gs s : spells p gs s → spells (Re.Lit l :: p) gs (l +:+ s)
| spells_end p gs s : Re.at_end s = true → spells p gs s → spells (Re.End_ :: p) gs s
| spells_plus (g greedy : bool) cls p gs w s :
    w ≠ EmptyString → all_chars cls w = true → spells p gs s →
    spells (Re.Plus g greedy cls :: p) (if g then w :: gs else gs) (w +:+ s).

(** A record of a port table sits under the key made of its own protocol
    and port. *)
Definition keyed (kv : string * PortListener.port_entry) : Prop :=
  ∃ protocol,
    PortListener.Protocol kv.2 = Py.VStr protocol
    ∧ kv.1 = protocol +:+ ":" +:+ Py.str (PortListener.Port kv.2).

Definition keyed_table (t : list (string * PortListener.port_entry)) : Prop :=
  Forall keyed t ∧ NoDup t.*1.

Definition sound_table (t : list (string * PortListener.port_entry)) : Prop :=
  t ≠ [] ∧ Forall keyed t ∧ NoDup t.*1.

(** Every value of the dictionary is a table, none of them empty. *)
Definition sound_ports (port_info : list (string * PortListener.info_value)) : Prop :=
  Forall (λ kv, ∃ t, kv.2 = PortListener.Table t ∧ sound_table t) port_info.

(** The test under which [get_windows_ports] asks [tasklist] for the
    process of a record, and the command it runs. *)
Definition has_pid (r : PortListener.port_entry) : bool :=
  Py.truthy (PortListener.PID r)
  && negb (PortListener.value_is (PortListener.PID r) "Unknown")
  && negb (PortListener.value_is (PortListener.PID r) "0").

Definition tasklist (r : PortListener.port_entry) : list string :=
  ["tasklist"; "/FI"; "PID eq " +:+ Py.str (PortListener.PID r); "/FO"; "CSV"].

(** The records of all the tables of the dictionary, in order. *)
Definition records (ports : list (string * PortListener.info_value))
    : list PortListener.port_entry :=
  flat_map (λ kv, match kv.2 with
                  | PortListener.Table t => t.*2
                  | PortListener.Text _ => []
                  end) ports.

(** How [get_port_summary] classes a record: TCP when its protocol, put in
    upper case, holds [TCP]; UDP when it holds [UDP] and not [TCP]. *)
Definition counted_tcp (r : PortListener.port_entry) : bool :=
  match PortListener.Protocol r with
  | Py.VStr p => PyStr.contains "TCP" (PyStr.upper p)
  | _ => false
  end.

Definition counted_udp (r : PortListener.port_entry) : bool :=
  match PortListener.Protocol r with
  | Py.VStr p =>
      negb (PyStr.contains "TCP" (PyStr.upper p)) && PyStr.contains "UDP" (PyStr.upper p)
  | _ => false
  end.

(** Every name of the mapping is non-empty and has no whitespace around
    it. *)
Definition trimmed (software_list : gmap string string) : Prop :=
  ∀ name, is_Some (software_list !! name) →
    name ≠ EmptyString ∧ PyStr.strip name = name.

(** Every category of the dictionary counts for at least one component. *)
Definition populated (firmware : list (string * Firmware.fw_value)) : Prop :=
  Forall (λ kv, (1 ≤ Firmware.components kv.2)%nat) firmware.

(** Whatever the computation raises is no instance of [Exception]. *)
Definition only_interrupts {A} (m : Py.M A) : Prop :=
  ∀ st x st', m st = (Py.Raise x, st') → ¬ is_exception x.

(** The external commands run so far, oldest first. *)
Definition commands (st : Py.state) : list (list string) := (Py.calls st).*1.

(** The computation runs the commands [cmds], in this order and no other,
    whether it returns or raises. *)
Definition always_executes {A} (cmds : list (list string)) (m : Py.M A) : Prop :=
  ∀ st, commands (m st).2 = commands st ++ cmds.

(** Whenever the computation returns, it has run the commands [cmds], in
    this order and no other. *)
Definition executes {A} (cmds : list (list string)) (m : Py.M A) : Prop :=
  ∀ st a st', m st = (Py.Ok a, st') → commands st' = commands st ++ cmds.

(** The mapping left by merging the mappings of [order], first to last,
    into an empty one, as [all_software.update] does. *)
Definition merged (order : list (gmap string string)) : gmap string string :=
  foldl Py.update ∅ order.

(** The number of objects of a decoded answer: the items of an array,
    one for a bare object. *)
Definition objects (data : Py.value) : nat :=
  match data with
  | Py.VList items => length items
  | Py.VDict _ => 1
  | _ => 0
  end.

End Props.

(** ** Example hosts and tool outputs *)

Module Examples.

Definition nl : string := String PyStr.newline EmptyString.

(** The name of the tool a command runs. *)
Definition tool (argv : list string) : string := hd EmptyString argv.

Definition runs (name : string) (argv : list string) : bool := String.eqb (tool argv) name.

(** The executable is not installed. *)
Definition missing (argv : list string) : Py.outcome :=
  Py.Raised
    (Py.Exn Py.FileNotFoundError
       ("[Errno 2] No such file or directory: '" +:+ tool argv +:+ "'")).

Definition python3 : string := "/usr/bin/python3".

(** What running a command gives on a host with none of the tools: the
    interpreter itself starts and exits with status 1, having no pip. *)
Definition absent (argv : list string) : Py.outcome :=
  if runs python3 argv then Py.Completed 1 EmptyString else missing argv.

Definition undecodable : Py.result Py.value :=
  Py.Raise (Py.Exn Py.JSONDecodeError "Expecting value: line 1 column 1 (char 0)").

(** A Linux host without any of the tools. *)
Definition bare_linux : Py.env :=
  Py.Env "Linux" python3 (fun _ argv => absent argv) (fun _ => undecodable).

(** A host of an unsupported system. *)
Definition freebsd : Py.env :=
  Py.Env "FreeBSD" python3 (fun _ argv => absent argv) (fun _ => undecodable).

(** Only [zypper] and [snap] are installed; a package listed by [zypper]
    bears the name the Snap probe gives to the snap [core]. *)
Definition zypper_then_snap : Py.env :=
  Py.Env "Linux" python3
    (fun _ argv =>
       if runs "zypper" argv then Py.Completed 0 "i | Snap: core | 1.0 | package"
       else if runs "snap" argv then
         Py.Completed 0 ("Name  Version  Rev" +:+ nl +:+ "core  2.0  1")
       else absent argv)
    (fun _ => undecodable).

(** Two hosts with [dpkg]: on the first [snap] is not installed, on the
    second it is and lists no snap. *)
Definition dpkg_output : string :=
  "Desired=Unknown/Install/Remove/Purge/Hold" +:+ nl
  +:+ "ii  curl  7.81.0-1  amd64  command line tool".

Definition snap_missing : Py.env :=
  Py.Env "Linux" python3
    (fun _ argv =>
       if runs "dpkg" argv then Py.Completed 0 dpkg_output else absent argv)
    (fun _ => undecodable).

Definition snap_present : Py.env :=
  Py.Env "Linux" python3
    (fun _ argv =>
       if runs "dpkg" argv then Py.Completed 0 dpkg_output
       else if runs "snap" argv then
         Py.Completed 0 "Name  Version  Rev  Tracking  Publisher  Notes"
       else absent argv)
    (fun _ => undecodable).

(** A line of [netstat -tulpn] on Linux. *)
Definition netstat_line : string :=
  "tcp        0      0 0.0.0.0:8080            0.0.0.0:*               LISTEN      1234/nginx".

(** Decoded answers of [Get-NetTCPConnection ... | ConvertTo-Json]. *)
Definition portless_object : Py.value :=
  Py.VDict [ ("LocalAddress", Py.VStr "0.0.0.0"); ("LocalPort", Py.VNone);
             ("OwningProcess", Py.VInt 4) ].

Definition same_port_array : Py.value :=
  Py.VList
    [ Py.VDict [ ("LocalAddress", Py.VStr "0.0.0.0"); ("LocalPort", Py.VInt 80);
                 ("OwningProcess", Py.VInt 4) ];
      Py.VDict [ ("LocalAddress", Py.VStr "::"); ("LocalPort", Py.VInt 80);
                 ("OwningProcess", Py.VInt 4) ] ].

Definition two_ports : list (list (string * Py.value)) :=
  [ [ ("LocalAddress", Py.VStr "0.0.0.0"); ("LocalPort", Py.VInt 80);
      ("OwningProcess", Py.VInt 4) ];
    [ ("LocalAddress", Py.VStr "0.0.0.0"); ("LocalPort", Py.VInt 443);
      ("OwningProcess", Py.VInt 4) ] ].

(** A decoded answer of the BIOS probe that is an array. *)
Definition bios_array : Py.value :=
  Py.VList [ Py.VDict [ ("Manufacturer", Py.VStr "LENOVO"); ("Version", Py.VStr "1.2") ] ].

(** Decoded registry objects. *)
Definition git_object : list (string * Py.value) :=
  [ ("DisplayName", Py.VStr "Git"); ("DisplayVersion", Py.VStr "2.42.0") ].

Definition vim_object : list (string * Py.value) :=
  [ ("DisplayName", Py.VStr "Vim 9.0 "); ("DisplayVersion", Py.VNone) ].

(** A merged mapping of ten records: six from the package manager, four
    from pip. *)
Definition ten_records : gmap string string :=
  list_to_map
    [ ("bash", "5.1-6"); ("coreutils", "8.32-4"); ("curl", "7.81.0-1");
      ("git", "1:2.34.1-1"); ("openssl", "3.0.2-0"); ("vim", "2:8.2.3995-1");
      ("Python: pip", "22.0.2"); ("Python: requests", "2.25.1");
      ("Python: setuptools", "59.6.0"); ("Python: wheel", "0.37.1") ].

(** A Windows host on which every PowerShell query answers with the one
    object [git_object]. *)
Definition windows_host : Py.env :=
  Py.Env "Windows" "C:\Python311\python.exe"
    (fun _ argv =>
       if runs "powershell" argv then Py.Completed 0 "{ }" else missing argv)
    (fun _ => Py.Ok (Py.VDict git_object)).

(** A Linux host on which only [netstat] is installed; it reports one
    listener. *)
Definition netstat_host : Py.env :=
  Py.Env "Linux" python3
    (fun _ argv => if runs "netstat" argv then Py.Completed 0 netstat_line else absent argv)
    (fun _ => undecodable).

(** A Linux host with [pacman] only. *)
Definition arch_host : Py.env :=
  Py.Env "Linux" python3
    (fun _ argv =>
       if runs "pacman" argv
       then Py.Completed 0 ("bash 5.1.16-1" +:+ nl +:+ "linux 6.1.1.arch1-1")
       else absent argv)
    (fun _ => undecodable).

(** A host on which the user interrupts every external command. *)
Definition interrupted : Py.env :=
  Py.Env "Linux" python3
    (fun _ _ => Py.Raised (Py.Exn Py.KeyboardInterrupt EmptyString))
    (fun _ => undecodable).

(** A record of the Windows [netstat] table, and a later line of the same
    listing for the same protocol and port. *)
Definition web_record : PortListener.port_entry :=
  {| PortListener.Protocol := Py.VStr "TCP";
     PortListener.Port := Py.VInt 80;
     PortListener.Local_Address := Py.VStr "0.0.0.0";
     PortListener.State := Py.VStr "LISTENING";
     PortListener.PID := Py.VStr "1234";
     PortListener.Process := Py.VStr "Unknown" |}.

Definition established_line : string :=
  "  TCP    192.168.1.5:80    10.0.0.7:51234    ESTABLISHED    4321".

(** A Windows host on which [tasklist] answers with the process of the
    PID. *)
Definition quoted (s : string) : string :=
  String Py.dquote (s +:+ String Py.dquote EmptyString).

Definition tasklist_output : string :=
  quoted "Image Name" +:+ "," +:+ quoted "PID" +:+ nl
  +:+ quoted "nginx.exe" +:+ "," +:+ quoted "1234".

Definition tasklist_host : Py.env :=
  Py.Env "Windows" "C:\Python311\python.exe"
    (fun _ argv =>
       if runs "tasklist" argv then Py.Completed 0 tasklist_output else missing argv)
    (fun _ => undecodable).

(** A macOS host with Homebrew only: one formula and one cask. *)
Definition brew_host : Py.env :=
  Py.Env "Darwin" python3
    (fun _ argv =>
       if bool_decide (argv = ["brew"; "list"; "--versions"])
       then Py.Completed 0 "wget 1.21.4"
       else if bool_decide (argv = ["brew"; "list"; "--cask"; "--versions"])
       then Py.Completed 0 "firefox 120.0"
       else absent argv)
    (fun _ => undecodable).

(** A merged mapping of a macOS host: an application, a formula, a cask. *)
Definition mac_records : gmap string string :=
  list_to_map
    [ ("Safari", "17.1"); ("Homebrew: wget", "1.21.4");
      ("Homebrew Cask: firefox", "120.0") ].

(** A Linux host without [dpkg], on which [rpm] and [pacman] are both
    installed, and [snap], [flatpak] and pip each list one package. *)
Definition pip_listing : string :=
  "Package    Version" +:+ nl +:+ "---------- -------" +:+ nl +:+ "requests   2.31.0".

Definition flatpak_listing : string :=
  "org.gimp.GIMP" +:+ String PyStr.tab "2.10.34".

Definition fedora_host : Py.env :=
  Py.Env "Linux" python3
    (fun _ argv =>
       if runs "rpm" argv then Py.Completed 0 "bash-5.1.8-6.el9.x86_64"
       else if runs "pacman" argv then Py.Completed 0 "bash 5.1.16-1"
       else if runs "snap" argv then
         Py.Completed 0 ("Name  Version  Rev" +:+ nl +:+ "core  2.0  1")
       else if runs "flatpak" argv then Py.Completed 0 flatpak_listing
       else if runs python3 argv then Py.Completed 0 pip_listing
       else missing argv)
    (fun _ => undecodable).

(** Only [zypper] and [snap] are installed; a package listed by [zypper]
    bears the name the Snap probe gives to the snap [core], and no version
    is known for it. *)
Definition zypper_unset : Py.env :=
  Py.Env "Linux" python3
    (fun _ argv =>
       if runs "zypper" argv then Py.Completed 0 "i | Snap: core | Unknown | package"
       else if runs "snap" argv then
         Py.Completed 0 ("Name  Version  Rev" +:+ nl +:+ "core  2.0  1")
       else absent argv)
    (fun _ => undecodable).

(** The same host when [zypper] and [snap] give the same version, with
    [flatpak] and pip installed too. *)
Definition zypper_agrees : Py.env :=
  Py.Env "Linux" python3
    (fun _ argv =>
       if runs "zypper" argv then
         Py.Completed 0
           ("i | Snap: core | 2.0 | package" +:+ nl +:+ "i | vim | 9.0 | package")
       else if runs "snap" argv then
         Py.Completed 0 ("Name  Version  Rev" +:+ nl +:+ "core  2.0  1")
       else if runs "flatpak" argv then Py.Completed 0 flatpak_listing
       else if runs python3 argv then Py.Completed 0 pip_listing
       else missing argv)
    (fun _ => undecodable).

(** The property list [system_profiler] prints for one application. *)
Definition application_listing (name version : string) : string :=
  "<key>_name</key>" +:+ nl +:+ "<string>" +:+ name +:+ "</string>" +:+ nl
  +:+ "<key>version</key>" +:+ nl +:+ "<string>" +:+ version +:+ "</string>".

(** A macOS host with an application that bears the name the Cask probe
    gives to the cask [firefox]; Homebrew lists the cask without a version
    on the first host, with the version of the application on the second. *)
Definition cask_host (casks : string) : Py.env :=
  Py.Env "Darwin" python3
    (fun _ argv =>
       if runs "system_profiler" argv
       then Py.Completed 0 (application_listing "Homebrew Cask: firefox" "120.0")
       else if bool_decide (argv = ["brew"; "list"; "--versions"])
       then Py.Completed 0 "wget 1.21.4"
       else if bool_decide (argv = ["brew"; "list"; "--cask"; "--versions"])
       then Py.Completed 0 casks
       else absent argv)
    (fun _ => undecodable).

Definition cask_unset : Py.env := cask_host "firefox".

Definition cask_agrees : Py.env := cask_host "firefox 120.0".

(** Listings of [netstat -ano] on Windows: a heading of three lines, then
    one row per connection.  On the hosts below [netstat] prints the
    listing and [tasklist] knows the process of the PID 1234 only. *)
Definition windows_heading : list string :=
  [ "Active Connections"; EmptyString;
    "  Proto  Local Address          Foreign Address        State           PID" ].

Definition rpc_row : string :=
  "  TCP    0.0.0.0:135            0.0.0.0:0              LISTENING       1040".

Definition smb_row : string :=
  "  TCP    0.0.0.0:445            0.0.0.0:0              LISTENING       4".

Definition listening_row : string :=
  "  TCP    0.0.0.0:8080           0.0.0.0:0              LISTENING       1234".

Definition established_row : string :=
  "  TCP    127.0.0.1:8080         127.0.0.1:51234        ESTABLISHED     1234".

(** [netstat] prints an empty line first and ends the last line. *)
Definition printed_by_netstat (rows : list string) : string :=
  nl +:+ PyStr.join nl (windows_heading ++ rows) +:+ nl.

Definition windows_listing : string :=
  printed_by_netstat [rpc_row; smb_row; listening_row; established_row].

Definition single_row_listing : string := printed_by_netstat [listening_row].

Definition windows_netstat_host (listing : string) : Py.env :=
  Py.Env "Windows" "C:\Python311\python.exe"
    (fun _ argv =>
       if runs "netstat" argv then Py.Completed 0 listing
       else if bool_decide (argv = ["tasklist"; "/FI"; "PID eq 1234"; "/FO"; "CSV"])
       then Py.Completed 0 tasklist_output
       else if runs "tasklist" argv then
         Py.Completed 0 "INFO: No tasks are running which match the specified criteria."
       else missing argv)
    (fun _ => undecodable).

Definition windows_ports_host : Py.env := windows_netstat_host windows_listing.

Definition single_row_host : Py.env := windows_netstat_host single_row_listing.

(** A listing of Linux [netstat -tulpn] with two lines for one key: the
    later one decides the record. *)
Definition linux_heading : list string :=
  [ "Active Internet connections (only servers)";
    "Proto Recv-Q Send-Q Local Address           Foreign Address         State       PID/Program name" ].

Definition proxy_row : string :=
  "tcp        0      0 127.0.0.1:8080          0.0.0.0:*               LISTEN      99/proxy".

Definition dhcp_row : string :=
  "udp        0      0 0.0.0.0:68              0.0.0.0:*                           700/dhclient".

Definition linux_listing : string :=
  PyStr.join nl (linux_heading ++ [proxy_row; netstat_line; dhcp_row]).

Definition linux_ports_host : Py.env :=
  Py.Env "Linux" python3
    (fun _ argv => if runs "netstat" argv then Py.Completed 0 linux_listing else absent argv)
    (fun _ => undecodable).

(** A Linux host on which [dmidecode] and [lsblk] answer and [lspci] is
    not installed. *)
Definition dmidecode_output : string :=
  "BIOS Information" +:+ nl
  +:+ "        Vendor: LENOVO" +:+ nl
  +:+ "        Version: N2HET63W (1.46 )" +:+ nl
  +:+ "        Release Date: 06/01/2021".

Definition lsblk_output : string :=
  "NAME MODEL       SERIAL   REV" +:+ nl
  +:+ "sda  Samsung_SSD S4EWNX0N 2B6Q".

Definition firmware_host : Py.env :=
  Py.Env "Linux" python3
    (fun _ argv =>
       if runs "dmidecode" argv then Py.Completed 0 dmidecode_output
       else if runs "lsblk" argv then Py.Completed 0 lsblk_output
       else absent argv)
    (fun _ => undecodable).

End Examples.

(** * Properties *)

Import Props.

(** ** The error monad *)

Ltac monad_unfold :=
  unfold mbind, M_bind, mret, M_ret, Py.bind, Py.ret, Py.print, Py.raise,
    Py.loads in *.

Lemma raises_ordinary_ret {A} (a : A) : raises_ordinary (mret a).
Proof. intros st x st' H. monad_unfold. discriminate. Qed.

Lemma raises_ordinary_print line : raises_ordinary (Py.print line).
Proof. intros st x st' H. monad_unfold. discriminate. Qed.

Lemma raises_ordinary_raise {A} x : is_exception x → raises_ordinary (@Py.raise A x).
Proof. intros Hx st y st' H. monad_unfold. congruence. Qed.

Lemma raises_ordinary_bind {A B} (m : Py.M A) (k : A → Py.M B) :
  raises_ordinary m → (∀ a, raises_ordinary (k a)) → raises_ordinary (m ≫= k).
Proof.
  intros Hm Hk st x st' H. monad_unfold.
  destruct (m st) as [[a|y] st1] eqn:E.
  - eapply Hk; eauto.
  - inversion H; subst. eapply Hm; eauto.
Qed.

Lemma raises_ordinary_run e argv : ordinary e → raises_ordinary (Py.run e argv).
Proof.
  intros [Hrun _] st x st' H. unfold Py.run in H.
  destruct (Py.subprocess_run e (length (Py.calls st)) argv) eqn:E.
  - inversion H; subst. eapply Hrun; eauto.
  - discriminate.
Qed.

Lemma raises_ordinary_loads e text : ordinary e → raises_ordinary (Py.loads e text).
Proof.
  intros [_ Hloads] st x st' H. monad_unfold.
  inversion H as [E]. eapply Hloads; eauto.
Qed.

Lemma raises_ordinary_try {A} (body : Py.M A) targets handler :
  raises_ordinary body → (∀ x, raises_ordinary (handler x)) →
  raises_ordinary (Py.try_except body targets handler).
Proof.
  intros Hb Hh st x st' H. unfold Py.try_except in H.
  destruct (body st) as [[a|y] st1] eqn:E; [discriminate|].
  destruct (Py.catches targets y).
  - eapply Hh; eauto.
  - inversion H; subst. eapply Hb; eauto.
Qed.

Lemma returns_ret {A} (a : A) : returns (mret a).
Proof. intros st. monad_unfold. eauto. Qed.

Lemma returns_bind {A B} (m : Py.M A) (k : A → Py.M B) :
  returns m → (∀ a, returns (k a)) → returns (m ≫= k).
Proof.
  intros Hm Hk st. monad_unfold.
  destruct (Hm st) as (a & st1 & ->). apply Hk.
Qed.

Lemma returns_print line : returns (Py.print line).
Proof. intros st. monad_unfold. eauto. Qed.

Lemma returns_ordinary {A} (m : Py.M A) : returns m → raises_ordinary m.
Proof. intros Hm st x st' H. destruct (Hm st) as (a & st1 & E). congruence. Qed.

(** [try: ... except Exception] returns when the body raises ordinary
    exceptions only and the handler returns. *)
Lemma returns_try {A} (body : Py.M A) handler :
  raises_ordinary body → (∀ x, returns (handler x)) →
  returns (Py.try_except body [Py.Exception] handler).
Proof.
  intros Hb Hh st. unfold Py.try_except.
  destruct (body st) as [[a|y] st1] eqn:E; [eauto|].
  rewrite (Hb _ _ _ E). apply Hh.
Qed.

Lemma returns_value_returns {A} (m : Py.M A) a : returns_value m a → returns m.
Proof. intros H st. destruct (H st) as [st' E]. eauto. Qed.

Lemma returns_value_ret {A} (a : A) : returns_value (mret a) a.
Proof. intros st. monad_unfold. eauto. Qed.

Lemma returns_value_bind {A B} (m : Py.M A) (k : A → Py.M B) a b :
  returns_value m a → returns_value (k a) b → returns_value (m ≫= k) b.
Proof.
  intros Hm Hk st. monad_unfold.
  destruct (Hm st) as (st1 & ->). apply Hk.
Qed.

Lemma returns_value_print_then {A} line (m : Py.M A) a :
  returns_value m a → returns_value (Py.print line ;; m) a.
Proof. intros Hm st. monad_unfold. apply Hm. Qed.

(** The shape of every probe: announce it, run the tool, use the answer,
    all under [except Exception]. *)
Lemma probe_returns {A} e announce argv (k : Z * string → Py.M A) handler :
  ordinary e → (∀ r, raises_ordinary (k r)) → (∀ x, returns (handler x)) →
  returns (Py.try_except (Py.print announce ;; r ← Py.run e argv; k r)
             [Py.Exception] handler).
Proof.
  intros He Hk Hh. apply returns_try; [|done].
  apply raises_ordinary_bind; [apply raises_ordinary_print|]. intros _.
  apply raises_ordinary_bind; [by apply raises_ordinary_run|done].
Qed.

(** When the tool fails, the probe leaves what its handler and its
    non-zero branch leave. *)
Lemma probe_fails {A} e announce argv (k : Z * string → Py.M A) handler d :
  all_fail e →
  (∀ rc out, rc ≠ 0 → returns_value (k (rc, out)) d) →
  (∀ x, returns_value (handler x) d) →
  returns_value (Py.try_except (Py.print announce ;; r ← Py.run e argv; k r)
                   [Py.Exception] handler) d.
Proof.
  intros He Hk Hh st. unfold Py.try_except. monad_unfold. unfold Py.run.
  cbn [Py.calls Py.printed].
  specialize (He (length (Py.calls st)) argv).
  destruct (Py.subprocess_run e (length (Py.calls st)) argv) as [x|rc out];
    cbn [failed] in He.
  - unfold is_exception in He. rewrite He. apply Hh.
  - destruct (Hk rc out He (Py.State (Py.calls st ++ [(argv, Py.Completed rc out)])
                               (Py.printed st ++ [announce]))) as [st' ->].
    eauto.
Qed.

Create HintDb py discriminated.

Ltac py_ordinary :=
  repeat (intros; cbn beta;
    lazymatch goal with
    | |- raises_ordinary (mret _) => apply raises_ordinary_ret
    | |- raises_ordinary (Py.print _) => apply raises_ordinary_print
    | |- raises_ordinary (Py.run _ _) => apply raises_ordinary_run; assumption
    | |- raises_ordinary (Py.loads _ _) => apply raises_ordinary_loads; assumption
    | |- raises_ordinary (Py.raise _) => apply raises_ordinary_raise; reflexivity
    | |- raises_ordinary (mbind _ _) => apply raises_ordinary_bind
    | |- raises_ordinary (Py.try_except _ _ _) => apply raises_ordinary_try
    | |- raises_ordinary (if ?c then _ else _) => destruct c
    | |- raises_ordinary (match ?c with _ => _ end) => destruct c
    | |- raises_ordinary _ => solve [eauto with py]
    end).

Ltac py_returns :=
  repeat (intros; cbn beta;
    lazymatch goal with
    | |- returns (mret _) => apply returns_ret
    | |- returns (Py.print _) => apply returns_print
    | |- returns (mbind _ _) => apply returns_bind
    | |- returns (Py.try_except _ [Py.Exception] _) => apply returns_try; [py_ordinary|]
    | |- returns (if ?c then _ else _) => destruct c
    | |- returns (match ?c with _ => _ end) => destruct c
    | |- returns _ => solve [eauto with py]
    end).

(** ** No collector raises on an ordinary host *)

Section Returns.
Context (e : Py.env) (He : ordinary e).

Lemma try_package_manager_returns pm_name command software_list :
  returns (Linux.try_package_manager e pm_name command software_list).
Proof. unfold Linux.try_package_manager. py_returns. Qed.

Lemma package_manager_loop_returns pms software_list :
  returns (Linux.package_manager_loop e pms software_list).
Proof.
  induction pms as [|[pm_name command] rest IH]; cbn [Linux.package_manager_loop].
  - py_returns.
  - apply returns_bind; [apply try_package_manager_returns|].
    intros [d|]; [py_returns|apply IH].
Qed.

Lemma get_linux_software_returns : returns (Linux.get_linux_software e).
Proof. apply package_manager_loop_returns. Qed.

Lemma get_snap_packages_returns : returns (Linux.get_snap_packages e).
Proof. unfold Linux.get_snap_packages. py_returns. Qed.

Lemma get_flatpak_packages_returns : returns (Linux.get_flatpak_packages e).
Proof. unfold Linux.get_flatpak_packages. py_returns. Qed.

Lemma get_python_packages_returns : returns (Linux.get_python_packages e).
Proof. unfold Linux.get_python_packages. py_returns. Qed.

Hint Resolve get_linux_software_returns get_snap_packages_returns
  get_flatpak_packages_returns get_python_packages_returns : py.

Lemma linux_software_returns : returns (Linux.get_installed_software e).
Proof. unfold Linux.get_installed_software. py_returns. Qed.

Lemma wmi_method_returns software_list : returns (Windows.wmi_method e software_list).
Proof. unfold Windows.wmi_method. py_returns. Qed.

Lemma json_method_returns announce script entry parse_failed scan_failed software_list :
  returns (Windows.json_method e announce script entry parse_failed scan_failed
             software_list).
Proof. unfold Windows.json_method. py_returns. Qed.

Lemma registry_loop_returns paths software_list :
  returns (Windows.registry_loop e paths software_list).
Proof.
  revert software_list.
  induction paths as [|p rest IH]; intros software_list; cbn [Windows.registry_loop].
  - py_returns.
  - apply returns_bind; [apply json_method_returns|]. intros d. apply IH.
Qed.

Hint Resolve wmi_method_returns json_method_returns registry_loop_returns : py.

Lemma get_windows_software_returns : returns (Windows.get_windows_software e).
Proof.
  unfold Windows.get_windows_software, Windows.package_method, Windows.appx_method.
  py_returns.
Qed.

Hint Resolve get_windows_software_returns : py.

Lemma windows_software_returns : returns (Windows.get_installed_software e).
Proof.
  unfold Windows.get_installed_software, Windows.get_python_packages. py_returns.
Qed.

Lemma get_macos_applications_returns : returns (Macos.get_macos_applications e).
Proof. unfold Macos.get_macos_applications. py_returns. Qed.

Lemma silent_probe_returns announce argv parse :
  returns (Macos.silent_probe e announce argv parse).
Proof. unfold Macos.silent_probe. py_returns. Qed.

Hint Resolve get_macos_applications_returns silent_probe_returns : py.

Lemma macos_software_returns : returns (Macos.get_installed_software e).
Proof.
  unfold Macos.get_installed_software, Macos.get_homebrew_packages,
    Macos.get_homebrew_cask_packages, Macos.get_macports_packages,
    Macos.get_app_store_apps, Macos.get_python_packages.
  py_returns.
Qed.

Lemma text_scan_returns announce argv parse name failed port_info :
  returns (PortListener.text_scan e announce argv parse name failed port_info).
Proof. unfold PortListener.text_scan. py_returns. Qed.

Lemma map_process_returns port_data : returns (PortListener.map_process e port_data).
Proof. unfold PortListener.map_process. py_returns. Qed.

Lemma map_processes_returns items : returns (PortListener.map_processes e items).
Proof.
  induction items as [|[port_key port_data] rest IH]; cbn [PortListener.map_processes].
  - py_returns.
  - apply returns_bind; [apply map_process_returns|]. intros d.
    apply returns_bind; [apply IH|]. py_returns.
Qed.

Hint Resolve text_scan_returns map_process_returns map_processes_returns : py.

Lemma process_mapping_returns port_info :
  returns (PortListener.process_mapping e port_info).
Proof.
  unfold PortListener.process_mapping.
  apply returns_try; [|py_returns].
  apply raises_ordinary_bind; [apply raises_ordinary_print|]. intros _.
  destruct (Py.assoc "Listening Ports" port_info) as [[items|s]|].
  - apply returns_ordinary. py_returns.
  - py_ordinary.
  - py_ordinary.
Qed.

Lemma powershell_scan_returns port_info :
  returns (PortListener.powershell_scan e port_info).
Proof. unfold PortListener.powershell_scan. py_returns. Qed.

Hint Resolve process_mapping_returns powershell_scan_returns : py.

Lemma windows_ports_returns : returns (PortListener.get_windows_ports e).
Proof. unfold PortListener.get_windows_ports. py_returns. Qed.

Lemma linux_ports_returns : returns (PortListener.get_linux_ports e).
Proof. unfold PortListener.get_linux_ports. py_returns. Qed.

Lemma macos_ports_returns : returns (PortListener.get_macos_ports e).
Proof. unfold PortListener.get_macos_ports. py_returns. Qed.

Lemma firmware_get_ordinary obj k default : raises_ordinary (Firmware.get obj k default).
Proof. unfold Firmware.get. destruct obj; py_ordinary. Qed.

Lemma firmware_len_ordinary obj : raises_ordinary (Firmware.len obj).
Proof. unfold Firmware.len. destruct obj; py_ordinary. Qed.

Lemma firmware_first_ordinary obj : raises_ordinary (Firmware.first obj).
Proof. unfold Firmware.first. py_ordinary. Qed.

Lemma firmware_iter_ordinary obj : raises_ordinary (Firmware.iter obj).
Proof. unfold Firmware.iter. destruct obj; py_ordinary. Qed.

Lemma firmware_dset_ordinary {V} k (v : V) d : raises_ordinary (Firmware.dset k v d).
Proof. unfold Firmware.dset. py_ordinary. Qed.

Hint Resolve firmware_get_ordinary firmware_len_ordinary firmware_first_ordinary
  firmware_iter_ordinary firmware_dset_ordinary : py.

Lemma devices_loop_ordinary name_key label fields i data devices :
  raises_ordinary (Firmware.devices_loop name_key label fields i data devices).
Proof.
  revert i devices.
  induction data as [|device rest IH]; intros i devices; cbn [Firmware.devices_loop].
  - py_ordinary.
  - destruct device; try apply IH.
    apply raises_ordinary_bind; [apply firmware_dset_ordinary|]. intros d'. apply IH.
Qed.

Lemma storage_loop_ordinary devices storage_devices :
  raises_ordinary (Firmware.storage_loop devices storage_devices).
Proof.
  revert storage_devices.
  induction devices as [|device rest IH]; intros sd; cbn [Firmware.storage_loop].
  - py_ordinary.
  - repeat (apply raises_ordinary_bind; [py_ordinary|]; intros ?). apply IH.
Qed.

Hint Resolve devices_loop_ordinary storage_loop_ordinary : py.

Lemma json_probe_returns announce script use parse_failed scan_failed firmware_info :
  (∀ data fi, raises_ordinary (use data fi)) →
  returns (Firmware.json_probe e announce script use parse_failed scan_failed
             firmware_info).
Proof. intros Huse. unfold Firmware.json_probe. py_returns. Qed.

Lemma use_fields_ordinary name fields data fi :
  raises_ordinary (Firmware.use_fields name fields data fi).
Proof. unfold Firmware.use_fields. py_ordinary. Qed.

Lemma use_devices_ordinary name name_key label fields data fi :
  raises_ordinary (Firmware.use_devices name name_key label fields data fi).
Proof. unfold Firmware.use_devices, Firmware.devices_of. py_ordinary. Qed.

Lemma windows_firmware_returns : returns (Firmware.get_windows_firmware e).
Proof.
  unfold Firmware.get_windows_firmware.
  repeat (apply returns_bind;
          [apply json_probe_returns; intros;
           first [apply use_fields_ordinary | apply use_devices_ordinary]|];
          intros ?).
  apply json_probe_returns; intros; apply use_devices_ordinary.
Qed.

Lemma text_probe_returns announce argv use failed firmware_info :
  returns (Firmware.text_probe e announce argv use failed firmware_info).
Proof. unfold Firmware.text_probe. py_returns. Qed.

Hint Resolve text_probe_returns : py.

Lemma linux_firmware_returns : returns (Firmware.get_linux_firmware e).
Proof. unfold Firmware.get_linux_firmware. py_returns. Qed.

Lemma profiler_probe_returns announce data_type use parse_failed scan_failed fi :
  (∀ data fi, raises_ordinary (use data fi)) →
  returns (Firmware.profiler_probe e announce data_type use parse_failed scan_failed fi).
Proof. intros Huse. unfold Firmware.profiler_probe. py_returns. Qed.

Lemma use_hardware_ordinary data fi : raises_ordinary (Firmware.use_hardware data fi).
Proof. unfold Firmware.use_hardware. py_ordinary. Qed.

Lemma use_storage_ordinary data fi : raises_ordinary (Firmware.use_storage data fi).
Proof. unfold Firmware.use_storage. py_ordinary. Qed.

Lemma macos_firmware_returns : returns (Firmware.get_macos_firmware e).
Proof.
  unfold Firmware.get_macos_firmware.
  apply returns_bind;
    [apply profiler_probe_returns; intros; apply use_hardware_ordinary|].
  intros ?. apply profiler_probe_returns; intros; apply use_storage_ordinary.
Qed.

End Returns.

(** ** When every tool fails, every collector returns an empty dictionary *)

Lemma returns_value_unique {A} (m : Py.M A) a st d st' :
  returns_value m a → m st = (Py.Ok d, st') → d = a.
Proof. intros H E. destruct (H st) as [st1 E1]. congruence. Qed.

Ltac py_nonzero :=
  let rc := fresh "rc" in
  let out := fresh "out" in
  let H := fresh "H" in
  intros rc out H; apply Z.eqb_neq in H; cbn [fst snd]; rewrite H; cbn [andb];
  apply returns_value_ret.

Ltac py_handler :=
  intros;
  first [ apply returns_value_ret
        | apply returns_value_print_then; apply returns_value_ret ].

Ltac py_fails := apply probe_fails; [assumption | py_nonzero | py_handler].

Section AllFail.
Context (e : Py.env) (He : all_fail e).

Lemma try_package_manager_fails pm_name command software_list :
  returns_value (Linux.try_package_manager e pm_name command software_list) None.
Proof. unfold Linux.try_package_manager. py_fails. Qed.

Lemma package_manager_loop_fails pms software_list :
  returns_value (Linux.package_manager_loop e pms software_list) software_list.
Proof.
  induction pms as [|[pm_name command] rest IH]; cbn [Linux.package_manager_loop].
  - apply returns_value_ret.
  - eapply returns_value_bind; [apply try_package_manager_fails|]. apply IH.
Qed.

Lemma get_snap_packages_fails : returns_value (Linux.get_snap_packages e) ∅.
Proof. unfold Linux.get_snap_packages. py_fails. Qed.

Lemma get_flatpak_packages_fails : returns_value (Linux.get_flatpak_packages e) ∅.
Proof. unfold Linux.get_flatpak_packages. py_fails. Qed.

Lemma get_python_packages_fails : returns_value (Linux.get_python_packages e) ∅.
Proof. unfold Linux.get_python_packages. py_fails. Qed.

Lemma update_empty : Py.update ∅ ∅ = ∅.
Proof. unfold Py.update. apply (left_id_L ∅ (∪)). Qed.

Lemma linux_software_fails : returns_value (Linux.get_installed_software e) ∅.
Proof.
  unfold Linux.get_installed_software. apply returns_value_print_then.
  eapply returns_value_bind; [apply package_manager_loop_fails|].
  eapply returns_value_bind; [apply get_snap_packages_fails|].
  eapply returns_value_bind; [apply get_flatpak_packages_fails|].
  eapply returns_value_bind; [apply get_python_packages_fails|].
  rewrite !update_empty. apply returns_value_ret.
Qed.

Lemma wmi_method_fails software_list :
  returns_value (Windows.wmi_method e software_list) software_list.
Proof. unfold Windows.wmi_method. py_fails. Qed.

Lemma json_method_fails announce script entry parse_failed scan_failed software_list :
  returns_value
    (Windows.json_method e announce script entry parse_failed scan_failed software_list)
    software_list.
Proof. unfold Windows.json_method. py_fails. Qed.

Lemma registry_loop_fails paths software_list :
  returns_value (Windows.registry_loop e paths software_list) software_list.
Proof.
  induction paths as [|p rest IH]; cbn [Windows.registry_loop].
  - apply returns_value_ret.
  - eapply returns_value_bind; [apply json_method_fails|]. apply IH.
Qed.

Lemma windows_software_fails : returns_value (Windows.get_installed_software e) ∅.
Proof.
  unfold Windows.get_installed_software, Windows.get_windows_software,
    Windows.package_method, Windows.appx_method, Windows.get_python_packages.
  apply returns_value_print_then.
  eapply returns_value_bind.
  { eapply returns_value_bind; [apply wmi_method_fails|].
    eapply returns_value_bind; [apply registry_loop_fails|].
    eapply returns_value_bind; [apply json_method_fails|].
    eapply returns_value_bind; [apply json_method_fails|].
    apply returns_value_ret. }
  eapply returns_value_bind; [apply get_python_packages_fails|].
  rewrite !update_empty. apply returns_value_ret.
Qed.

Lemma get_macos_applications_fails : returns_value (Macos.get_macos_applications e) ∅.
Proof. unfold Macos.get_macos_applications. py_fails. Qed.

Lemma silent_probe_fails announce argv parse :
  returns_value (Macos.silent_probe e announce argv parse) ∅.
Proof. unfold Macos.silent_probe. py_fails. Qed.

Lemma macos_software_fails : returns_value (Macos.get_installed_software e) ∅.
Proof.
  unfold Macos.get_installed_software, Macos.get_homebrew_packages,
    Macos.get_homebrew_cask_packages, Macos.get_macports_packages,
    Macos.get_app_store_apps, Macos.get_python_packages.
  apply returns_value_print_then.
  eapply returns_value_bind; [apply get_macos_applications_fails|].
  do 4 (eapply returns_value_bind; [apply silent_probe_fails|]).
  eapply returns_value_bind; [apply get_python_packages_fails|].
  rewrite !update_empty. apply returns_value_ret.
Qed.

Lemma text_scan_fails announce argv parse name failed port_info :
  returns_value (PortListener.text_scan e announce argv parse name failed port_info)
    port_info.
Proof. unfold PortListener.text_scan. py_fails. Qed.

Lemma process_mapping_nothing : returns_value (PortListener.process_mapping e []) [].
Proof. intros st. unfold PortListener.process_mapping, Py.try_except. monad_unfold. eauto. Qed.

Lemma powershell_scan_fails port_info :
  returns_value (PortListener.powershell_scan e port_info) port_info.
Proof. unfold PortListener.powershell_scan. py_fails. Qed.

Lemma windows_ports_fails : returns_value (PortListener.get_windows_ports e) [].
Proof.
  unfold PortListener.get_windows_ports.
  eapply returns_value_bind; [apply text_scan_fails|].
  eapply returns_value_bind; [apply process_mapping_nothing|].
  apply powershell_scan_fails.
Qed.

Lemma linux_ports_fails : returns_value (PortListener.get_linux_ports e) [].
Proof.
  unfold PortListener.get_linux_ports.
  eapply returns_value_bind; apply text_scan_fails.
Qed.

Lemma macos_ports_fails : returns_value (PortListener.get_macos_ports e) [].
Proof.
  unfold PortListener.get_macos_ports.
  eapply returns_value_bind; apply text_scan_fails.
Qed.

Lemma json_probe_fails announce script use parse_failed scan_failed firmware_info :
  returns_value
    (Firmware.json_probe e announce script use parse_failed scan_failed firmware_info)
    firmware_info.
Proof. unfold Firmware.json_probe. py_fails. Qed.

Lemma windows_firmware_fails : returns_value (Firmware.get_windows_firmware e) [].
Proof.
  unfold Firmware.get_windows_firmware.
  do 4 (eapply returns_value_bind; [apply json_probe_fails|]).
  apply json_probe_fails.
Qed.

Lemma text_probe_fails announce argv use failed firmware_info :
  returns_value (Firmware.text_probe e announce argv use failed firmware_info)
    firmware_info.
Proof. unfold Firmware.text_probe. py_fails. Qed.

Lemma linux_firmware_fails : returns_value (Firmware.get_linux_firmware e) [].
Proof.
  unfold Firmware.get_linux_firmware.
  do 2 (eapply returns_value_bind; [apply text_probe_fails|]).
  apply text_probe_fails.
Qed.

Lemma profiler_probe_fails announce data_type use parse_failed scan_failed fi :
  returns_value
    (Firmware.profiler_probe e announce data_type use parse_failed scan_failed fi) fi.
Proof. unfold Firmware.profiler_probe. py_fails. Qed.

Lemma macos_firmware_fails : returns_value (Firmware.get_macos_firmware e) [].
Proof.
  unfold Firmware.get_macos_firmware.
  eapply returns_value_bind; apply profiler_probe_fails.
Qed.

End AllFail.

(** ** What a collector returns, when it returns *)

Lemma yields_ret {A} (P : A → Prop) a : P a → yields P (mret a).
Proof. intros Ha st b st' H. monad_unfold. congruence. Qed.

Lemma yields_raise {A} (P : A → Prop) x : yields P (Py.raise x).
Proof. intros st b st' H. monad_unfold. discriminate. Qed.

Lemma yields_bind {A B} (P : B → Prop) (m : Py.M A) (k : A → Py.M B) :
  (∀ a, yields P (k a)) → yields P (m ≫= k).
Proof.
  intros Hk st b st' H. monad_unfold.
  destruct (m st) as [[a|y] st1]; [eapply Hk; eauto|discriminate].
Qed.

Lemma yields_bind_with {A B} (Q : A → Prop) (P : B → Prop) (m : Py.M A) (k : A → Py.M B) :
  yields Q m → (∀ a, Q a → yields P (k a)) → yields P (m ≫= k).
Proof.
  intros Hm Hk st b st' H. monad_unfold.
  destruct (m st) as [[a|y] st1] eqn:E; [|discriminate].
  eapply Hk; eauto.
Qed.

Lemma yields_try {A} (P : A → Prop) (body : Py.M A) targets handler :
  yields P body → (∀ x, yields P (handler x)) →
  yields P (Py.try_except body targets handler).
Proof.
  intros Hb Hh st a st' H. unfold Py.try_except in H.
  destruct (body st) as [[b|y] st1] eqn:E.
  - inversion H; subst. eapply Hb; eauto.
  - destruct (Py.catches targets y); [eapply Hh; eauto|discriminate].
Qed.

Ltac py_yields :=
  repeat (intros; cbn beta;
    lazymatch goal with
    | |- yields _ (mret _) => apply yields_ret
    | |- yields _ (Py.raise _) => apply yields_raise
    | |- yields _ (mbind _ _) => apply yields_bind
    | |- yields _ (Py.try_except _ _ _) => apply yields_try
    | |- yields _ (if ?c then _ else _) => destruct c
    | |- yields _ (match ?c with _ => _ end) => destruct c
    | |- yields _ _ => solve [eauto with py]
    end).

(** ** The platform dispatch *)

Lemma supported_cases e :
  supported e →
  PyStr.lower (Py.platform_system e) = "windows"
  ∨ PyStr.lower (Py.platform_system e) = "linux"
  ∨ PyStr.lower (Py.platform_system e) = "darwin".
Proof.
  unfold supported. rewrite !elem_of_cons, elem_of_nil. tauto.
Qed.

Lemma unsupported_cases e :
  ¬ supported e →
  String.eqb (PyStr.lower (Py.platform_system e)) "windows" = false
  ∧ String.eqb (PyStr.lower (Py.platform_system e)) "linux" = false
  ∧ String.eqb (PyStr.lower (Py.platform_system e)) "darwin" = false.
Proof.
  unfold supported. rewrite !elem_of_cons, elem_of_nil. intros H.
  repeat split; apply String.eqb_neq; tauto.
Qed.

Lemma software_dispatch e st :
  supported e →
  SoftwareReader.get_installed_software e st = Windows.get_installed_software e st
  ∨ SoftwareReader.get_installed_software e st = Linux.get_installed_software e st
  ∨ SoftwareReader.get_installed_software e st = Macos.get_installed_software e st.
Proof.
  intros H. unfold SoftwareReader.get_installed_software, SoftwareReader.get_platform_reader.
  destruct (supported_cases e H) as [-> | [-> | ->]]; cbn; auto.
Qed.

Lemma ports_dispatch e st :
  supported e →
  ∃ st1,
    PortListener.get_listening_ports e st = PortListener.get_windows_ports e st1
    ∨ PortListener.get_listening_ports e st = PortListener.get_linux_ports e st1
    ∨ PortListener.get_listening_ports e st = PortListener.get_macos_ports e st1.
Proof.
  intros H. unfold PortListener.get_listening_ports.
  destruct (supported_cases e H) as [-> | [-> | ->]]; monad_unfold; cbn; eauto.
Qed.

Lemma firmware_dispatch e st :
  supported e →
  ∃ st1,
    Firmware.get_firmware_info e st = Firmware.get_windows_firmware e st1
    ∨ Firmware.get_firmware_info e st = Firmware.get_linux_firmware e st1
    ∨ Firmware.get_firmware_info e st = Firmware.get_macos_firmware e st1.
Proof.
  intros H. unfold Firmware.get_firmware_info.
  destruct (supported_cases e H) as [-> | [-> | ->]]; monad_unfold; cbn; eauto.
Qed.

Lemma software_returns e st :
  ordinary e → supported e →
  ∃ d st', SoftwareReader.get_installed_software e st = (Py.Ok d, st')
           ∧ (all_fail e → d = ∅).
Proof.
  intros He Hs.
  destruct (software_dispatch e st Hs) as [-> | [-> | ->]].
  - destruct (windows_software_returns e He st) as (d & st' & E).
    exists d, st'. split; [done|]. intros Hf.
    eapply returns_value_unique; [by apply windows_software_fails|done].
  - destruct (linux_software_returns e He st) as (d & st' & E).
    exists d, st'. split; [done|]. intros Hf.
    eapply returns_value_unique; [by apply linux_software_fails|done].
  - destruct (macos_software_returns e He st) as (d & st' & E).
    exists d, st'. split; [done|]. intros Hf.
    eapply returns_value_unique; [by apply macos_software_fails|done].
Qed.

Lemma ports_return e st :
  ordinary e → supported e →
  ∃ d st', PortListener.get_listening_ports e st = (Py.Ok d, st')
           ∧ (all_fail e → d = []).
Proof.
  intros He Hs.
  destruct (ports_dispatch e st Hs) as (st1 & [-> | [-> | ->]]).
  - destruct (windows_ports_returns e He st1) as (d & st' & E).
    exists d, st'. split; [done|]. intros Hf.
    eapply returns_value_unique; [by apply windows_ports_fails|done].
  - destruct (linux_ports_returns e He st1) as (d & st' & E).
    exists d, st'. split; [done|]. intros Hf.
    eapply returns_value_unique; [by apply linux_ports_fails|done].
  - destruct (macos_ports_returns e He st1) as (d & st' & E).
    exists d, st'. split; [done|]. intros Hf.
    eapply returns_value_unique; [by apply macos_ports_fails|done].
Qed.

Lemma firmware_returns e st :
  ordinary e → supported e →
  ∃ d st', Firmware.get_firmware_info e st = (Py.Ok d, st')
           ∧ (all_fail e → d = []).
Proof.
  intros He Hs.
  destruct (firmware_dispatch e st Hs) as (st1 & [-> | [-> | ->]]).
  - destruct (windows_firmware_returns e He st1) as (d & st' & E).
    exists d, st'. split; [done|]. intros Hf.
    eapply returns_value_unique; [by apply windows_firmware_fails|done].
  - destruct (linux_firmware_returns e He st1) as (d & st' & E).
    exists d, st'. split; [done|]. intros Hf.
    eapply returns_value_unique; [by apply linux_firmware_fails|done].
  - destruct (macos_firmware_returns e He st1) as (d & st' & E).
    exists d, st'. split; [done|]. intros Hf.
    eapply returns_value_unique; [by apply macos_firmware_fails|done].
Qed.

(** C2. On a supported platform, whatever way the external tools fail (a
    missing executable, a time-out or undecodable output raise an
    [Exception]; a non-zero exit status or malformed output complete), each
    of [get_installed_software], [get_listening_ports] and
    [get_firmware_info] returns a dictionary and raises nothing; when every
    tool fails the dictionary is empty. *)
Theorem collectors_return_dictionaries (e : Py.env) (st : Py.state) :
  ordinary e → supported e →
  (∃ d st', SoftwareReader.get_installed_software e st = (Py.Ok d, st')
            ∧ (all_fail e → d = ∅))
  ∧ (∃ d st', PortListener.get_listening_ports e st = (Py.Ok d, st')
              ∧ (all_fail e → d = []))
  ∧ (∃ d st', Firmware.get_firmware_info e st = (Py.Ok d, st')
              ∧ (all_fail e → d = [])).
Proof.
  intros He Hs. repeat split.
  - by apply software_returns.
  - by apply ports_return.
  - by apply firmware_returns.
Qed.

(** The exceptions the failure of a tool raises are instances of
    [Exception]; an interrupt of the user is not. *)
Lemma failure_modes_are_exceptions text :
  Forall (λ c, is_exception (Py.Exn c text))
    [ Py.FileNotFoundError; Py.PermissionError; Py.OSError; Py.TimeoutExpired;
      Py.UnicodeDecodeError; Py.JSONDecodeError; Py.ValueError ]
  ∧ ¬ is_exception (Py.Exn Py.KeyboardInterrupt text).
Proof. split; [repeat constructor|]. unfold is_exception. cbn. discriminate. Qed.

Lemma bare_linux_ordinary : ordinary Examples.bare_linux.
Proof.
  split.
  - intros n argv x H. cbn in H. unfold Examples.absent, Examples.missing in H.
    destruct (Examples.runs Examples.python3 argv); inversion H. reflexivity.
  - intros text x H. cbn in H. inversion H. reflexivity.
Qed.

Lemma bare_linux_supported : supported Examples.bare_linux.
Proof. unfold supported. cbn. rewrite !elem_of_cons. auto. Qed.

Lemma collectors_return_dictionaries_witness :
  ordinary Examples.bare_linux ∧ supported Examples.bare_linux
  ∧ (∃ d st', SoftwareReader.get_installed_software Examples.bare_linux Py.initial
              = (Py.Ok d, st')
              ∧ (all_fail Examples.bare_linux → d = ∅))
  ∧ (∃ d st', PortListener.get_listening_ports Examples.bare_linux Py.initial
              = (Py.Ok d, st')
              ∧ (all_fail Examples.bare_linux → d = []))
  ∧ (∃ d st', Firmware.get_firmware_info Examples.bare_linux Py.initial = (Py.Ok d, st')
              ∧ (all_fail Examples.bare_linux → d = [])).
Proof.
  split; [apply bare_linux_ordinary|]. split; [apply bare_linux_supported|].
  apply (collectors_return_dictionaries Examples.bare_linux Py.initial).
  - apply bare_linux_ordinary.
  - apply bare_linux_supported.
Defined.

(** ** The only error surfaced is the unsupported platform *)

Lemma assoc_oset_eq {V} k (v : V) d : Py.assoc k (Py.oset k v d) = Some v.
Proof.
  induction d as [|[k' v'] d IH]; cbn.
  - by rewrite String.eqb_refl.
  - destruct (String.eqb k' k) eqn:E; cbn; rewrite ?E; [by rewrite String.eqb_refl|done].
Qed.

Lemma assoc_oset_ne {V} k k' (v : V) d :
  k ≠ k' → Py.assoc k (Py.oset k' v d) = Py.assoc k d.
Proof.
  intros Hne. induction d as [|[k1 v1] d IH]; cbn.
  - apply String.eqb_neq in Hne. by rewrite String.eqb_sym, Hne.
  - destruct (String.eqb k1 k') eqn:E; cbn.
    + apply String.eqb_eq in E. subst k1.
      apply not_eq_sym, String.eqb_neq in Hne. by rewrite !Hne.
    + by rewrite IH.
Qed.

Lemma ports_store_no_error name t port_info :
  name ≠ "error" → no_error port_info → no_error (PortListener.store name t port_info).
Proof.
  intros Hn H. unfold PortListener.store, no_error. destruct t; [done|].
  rewrite assoc_oset_ne; [done|congruence].
Qed.

Lemma store_devices_no_error name t fi :
  name ≠ "error" → no_error fi → no_error (Firmware.store_devices name t fi).
Proof.
  intros Hn H. unfold Firmware.store_devices, no_error. destruct t; [done|].
  rewrite assoc_oset_ne; [done|congruence].
Qed.

Lemma store_fields_no_error name t fi :
  name ≠ "error" → no_error fi → no_error (Firmware.store_fields name t fi).
Proof.
  intros Hn H. unfold Firmware.store_fields, no_error. destruct t; [done|].
  rewrite assoc_oset_ne; [done|congruence].
Qed.

Lemma oset_no_error {V} name (v : V) d :
  name ≠ "error" → no_error d → no_error (Py.oset name v d).
Proof. intros Hn H. unfold no_error. rewrite assoc_oset_ne; [done|congruence]. Qed.

Section NoError.
Context (e : Py.env).

Lemma text_scan_no_error announce argv parse name failed port_info :
  name ≠ "error" → no_error port_info →
  yields no_error (PortListener.text_scan e announce argv parse name failed port_info).
Proof.
  intros Hn H. unfold PortListener.text_scan. py_yields; first [done | by apply ports_store_no_error].
Qed.

Lemma process_mapping_no_error port_info :
  no_error port_info → yields no_error (PortListener.process_mapping e port_info).
Proof.
  intros H. unfold PortListener.process_mapping. py_yields; first [done | by apply oset_no_error].
Qed.

Lemma powershell_scan_no_error port_info :
  no_error port_info → yields no_error (PortListener.powershell_scan e port_info).
Proof.
  intros H. unfold PortListener.powershell_scan. py_yields; first [done | by apply ports_store_no_error].
Qed.

Lemma windows_ports_no_error : yields no_error (PortListener.get_windows_ports e).
Proof.
  unfold PortListener.get_windows_ports.
  eapply yields_bind_with; [by apply text_scan_no_error|]. intros p1 H1.
  eapply yields_bind_with; [by apply process_mapping_no_error|]. intros p2 H2.
  by apply powershell_scan_no_error.
Qed.

Lemma linux_ports_no_error : yields no_error (PortListener.get_linux_ports e).
Proof.
  unfold PortListener.get_linux_ports.
  eapply yields_bind_with; [by apply text_scan_no_error|]. intros p1 H1.
  by apply text_scan_no_error.
Qed.

Lemma macos_ports_no_error : yields no_error (PortListener.get_macos_ports e).
Proof.
  unfold PortListener.get_macos_ports.
  eapply yields_bind_with; [by apply text_scan_no_error|]. intros p1 H1.
  by apply text_scan_no_error.
Qed.

Lemma json_probe_no_error announce script use parse_failed scan_failed fi :
  (∀ data fi, no_error fi → yields no_error (use data fi)) → no_error fi →
  yields no_error
    (Firmware.json_probe e announce script use parse_failed scan_failed fi).
Proof.
  intros Huse H. unfold Firmware.json_probe. py_yields; first [done | by apply Huse].
Qed.

Lemma use_fields_no_error name fields data fi :
  name ≠ "error" → no_error fi → yields no_error (Firmware.use_fields name fields data fi).
Proof.
  intros Hn H. unfold Firmware.use_fields. py_yields; first [done | by apply oset_no_error].
Qed.

Lemma use_devices_no_error name name_key label fields data fi :
  name ≠ "error" → no_error fi →
  yields no_error (Firmware.use_devices name name_key label fields data fi).
Proof.
  intros Hn H. unfold Firmware.use_devices. py_yields; by apply store_devices_no_error.
Qed.

Lemma windows_firmware_no_error : yields no_error (Firmware.get_windows_firmware e).
Proof.
  unfold Firmware.get_windows_firmware.
  repeat (eapply yields_bind_with;
          [apply json_probe_no_error; [intros|];
           first [by apply use_fields_no_error | by apply use_devices_no_error | done]|];
          intros ? ?).
  apply json_probe_no_error; [intros|done]. by apply use_devices_no_error.
Qed.

Lemma text_probe_no_error announce argv use failed fi :
  (∀ out fi, no_error fi → no_error (use out fi)) → no_error fi →
  yields no_error (Firmware.text_probe e announce argv use failed fi).
Proof.
  intros Huse H. unfold Firmware.text_probe. py_yields; first [done | by apply Huse].
Qed.

Lemma linux_firmware_no_error : yields no_error (Firmware.get_linux_firmware e).
Proof.
  unfold Firmware.get_linux_firmware.
  eapply yields_bind_with.
  { apply text_probe_no_error; [intros|done]. by apply store_fields_no_error. }
  intros f1 H1. eapply yields_bind_with.
  { apply text_probe_no_error; [intros|done]. by apply store_devices_no_error. }
  intros f2 H2.
  apply text_probe_no_error; [intros|done]. by apply store_devices_no_error.
Qed.

Lemma profiler_probe_no_error announce data_type use parse_failed scan_failed fi :
  (∀ data fi, no_error fi → yields no_error (use data fi)) → no_error fi →
  yields no_error
    (Firmware.profiler_probe e announce data_type use parse_failed scan_failed fi).
Proof.
  intros Huse H. unfold Firmware.profiler_probe. py_yields; first [done | by apply Huse].
Qed.

Lemma use_hardware_no_error data fi :
  no_error fi → yields no_error (Firmware.use_hardware data fi).
Proof.
  intros H. unfold Firmware.use_hardware. py_yields; first [done | by apply oset_no_error].
Qed.

Lemma use_storage_no_error data fi :
  no_error fi → yields no_error (Firmware.use_storage data fi).
Proof.
  intros H. unfold Firmware.use_storage. py_yields; by apply store_devices_no_error.
Qed.

Lemma macos_firmware_no_error : yields no_error (Firmware.get_macos_firmware e).
Proof.
  unfold Firmware.get_macos_firmware.
  eapply yields_bind_with.
  { apply profiler_probe_no_error; [intros|done]. by apply use_hardware_no_error. }
  intros f1 H1.
  apply profiler_probe_no_error; [intros|done]. by apply use_storage_no_error.
Qed.

End NoError.

Lemma software_unsupported e st :
  ¬ supported e →
  SoftwareReader.get_installed_software e st
  = (Py.Raise (Py.Exn Py.OSError
                 ("Unsupported operating system: " +:+ PyStr.lower (Py.platform_system e))),
     st).
Proof.
  intros H. destruct (unsupported_cases e H) as (Hw & Hl & Hd).
  unfold SoftwareReader.get_installed_software, SoftwareReader.get_platform_reader.
  rewrite Hw, Hl, Hd. reflexivity.
Qed.

Lemma ports_unsupported e st :
  ¬ supported e →
  PortListener.get_listening_ports e st
  = (Py.Ok [("error",
             PortListener.Text
               ("Unsupported operating system: " +:+ PyStr.lower (Py.platform_system e)))],
     Py.State (Py.calls st)
       (Py.printed st
        ++ ["Detecting listening ports on " +:+ PyStr.lower (Py.platform_system e)
            +:+ "..."])).
Proof.
  intros H. destruct (unsupported_cases e H) as (Hw & Hl & Hd).
  unfold PortListener.get_listening_ports. rewrite Hw, Hl, Hd. reflexivity.
Qed.

Lemma firmware_unsupported e st :
  ¬ supported e →
  Firmware.get_firmware_info e st
  = (Py.Ok [("error",
             Firmware.Text
               ("Unsupported operating system: " +:+ PyStr.lower (Py.platform_system e)))],
     Py.State (Py.calls st)
       (Py.printed st
        ++ ["Detecting firmware on " +:+ PyStr.lower (Py.platform_system e) +:+ "..."])).
Proof.
  intros H. destruct (unsupported_cases e H) as (Hw & Hl & Hd).
  unfold Firmware.get_firmware_info. rewrite Hw, Hl, Hd. reflexivity.
Qed.

Lemma ports_supported_no_error e st d st' :
  supported e → PortListener.get_listening_ports e st = (Py.Ok d, st') → no_error d.
Proof.
  intros Hs E.
  destruct (ports_dispatch e st Hs) as (st1 & [H | [H | H]]); rewrite H in E.
  - eapply windows_ports_no_error; eauto.
  - eapply linux_ports_no_error; eauto.
  - eapply macos_ports_no_error; eauto.
Qed.

Lemma firmware_supported_no_error e st d st' :
  supported e → Firmware.get_firmware_info e st = (Py.Ok d, st') → no_error d.
Proof.
  intros Hs E.
  destruct (firmware_dispatch e st Hs) as (st1 & [H | [H | H]]); rewrite H in E.
  - eapply windows_firmware_no_error; eauto.
  - eapply linux_firmware_no_error; eauto.
  - eapply macos_firmware_no_error; eauto.
Qed.

(** C4. On a system other than Windows, Linux and macOS every entry point
    surfaces one explicit error and runs no tool:
    [get_installed_software] raises [OSError], [get_listening_ports] and
    [get_firmware_info] return the dictionary with the single entry
    ['error'].  It is the only such condition: on a supported system of an
    ordinary host the three return a dictionary, and the dictionaries of
    the last two have no ['error'] entry. *)
Theorem unsupported_platform_is_the_only_error (e : Py.env) (st : Py.state) :
  let message :=
    "Unsupported operating system: " +:+ PyStr.lower (Py.platform_system e) in
  (¬ supported e →
     SoftwareReader.get_installed_software e st = (Py.Raise (Py.Exn Py.OSError message), st)
     ∧ (∃ st', PortListener.get_listening_ports e st
               = (Py.Ok [("error", PortListener.Text message)], st')
               ∧ Py.calls st' = Py.calls st)
     ∧ (∃ st', Firmware.get_firmware_info e st
               = (Py.Ok [("error", Firmware.Text message)], st')
               ∧ Py.calls st' = Py.calls st))
  ∧ (ordinary e → supported e →
     (∃ d st', SoftwareReader.get_installed_software e st = (Py.Ok d, st'))
     ∧ (∃ d st', PortListener.get_listening_ports e st = (Py.Ok d, st') ∧ no_error d)
     ∧ (∃ d st', Firmware.get_firmware_info e st = (Py.Ok d, st') ∧ no_error d)).
Proof.
  intros message. split.
  - intros H. split; [by apply software_unsupported|]. split.
    + eexists. split; [by apply ports_unsupported|done].
    + eexists. split; [by apply firmware_unsupported|done].
  - intros He Hs. split; [|split].
    + destruct (software_returns e st He Hs) as (d & st' & E & _). eauto.
    + destruct (ports_return e st He Hs) as (d & st' & E & _).
      exists d, st'. split; [done|]. by eapply ports_supported_no_error.
    + destruct (firmware_returns e st He Hs) as (d & st' & E & _).
      exists d, st'. split; [done|]. by eapply firmware_supported_no_error.
Qed.

Lemma freebsd_unsupported : ¬ supported Examples.freebsd.
Proof.
  unfold supported. cbn. rewrite !elem_of_cons, elem_of_nil.
  intros [H | [H | [H | []]]]; discriminate.
Qed.

Lemma unsupported_platform_is_the_only_error_witness :
  (¬ supported Examples.freebsd
   ∧ SoftwareReader.get_installed_software Examples.freebsd Py.initial
     = (Py.Raise (Py.Exn Py.OSError "Unsupported operating system: freebsd"), Py.initial))
  ∧ (ordinary Examples.bare_linux ∧ supported Examples.bare_linux
     ∧ ∃ d st', PortListener.get_listening_ports Examples.bare_linux Py.initial
                = (Py.Ok d, st') ∧ no_error d).
Proof.
  split.
  - split; [apply freebsd_unsupported|].
    apply (unsupported_platform_is_the_only_error Examples.freebsd Py.initial).
    apply freebsd_unsupported.
  - split; [apply bare_linux_ordinary|]. split; [apply bare_linux_supported|].
    apply (unsupported_platform_is_the_only_error Examples.bare_linux Py.initial).
    + apply bare_linux_ordinary.
    + apply bare_linux_supported.
Defined.

(** ** Merging the probes of a chain *)

Lemma bind_ok {A B} (m : Py.M A) (k : A → Py.M B) st b st' :
  (m ≫= k) st = (Py.Ok b, st') →
  ∃ a st1, m st = (Py.Ok a, st1) ∧ k a st1 = (Py.Ok b, st').
Proof.
  monad_unfold. intros H.
  destruct (m st) as [[a|y] st1]; [eauto|discriminate].
Qed.

Lemma lookup_update (d other : gmap string string) k :
  Py.update d other !! k
  = match other !! k with
    | Some v => Some v
    | None => d !! k
    end.
Proof.
  unfold Py.update. rewrite lookup_union.
  destruct (other !! k), (d !! k); reflexivity.
Qed.

(** C1, claim as stated, refuted: the package manager resolves ["1.0"] for
    an identity, the Snap probe, run after it, resolves ["2.0"], and the
    merged record holds ["2.0"], not ["1.0"]. *)
Lemma first_writer_wins_counterexample :
  let e := Examples.zypper_then_snap in
  let first := Linux.get_linux_software e Py.initial in
  let later := Linux.get_snap_packages e first.2 in
  let merged := Linux.get_installed_software e Py.initial in
  resolved first "Snap: core" = Some "1.0"
  ∧ resolved later "Snap: core" = Some "2.0"
  ∧ resolved merged "Snap: core" = Some "2.0"
  ∧ resolved merged "Snap: core" ≠ Some "1.0".
Proof. vm_compute. repeat split; congruence. Qed.

(** C1, amended.  The mapping [get_installed_software] returns holds, for
    every identity, the value of the last probe of the chain that produced
    it (package manager, Snap, Flatpak, pip, in that order): a later probe's
    value replaces an earlier one whether or not the earlier one was set. *)
Theorem later_probe_wins (e : Py.env) (st : Py.state) (m : gmap string string)
    (st' : Py.state) :
  Linux.get_installed_software e st = (Py.Ok m, st') →
  ∃ A S F P st0 st1 st2 st3,
    Linux.get_linux_software e st0 = (Py.Ok A, st1)
    ∧ Linux.get_snap_packages e st1 = (Py.Ok S, st2)
    ∧ Linux.get_flatpak_packages e st2 = (Py.Ok F, st3)
    ∧ Linux.get_python_packages e st3 = (Py.Ok P, st')
    ∧ ∀ k, m !! k
           = match P !! k with
             | Some v => Some v
             | None =>
                 match F !! k with
                 | Some v => Some v
                 | None =>
                     match S !! k with
                     | Some v => Some v
                     | None => A !! k
                     end
                 end
             end.
Proof.
  unfold Linux.get_installed_software. intros H.
  apply bind_ok in H as ([] & st0 & _ & H).
  apply bind_ok in H as (A & st1 & HA & H).
  apply bind_ok in H as (S & st2 & HS & H).
  apply bind_ok in H as (F & st3 & HF & H).
  apply bind_ok in H as (P & st4 & HP & H).
  monad_unfold. inversion H; subst; clear H.
  exists A, S, F, P, st0, st1, st2, st3. repeat split; try done.
  intros k. rewrite !lookup_update, lookup_empty.
  destruct (P !! k), (F !! k), (S !! k), (A !! k); reflexivity.
Qed.

Lemma later_probe_wins_witness :
  ∃ m st',
    Linux.get_installed_software Examples.zypper_then_snap Py.initial = (Py.Ok m, st')
    ∧ ∃ A S F P st0 st1 st2 st3,
        Linux.get_linux_software Examples.zypper_then_snap st0 = (Py.Ok A, st1)
        ∧ Linux.get_snap_packages Examples.zypper_then_snap st1 = (Py.Ok S, st2)
        ∧ Linux.get_flatpak_packages Examples.zypper_then_snap st2 = (Py.Ok F, st3)
        ∧ Linux.get_python_packages Examples.zypper_then_snap st3 = (Py.Ok P, st')
        ∧ ∀ k, m !! k
               = match P !! k with
                 | Some v => Some v
                 | None =>
                     match F !! k with
                     | Some v => Some v
                     | None =>
                         match S !! k with
                         | Some v => Some v
                         | None => A !! k
                         end
                     end
                 end.
Proof.
  eexists _, _. split; [vm_compute; reflexivity|].
  apply (later_probe_wins Examples.zypper_then_snap Py.initial).
  vm_compute. reflexivity.
Defined.

(** ** The Linux chain: alternative package managers, additive probes *)

Lemma prefix_heads a p b s : String.prefix (String a p) (String b s) = true → a = b.
Proof. cbn. destruct (ascii_dec a b); [done|discriminate]. Qed.

Lemma prefix_clash a p b q k :
  a ≠ b → PyStr.startswith (String a p) k = true → PyStr.startswith (String b q) k = false.
Proof.
  unfold PyStr.startswith. intros Hne H. destruct k as [|c k]; [done|].
  apply prefix_heads in H. subst c. cbn.
  destruct (ascii_dec b a); [congruence|done].
Qed.

Lemma keys_start_empty p : keys_start p ∅.
Proof. intros k [v H]. by rewrite lookup_empty in H. Qed.

Lemma keys_start_insert p k v d :
  PyStr.startswith p k = true → keys_start p d → keys_start p (<[k := v]> d).
Proof.
  intros Hk Hd k' [v' H]. destruct (decide (k = k')) as [<-|Hne]; [done|].
  rewrite lookup_insert_ne in H by done. apply Hd. eauto.
Qed.

Lemma keys_start_foldl p (step : gmap string string → string → gmap string string) lines :
  (∀ d line, keys_start p d → keys_start p (step d line)) →
  ∀ d, keys_start p d → keys_start p (foldl step d lines).
Proof.
  intros Hstep. induction lines as [|line lines IH]; intros d Hd; cbn; [done|].
  apply IH, Hstep, Hd.
Qed.

Lemma startswith_app p s : PyStr.startswith p (p +:+ s) = true.
Proof.
  unfold PyStr.startswith. induction p as [|a p IH].
  - by destruct s.
  - change (String a p +:+ s) with (String a (p +:+ s)).
    change (String.prefix (String a p) (String a (p +:+ s)))
      with (if ascii_dec a a then String.prefix p (p +:+ s) else false).
    destruct (ascii_dec a a); [exact IH|congruence].
Qed.

Lemma snap_line_keys d line :
  keys_start "Snap: " d → keys_start "Snap: " (Linux.snap_line d line).
Proof.
  intros Hd. unfold Linux.snap_line.
  destruct (PyStr.nonempty _); [|done].
  destruct (PyStr.split_ws line) as [|name [|version rest]]; try done.
  apply keys_start_insert; [apply startswith_app|done].
Qed.

Lemma flatpak_line_keys d line :
  keys_start "Flatpak: " d → keys_start "Flatpak: " (Linux.flatpak_line d line).
Proof.
  intros Hd. unfold Linux.flatpak_line.
  destruct (_ && _); [|done].
  destruct (PyStr.split_char PyStr.tab line) as [|name [|version rest]]; try done.
  destruct (_ && _); [|done].
  apply keys_start_insert; [apply startswith_app|done].
Qed.

Lemma pip_line_keys d line :
  keys_start "Python: " d → keys_start "Python: " (Linux.pip_line d line).
Proof.
  intros Hd. unfold Linux.pip_line.
  destruct (PyStr.nonempty _); [|done].
  destruct (PyStr.split_ws line) as [|name [|version rest]]; try done.
  apply keys_start_insert; [apply startswith_app|done].
Qed.

Lemma get_snap_packages_keys e : yields (keys_start "Snap: ") (Linux.get_snap_packages e).
Proof.
  unfold Linux.get_snap_packages. py_yields; try apply keys_start_empty.
  apply keys_start_foldl; [apply snap_line_keys|apply keys_start_empty].
Qed.

Lemma get_flatpak_packages_keys e :
  yields (keys_start "Flatpak: ") (Linux.get_flatpak_packages e).
Proof.
  unfold Linux.get_flatpak_packages. py_yields; try apply keys_start_empty.
  apply keys_start_foldl; [apply flatpak_line_keys|apply keys_start_empty].
Qed.

Lemma get_python_packages_keys e :
  yields (keys_start "Python: ") (Linux.get_python_packages e).
Proof.
  unfold Linux.get_python_packages. py_yields; try apply keys_start_empty.
  apply keys_start_foldl; [apply pip_line_keys|apply keys_start_empty].
Qed.

Lemma keys_start_none p q a b d k :
  p = String a (PyStr.drop_chars 1 p) → q = String b (PyStr.drop_chars 1 q) → a ≠ b →
  keys_start q d → PyStr.startswith p k = true → d !! k = None.
Proof.
  intros Hp Hq Hne Hd Hk. destruct (d !! k) eqn:E; [|done].
  assert (PyStr.startswith q k = true) as H by (apply Hd; eauto).
  rewrite Hp in Hk. rewrite Hq in H.
  by rewrite (prefix_clash _ _ _ _ _ Hne Hk) in H.
Qed.

Section Trace.
Context (e : Py.env) (He : ordinary e).

Lemma try_package_manager_trace pm_name command software_list st :
  ∃ o r st',
    Linux.try_package_manager e pm_name command software_list st = (Py.Ok r, st')
    ∧ Py.calls st' = Py.calls st ++ [(command, o)]
    ∧ (success o = true → is_Some r)
    ∧ (success o = false → r = None).
Proof.
  unfold Linux.try_package_manager, Py.try_except. monad_unfold. unfold Py.run.
  cbn [Py.calls Py.printed].
  destruct (Py.subprocess_run e (length (Py.calls st)) command) as [x|rc out] eqn:E.
  - destruct He as [Hrun _]. apply Hrun in E. unfold is_exception in E. rewrite E.
    eexists (Py.Raised x), None, _. repeat split; intros; first [done | eauto].
  - cbn [fst snd]. destruct (rc =? 0) eqn:Hrc.
    + eexists (Py.Completed rc out), (Some _), _. cbn. rewrite Hrc.
      repeat split; intros; first [done | eauto].
    + eexists (Py.Completed rc out), None, _. cbn. rewrite Hrc.
      repeat split; intros; first [done | eauto].
Qed.

Lemma package_manager_loop_trace pms software_list st :
  ∃ tried d st',
    Linux.package_manager_loop e pms software_list st = (Py.Ok d, st')
    ∧ Py.calls st' = Py.calls st ++ tried
    ∧ tried.*1 `prefix_of` pms.*2
    ∧ (∀ i c o, tried !! i = Some (c, o) → success o = true → S i = length tried)
    ∧ ((length tried < length pms)%nat →
       ∃ c o, last tried = Some (c, o) ∧ success o = true).
Proof.
  revert st. induction pms as [|[pm_name command] rest IH]; intros st.
  - exists [], software_list, st. cbn. monad_unfold.
    rewrite app_nil_r. repeat split; [done|done|lia].
  - cbn [Linux.package_manager_loop]. monad_unfold.
    destruct (try_package_manager_trace pm_name command software_list st)
      as (o & r & st1 & E & Hc & Hs & Hf).
    rewrite E. destruct (success o) eqn:Ho.
    + destruct (Hs eq_refl) as [d ->].
      exists [(command, o)], d, st1. repeat split; try done.
      * cbn. by apply prefix_cons, prefix_nil.
      * intros [|i] c o' Hi _; [done|]. by destruct i.
      * intros _. exists command, o. done.
    + rewrite (Hf eq_refl).
      destruct (IH st1) as (tried & d & st' & E' & Hc' & Hp & Hlast & Hstop).
      exists ((command, o) :: tried), d, st'. repeat split; try done.
      * rewrite Hc', Hc, <- app_assoc. done.
      * cbn. by apply prefix_cons.
      * intros [|i] c o' Hi Hsucc; cbn in *.
        -- inversion Hi; subst. congruence.
        -- f_equal. by eapply Hlast.
      * cbn [length]. intros Hlen.
        destruct Hstop as (c & o' & Hl & Hsucc); [cbn in Hlen; lia|].
        exists c, o'. split; [|done]. rewrite last_cons, Hl. done.
Qed.

(** An additive probe runs its tool once, whatever the state. *)
Lemma additive_probe_trace {A} announce argv (k : Z * string → Py.M A) handler st :
  (∀ r st, ∃ a, k r st = (Py.Ok a, st)) →
  (∀ x st, ∃ a st', handler x st = (Py.Ok a, st') ∧ Py.calls st' = Py.calls st) →
  ∃ o a st',
    Py.try_except (Py.print announce ;; r ← Py.run e argv; k r)
      [Py.Exception] handler st = (Py.Ok a, st')
    ∧ Py.calls st' = Py.calls st ++ [(argv, o)].
Proof.
  intros Hk Hh. unfold Py.try_except. monad_unfold. unfold Py.run.
  cbn [Py.calls Py.printed].
  destruct (Py.subprocess_run e (length (Py.calls st)) argv) as [x|rc out] eqn:E.
  - destruct He as [Hrun _]. apply Hrun in E. unfold is_exception in E. rewrite E.
    edestruct (Hh x) as (a & st' & -> & Hc). eexists (Py.Raised x), _, _.
    split; [done|]. by rewrite Hc.
  - edestruct (Hk (rc, out)) as (a & ->). eexists (Py.Completed rc out), _, _. done.
Qed.

Lemma get_snap_packages_trace st :
  ∃ o d st', Linux.get_snap_packages e st = (Py.Ok d, st')
             ∧ Py.calls st' = Py.calls st ++ [(["snap"; "list"], o)].
Proof.
  apply additive_probe_trace.
  - intros r st1. destruct (r.1 =? 0); monad_unfold; eauto.
  - intros x st1. monad_unfold. eauto.
Qed.

Lemma get_flatpak_packages_trace st :
  ∃ o d st',
    Linux.get_flatpak_packages e st = (Py.Ok d, st')
    ∧ Py.calls st'
      = Py.calls st ++ [(["flatpak"; "list"; "--app"; "--columns=name,version"], o)].
Proof.
  apply additive_probe_trace.
  - intros r st1. destruct (r.1 =? 0); monad_unfold; eauto.
  - intros x st1. monad_unfold. eauto.
Qed.

Lemma get_python_packages_trace st :
  ∃ o d st',
    Linux.get_python_packages e st = (Py.Ok d, st')
    ∧ Py.calls st' = Py.calls st ++ [([Py.sys_executable e; "-m"; "pip"; "list"], o)].
Proof.
  apply additive_probe_trace.
  - intros r st1. destruct (r.1 =? 0); monad_unfold; eauto.
  - intros x st1. monad_unfold. eauto.
Qed.

End Trace.

(** C5. On an ordinary host, whatever the package managers did, the Snap,
    Flatpak and pip probes are each run once, after them and in that order,
    and every record they return is in the mapping [get_installed_software]
    returns; the package managers alone form a stop-at-first-success chain:
    they are tried in the declared order and none is tried after one has
    exited with status 0. *)
Theorem additive_probes_always_run (e : Py.env) (st : Py.state) :
  ordinary e →
  ∃ tried o1 o2 o3 A S F P m st0 st1 st2 st3 st',
    Linux.get_linux_software e st0 = (Py.Ok A, st1)
    ∧ Linux.get_snap_packages e st1 = (Py.Ok S, st2)
    ∧ Linux.get_flatpak_packages e st2 = (Py.Ok F, st3)
    ∧ Linux.get_python_packages e st3 = (Py.Ok P, st')
    ∧ Linux.get_installed_software e st = (Py.Ok m, st')
    ∧ Py.calls st'
      = Py.calls st ++ tried
        ++ [ (["snap"; "list"], o1);
             (["flatpak"; "list"; "--app"; "--columns=name,version"], o2);
             ([Py.sys_executable e; "-m"; "pip"; "list"], o3) ]
    ∧ stops_at_first_success tried
    ∧ S ⊆ m ∧ F ⊆ m ∧ P ⊆ m.
Proof.
  intros He.
  set (st0 := Py.State (Py.calls st) (Py.printed st ++ ["Detecting software on Linux..."])).
  destruct (package_manager_loop_trace e He Linux.package_managers ∅ st0)
    as (tried & A & st1 & EA & CA & Hp & Hlast & Hstop).
  destruct (get_snap_packages_trace e He st1) as (o1 & S & st2 & ES & CS).
  destruct (get_flatpak_packages_trace e He st2) as (o2 & F & st3 & EF & CF).
  destruct (get_python_packages_trace e He st3) as (o3 & P & st' & EP & CP).
  pose proof (get_snap_packages_keys e _ _ _ ES) as KS.
  pose proof (get_flatpak_packages_keys e _ _ _ EF) as KF.
  pose proof (get_python_packages_keys e _ _ _ EP) as KP.
  exists tried, o1, o2, o3, A, S, F, P,
    (Py.update (Py.update (Py.update (Py.update ∅ A) S) F) P), st0, st1, st2, st3, st'.
  split; [exact EA|]. split; [exact ES|]. split; [exact EF|]. split; [exact EP|].
  split.
  { unfold Linux.get_installed_software, Linux.get_linux_software in *. monad_unfold.
    fold st0. rewrite EA, ES, EF, EP. reflexivity. }
  split.
  { rewrite CP, CF, CS, CA. cbn. rewrite <- !app_assoc. reflexivity. }
  split; [done|].
  split; [|split]; apply map_subseteq_spec; intros k v Hk; rewrite !lookup_update.
  - assert (PyStr.startswith "Snap: " k = true) as Hs by (apply KS; eauto).
    rewrite (keys_start_none "Snap: " "Python: " "S" "P" P k) by done.
    rewrite (keys_start_none "Snap: " "Flatpak: " "S" "F" F k) by done.
    by rewrite Hk.
  - assert (PyStr.startswith "Flatpak: " k = true) as Hs by (apply KF; eauto).
    rewrite (keys_start_none "Flatpak: " "Python: " "F" "P" P k) by done.
    by rewrite Hk.
  - by rewrite Hk.
Qed.

Lemma fedora_host_ordinary : ordinary Examples.fedora_host.
Proof.
  split.
  - intros n argv x H. cbn in H. unfold Examples.missing in H.
    repeat match type of H with
           | context [if ?c then _ else _] => destruct c
           end; inversion H; reflexivity.
  - intros text x H. cbn in H. inversion H. reflexivity.
Qed.

Lemma additive_probes_always_run_witness :
  let e := Examples.fedora_host in
  let run := Linux.get_installed_software e Py.initial in
  ordinary e
  ∧ run.1
    = Py.Ok (list_to_map
               [ ("bash", "5.1.8-6.el9"); ("Snap: core", "2.0");
                 ("Flatpak: org.gimp.GIMP", "2.10.34"); ("Python: requests", "2.31.0") ])
  ∧ commands run.2
    = [ ["dpkg"; "-l"]; ["rpm"; "-qa"]; ["snap"; "list"];
        ["flatpak"; "list"; "--app"; "--columns=name,version"];
        [Examples.python3; "-m"; "pip"; "list"] ]
  ∧ ∃ tried o1 o2 o3 A S F P m st0 st1 st2 st3 st',
      Linux.get_linux_software e st0 = (Py.Ok A, st1)
      ∧ Linux.get_snap_packages e st1 = (Py.Ok S, st2)
      ∧ Linux.get_flatpak_packages e st2 = (Py.Ok F, st3)
      ∧ Linux.get_python_packages e st3 = (Py.Ok P, st')
      ∧ Linux.get_installed_software e Py.initial = (Py.Ok m, st')
      ∧ Py.calls st'
        = Py.calls Py.initial ++ tried
          ++ [ (["snap"; "list"], o1);
               (["flatpak"; "list"; "--app"; "--columns=name,version"], o2);
               ([Py.sys_executable e; "-m"; "pip"; "list"], o3) ]
      ∧ stops_at_first_success tried
      ∧ S ⊆ m ∧ F ⊆ m ∧ P ⊆ m.
Proof.
  cbn zeta.
  split; [apply fedora_host_ordinary|].
  split; [vm_compute; reflexivity|].
  split; [vm_compute; reflexivity|].
  apply (additive_probes_always_run Examples.fedora_host Py.initial).
  apply fedora_host_ordinary.
Defined.

(** ** What is printed about a probe *)

Lemma probe_raised {A} e announce argv (k : Z * string → Py.M A) handler st x :
  Py.subprocess_run e (length (Py.calls st)) argv = Py.Raised x → is_exception x →
  Py.try_except (Py.print announce ;; r ← Py.run e argv; k r) [Py.Exception] handler st
  = handler x (after st argv (Py.Raised x) [announce]).
Proof.
  intros E Hx. unfold Py.try_except. monad_unfold. unfold Py.run.
  cbn [Py.calls Py.printed]. rewrite E. unfold is_exception in Hx. by rewrite Hx.
Qed.

Lemma probe_nonzero {A} e announce argv (k : Z * string → Py.M A) handler st rc out d :
  Py.subprocess_run e (length (Py.calls st)) argv = Py.Completed rc out →
  (∀ st, k (rc, out) st = (Py.Ok d, st)) →
  Py.try_except (Py.print announce ;; r ← Py.run e argv; k r) [Py.Exception] handler st
  = (Py.Ok d, after st argv (Py.Completed rc out) [announce]).
Proof.
  intros E Hk. unfold Py.try_except. monad_unfold. unfold Py.run.
  cbn [Py.calls Py.printed]. rewrite E. by rewrite Hk.
Qed.

(** A probe prints its progress line before anything else. *)
Lemma probe_announces {A} e announce argv (k : Z * string → Py.M A) handler st :
  (∀ r st1, Py.printed (k r st1).2 = Py.printed st1) →
  (∀ x st1, ∃ rest, Py.printed (handler x st1).2 = Py.printed st1 ++ rest) →
  ∃ rest,
    Py.printed
      (Py.try_except (Py.print announce ;; r ← Py.run e argv; k r)
         [Py.Exception] handler st).2
    = Py.printed st ++ announce :: rest.
Proof.
  intros Hk Hh. unfold Py.try_except. monad_unfold. unfold Py.run.
  cbn [Py.calls Py.printed].
  destruct (Py.subprocess_run e (length (Py.calls st)) argv) as [x|rc out].
  - destruct (Py.catches [Py.Exception] x).
    + edestruct (Hh x) as [rest ->]. cbn [Py.printed].
      exists rest. by rewrite <- app_assoc.
    + by exists [].
  - specialize (Hk (rc, out)
                  (Py.State (Py.calls st ++ [(argv, Py.Completed rc out)])
                     (Py.printed st ++ [announce]))).
    destruct (k (rc, out) _) as [[a|y] st2]; cbn [snd Py.printed] in Hk.
    + exists []. cbn [snd]. by rewrite Hk.
    + destruct (Py.catches [Py.Exception] y).
      * edestruct (Hh y) as [rest ->]. exists rest. by rewrite Hk, <- app_assoc.
      * exists []. cbn [snd]. by rewrite Hk.
Qed.

Ltac py_pure_branch :=
  let r := fresh "r" in
  let st1 := fresh "st" in
  intros r st1; destruct (r.1 =? 0); reflexivity.

Lemma after_print st argv o lines line :
  Py.State (Py.calls (after st argv o lines)) (Py.printed (after st argv o lines) ++ [line])
  = after st argv o (lines ++ [line]).
Proof. unfold after. cbn. by rewrite <- app_assoc. Qed.

(** An error of the tool that is no instance of [Exception] ends the
    probe: the progress line is the last line printed. *)
Lemma probe_interrupted {A} e announce argv (k : Z * string → Py.M A) handler st y :
  Py.subprocess_run e (length (Py.calls st)) argv = Py.Raised y → ¬ is_exception y →
  Py.try_except (Py.print announce ;; r ← Py.run e argv; k r) [Py.Exception] handler st
  = (Py.Raise y, after st argv (Py.Raised y) [announce]).
Proof.
  intros E Hy. unfold Py.try_except. monad_unfold. unfold Py.run.
  cbn [Py.calls Py.printed]. rewrite E. unfold is_exception in Hy.
  by apply not_true_is_false in Hy as ->.
Qed.

(** C3, claim as stated, refuted: on the first host the Snap probe is
    attempted and fails, on the second it succeeds, and the two runs of
    [get_installed_software] return the same mapping and print the same
    lines: nothing observable records the outcome of the probe. *)
Lemma silent_failure_counterexample :
  let failing := Linux.get_installed_software Examples.snap_missing Py.initial in
  let passing := Linux.get_installed_software Examples.snap_present Py.initial in
  In (["snap"; "list"], Examples.missing ["snap"; "list"]) (Py.calls failing.2)
  ∧ (∃ out, In (["snap"; "list"], Py.Completed 0 out) (Py.calls passing.2))
  ∧ failing.1 = passing.1
  ∧ Py.printed failing.2 = Py.printed passing.2.
Proof.
  vm_compute. split; [|split; [|split]].
  - right. left. reflexivity.
  - eexists. right. left. reflexivity.
  - reflexivity.
  - reflexivity.
Qed.

(** C3, amended.  For the probes of the Linux and macOS software readers
    (a package manager, Snap, Flatpak, pip, the macOS applications scan,
    Homebrew, Homebrew Cask, MacPorts, Mac App Store): a probe that is
    attempted prints its progress line first, whatever the tool then does;
    when the call of the tool raises an error that is no instance of
    [Exception], the probe ends with that error and the progress line is
    the last line printed.  An exception raised by a package-manager probe,
    by the pip probe or by the applications scan is reported by one more
    printed line, which carries the text of the exception; an exception
    raised by the Snap or Flatpak probe, or by a macOS probe that ends in
    [except Exception: pass] (Homebrew, Homebrew Cask, MacPorts, Mac App
    Store), is swallowed: the progress line is all that is printed and the
    empty dictionary is returned.  A non-zero exit status leaves no
    diagnostic for any of them. *)
Theorem failure_diagnostics (e : Py.env) (st : Py.state) (x : Py.exn) (rc : Z)
    (out : string) :
  is_exception x → rc ≠ 0 →
  let n := length (Py.calls st) in
  let profiler := ["system_profiler"; "SPApplicationsDataType"; "-xml"] in
  ((∀ pm_name command software_list,
      ∃ rest,
        Py.printed (Linux.try_package_manager e pm_name command software_list st).2
        = Py.printed st ++ ("Trying " +:+ pm_name +:+ " package manager...") :: rest)
   ∧ (∃ rest, Py.printed (Linux.get_snap_packages e st).2
              = Py.printed st ++ "Scanning Snap packages..." :: rest)
   ∧ (∃ rest, Py.printed (Linux.get_flatpak_packages e st).2
              = Py.printed st ++ "Scanning Flatpak packages..." :: rest)
   ∧ (∃ rest, Py.printed (Linux.get_python_packages e st).2
              = Py.printed st ++ "Scanning Python packages..." :: rest)
   ∧ (∃ rest, Py.printed (Macos.get_macos_applications e st).2
              = Py.printed st ++ "Scanning macOS applications..." :: rest)
   ∧ (∀ announce argv parse,
        ∃ rest, Py.printed (Macos.silent_probe e announce argv parse st).2
                = Py.printed st ++ announce :: rest))
  ∧ (∀ y, ¬ is_exception y →
     (∀ pm_name command software_list,
        Py.subprocess_run e n command = Py.Raised y →
        Linux.try_package_manager e pm_name command software_list st
        = (Py.Raise y,
           after st command (Py.Raised y)
             [ "Trying " +:+ pm_name +:+ " package manager..." ]))
     ∧ (Py.subprocess_run e n ["snap"; "list"] = Py.Raised y →
        Linux.get_snap_packages e st
        = (Py.Raise y,
           after st ["snap"; "list"] (Py.Raised y) [ "Scanning Snap packages..." ]))
     ∧ (Py.subprocess_run e n ["flatpak"; "list"; "--app"; "--columns=name,version"]
        = Py.Raised y →
        Linux.get_flatpak_packages e st
        = (Py.Raise y,
           after st ["flatpak"; "list"; "--app"; "--columns=name,version"] (Py.Raised y)
             [ "Scanning Flatpak packages..." ]))
     ∧ (Py.subprocess_run e n [Py.sys_executable e; "-m"; "pip"; "list"] = Py.Raised y →
        Linux.get_python_packages e st
        = (Py.Raise y,
           after st [Py.sys_executable e; "-m"; "pip"; "list"] (Py.Raised y)
             [ "Scanning Python packages..." ]))
     ∧ (Py.subprocess_run e n profiler = Py.Raised y →
        Macos.get_macos_applications e st
        = (Py.Raise y,
           after st profiler (Py.Raised y) [ "Scanning macOS applications..." ]))
     ∧ (∀ announce argv parse,
          Py.subprocess_run e n argv = Py.Raised y →
          Macos.silent_probe e announce argv parse st
          = (Py.Raise y, after st argv (Py.Raised y) [ announce ])))
  ∧ (∀ pm_name command software_list,
     (Py.subprocess_run e n command = Py.Raised x →
      Linux.try_package_manager e pm_name command software_list st
      = (Py.Ok None,
         after st command (Py.Raised x)
           [ "Trying " +:+ pm_name +:+ " package manager...";
             pm_name +:+ " failed: " +:+ Py.exn_text x ]))
     ∧ (Py.subprocess_run e n command = Py.Completed rc out →
        Linux.try_package_manager e pm_name command software_list st
        = (Py.Ok None,
           after st command (Py.Completed rc out)
             [ "Trying " +:+ pm_name +:+ " package manager..." ])))
  ∧ (∀ argv, argv = [Py.sys_executable e; "-m"; "pip"; "list"] →
     (Py.subprocess_run e n argv = Py.Raised x →
      Linux.get_python_packages e st
      = (Py.Ok ∅,
         after st argv (Py.Raised x)
           [ "Scanning Python packages...";
             "Python packages scan failed: " +:+ Py.exn_text x ]))
     ∧ (Py.subprocess_run e n argv = Py.Completed rc out →
        Linux.get_python_packages e st
        = (Py.Ok ∅, after st argv (Py.Completed rc out) [ "Scanning Python packages..." ])))
  ∧ ((Py.subprocess_run e n profiler = Py.Raised x →
      Macos.get_macos_applications e st
      = (Py.Ok ∅,
         after st profiler (Py.Raised x)
           [ "Scanning macOS applications...";
             "macOS system_profiler failed: " +:+ Py.exn_text x ]))
     ∧ (Py.subprocess_run e n profiler = Py.Completed rc out →
        Macos.get_macos_applications e st
        = (Py.Ok ∅,
           after st profiler (Py.Completed rc out) [ "Scanning macOS applications..." ])))
  ∧ (∀ o, o = Py.Raised x ∨ o = Py.Completed rc out →
     (Py.subprocess_run e n ["snap"; "list"] = o →
      Linux.get_snap_packages e st
      = (Py.Ok ∅, after st ["snap"; "list"] o [ "Scanning Snap packages..." ]))
     ∧ (Py.subprocess_run e n ["flatpak"; "list"; "--app"; "--columns=name,version"] = o →
        Linux.get_flatpak_packages e st
        = (Py.Ok ∅,
           after st ["flatpak"; "list"; "--app"; "--columns=name,version"] o
             [ "Scanning Flatpak packages..." ]))
     ∧ (∀ announce argv parse,
          Py.subprocess_run e n argv = o →
          Macos.silent_probe e announce argv parse st
          = (Py.Ok ∅, after st argv o [ announce ]))).
Proof.
  intros Hx Hrc n profiler. apply Z.eqb_neq in Hrc.
  split; [|split; [|split; [|split; [|split]]]].
  - split; [|split; [|split; [|split; [|split]]]].
    + intros pm_name command software_list. apply probe_announces.
      * py_pure_branch.
      * intros y st1. eexists. monad_unfold. cbn [snd Py.printed]. reflexivity.
    + apply probe_announces; [py_pure_branch|].
      intros y st1. exists []. monad_unfold. cbn [snd]. by rewrite app_nil_r.
    + apply probe_announces; [py_pure_branch|].
      intros y st1. exists []. monad_unfold. cbn [snd]. by rewrite app_nil_r.
    + apply probe_announces; [py_pure_branch|].
      intros y st1. eexists. monad_unfold. cbn [snd Py.printed]. reflexivity.
    + apply probe_announces; [py_pure_branch|].
      intros y st1. eexists. monad_unfold. cbn [snd Py.printed]. reflexivity.
    + intros announce argv parse. apply probe_announces; [py_pure_branch|].
      intros y st1. exists []. monad_unfold. cbn [snd]. by rewrite app_nil_r.
  - intros y Hy. repeat split; intros; by apply probe_interrupted.
  - intros pm_name command software_list. split; intros E.
    + unfold Linux.try_package_manager. rewrite (probe_raised _ _ _ _ _ _ x) by done.
      monad_unfold. by rewrite after_print.
    + unfold Linux.try_package_manager.
      apply probe_nonzero; [done|]. intros st1. cbn [fst]. by rewrite Hrc.
  - intros argv ->. split; intros E.
    + unfold Linux.get_python_packages. rewrite (probe_raised _ _ _ _ _ _ x) by done.
      monad_unfold. by rewrite after_print.
    + unfold Linux.get_python_packages.
      apply probe_nonzero; [done|]. intros st1. cbn [fst]. by rewrite Hrc.
  - split; intros E.
    + unfold Macos.get_macos_applications. rewrite (probe_raised _ _ _ _ _ _ x) by done.
      monad_unfold. by rewrite after_print.
    + unfold Macos.get_macos_applications.
      apply probe_nonzero; [done|]. intros st1. cbn [fst]. by rewrite Hrc.
  - intros o [-> | ->]; (split; [|split]).
    + intros E. unfold Linux.get_snap_packages. by rewrite (probe_raised _ _ _ _ _ _ x).
    + intros E. unfold Linux.get_flatpak_packages.
      by rewrite (probe_raised _ _ _ _ _ _ x).
    + intros announce argv parse E. unfold Macos.silent_probe.
      by rewrite (probe_raised _ _ _ _ _ _ x).
    + intros E. unfold Linux.get_snap_packages.
      apply probe_nonzero; [done|]. intros st1. cbn [fst]. by rewrite Hrc.
    + intros E. unfold Linux.get_flatpak_packages.
      apply probe_nonzero; [done|]. intros st1. cbn [fst]. by rewrite Hrc.
    + intros announce argv parse E. unfold Macos.silent_probe.
      apply probe_nonzero; [done|]. intros st1. cbn [fst]. by rewrite Hrc.
Qed.

Lemma failure_diagnostics_witness :
  let snap_error :=
    Py.Exn Py.FileNotFoundError "[Errno 2] No such file or directory: 'snap'" in
  let dpkg_error :=
    Py.Exn Py.FileNotFoundError "[Errno 2] No such file or directory: 'dpkg'" in
  let mas_error :=
    Py.Exn Py.FileNotFoundError "[Errno 2] No such file or directory: 'mas'" in
  let profiler_error :=
    Py.Exn Py.FileNotFoundError
      "[Errno 2] No such file or directory: 'system_profiler'" in
  let interrupt := Py.Exn Py.KeyboardInterrupt EmptyString in
  is_exception snap_error ∧ is_exception dpkg_error ∧ is_exception mas_error
  ∧ is_exception profiler_error ∧ ¬ is_exception interrupt ∧ 1 ≠ 0
  ∧ Linux.get_snap_packages Examples.bare_linux Py.initial
    = (Py.Ok ∅,
       after Py.initial ["snap"; "list"] (Py.Raised snap_error)
         [ "Scanning Snap packages..." ])
  ∧ Linux.try_package_manager Examples.bare_linux "dpkg" ["dpkg"; "-l"] ∅ Py.initial
    = (Py.Ok None,
       after Py.initial ["dpkg"; "-l"] (Py.Raised dpkg_error)
         [ "Trying dpkg package manager...";
           "dpkg failed: [Errno 2] No such file or directory: 'dpkg'" ])
  ∧ Linux.get_python_packages Examples.bare_linux Py.initial
    = (Py.Ok ∅,
       after Py.initial [Examples.python3; "-m"; "pip"; "list"]
         (Py.Completed 1 EmptyString) [ "Scanning Python packages..." ])
  ∧ Macos.get_app_store_apps Examples.brew_host Py.initial
    = (Py.Ok ∅,
       after Py.initial ["mas"; "list"] (Py.Raised mas_error)
         [ "Scanning Mac App Store apps..." ])
  ∧ Macos.get_macos_applications Examples.brew_host Py.initial
    = (Py.Ok ∅,
       after Py.initial ["system_profiler"; "SPApplicationsDataType"; "-xml"]
         (Py.Raised profiler_error)
         [ "Scanning macOS applications...";
           "macOS system_profiler failed: [Errno 2] No such file or directory: 'system_profiler'" ])
  ∧ Linux.get_snap_packages Examples.interrupted Py.initial
    = (Py.Raise interrupt,
       after Py.initial ["snap"; "list"] (Py.Raised interrupt)
         [ "Scanning Snap packages..." ]).
Proof.
  cbn zeta.
  pose proof (failure_diagnostics Examples.bare_linux Py.initial
                (Py.Exn Py.FileNotFoundError "[Errno 2] No such file or directory: 'snap'")
                1 EmptyString eq_refl ltac:(lia)) as (_ & _ & _ & Hpip & _ & Hsilent).
  pose proof (failure_diagnostics Examples.bare_linux Py.initial
                (Py.Exn Py.FileNotFoundError "[Errno 2] No such file or directory: 'dpkg'")
                1 EmptyString eq_refl ltac:(lia)) as (_ & _ & Hpm & _).
  pose proof (failure_diagnostics Examples.brew_host Py.initial
                (Py.Exn Py.FileNotFoundError "[Errno 2] No such file or directory: 'mas'")
                1 EmptyString eq_refl ltac:(lia)) as (_ & _ & _ & _ & _ & Hmas).
  pose proof (failure_diagnostics Examples.brew_host Py.initial
                (Py.Exn Py.FileNotFoundError
                   "[Errno 2] No such file or directory: 'system_profiler'")
                1 EmptyString eq_refl ltac:(lia)) as (_ & _ & _ & _ & Happs & _).
  pose proof (failure_diagnostics Examples.interrupted Py.initial
                (Py.Exn Py.FileNotFoundError "[Errno 2] No such file or directory: 'snap'")
                1 EmptyString eq_refl ltac:(lia)) as (_ & Hint & _).
  assert (¬ is_exception (Py.Exn Py.KeyboardInterrupt EmptyString)) as Hki
    by (intros H; discriminate H).
  split; [reflexivity|]. split; [reflexivity|]. split; [reflexivity|].
  split; [reflexivity|]. split; [exact Hki|]. split; [lia|].
  split; [|split; [|split; [|split; [|split]]]].
  - apply (Hsilent (Py.Raised _) (or_introl eq_refl)). reflexivity.
  - apply (Hpm "dpkg" ["dpkg"; "-l"] ∅). reflexivity.
  - apply (Hpip _ eq_refl). reflexivity.
  - apply (proj2 (proj2 (Hmas (Py.Raised _) (or_introl eq_refl)))). reflexivity.
  - apply (proj1 Happs). reflexivity.
  - apply (proj1 (proj2 (Hint _ Hki))). reflexivity.
Defined.

(** ** The record of a listening socket *)

Lemma address_has_colon : PyStr.has_char ":" "0.0.0.0:8080" = true.
Proof. reflexivity. Qed.

Lemma address_rsplit : PyStr.rsplit1 ":" "0.0.0.0:8080" = ["0.0.0.0"; "8080"].
Proof. reflexivity. Qed.

Lemma port_to_int : PyStr.to_int "8080" = Some 8080.
Proof. reflexivity. Qed.

Lemma port_of_Z : PyStr.of_Z 8080 = "8080".
Proof. reflexivity. Qed.

(** C7, claim as stated, refuted: a line of Linux [netstat] with the local
    address ["0.0.0.0:8080"] and the state LISTEN yields no record under
    ["TCP:8080"]; the record is stored under ["tcp:8080"], its protocol is
    ["tcp"] and its port the integer 8080. *)
Lemma listening_line_counterexample :
  let table := PortListener.linux_netstat_line [] Examples.netstat_line in
  PyStr.contains "0.0.0.0:8080" Examples.netstat_line = true
  ∧ PyStr.contains "LISTEN" Examples.netstat_line = true
  ∧ Py.assoc "TCP:8080" table = None
  ∧ table
    = [ ("tcp:8080",
         {| PortListener.Protocol := Py.VStr "tcp";
            PortListener.Port := Py.VInt 8080;
            PortListener.Local_Address := Py.VStr "0.0.0.0";
            PortListener.State := Py.VStr "LISTENING";
            PortListener.PID := Py.VStr "1234";
            PortListener.Process := Py.VStr "nginx" |}) ].
Proof. vm_compute. repeat split. Qed.

(** The record a listening line of Linux [netstat] stores. *)
Lemma linux_netstat_line_record line protocol p1 p2 p4 p5 rest :
  PyStr.split_ws line = protocol :: p1 :: p2 :: "0.0.0.0:8080" :: p4 :: p5 :: rest →
  PyStr.contains "LISTEN" line = true →
  ∃ pid process, ∀ table,
    PortListener.linux_netstat_line table line
    = Py.oset (protocol +:+ ":8080")
        {| PortListener.Protocol := Py.VStr protocol;
           PortListener.Port := Py.VInt 8080;
           PortListener.Local_Address := Py.VStr "0.0.0.0";
           PortListener.State := Py.VStr "LISTENING";
           PortListener.PID := Py.VStr pid;
           PortListener.Process := Py.VStr process |}
        table.
Proof.
  intros Hsplit Hlisten. unfold PortListener.linux_netstat_line.
  rewrite Hlisten, Hsplit. cbn [orb].
  change (6 <=? length (protocol :: p1 :: p2 :: "0.0.0.0:8080" :: p4 :: p5 :: rest))%nat
    with true.
  cbv beta iota zeta.
  change (PortListener.item 0 (protocol :: p1 :: p2 :: "0.0.0.0:8080" :: p4 :: p5 :: rest))
    with protocol.
  change (PortListener.item 3 (protocol :: p1 :: p2 :: "0.0.0.0:8080" :: p4 :: p5 :: rest))
    with "0.0.0.0:8080".
  rewrite address_has_colon, address_rsplit, port_to_int, port_of_Z.
  match goal with
  | |- context [let '(a, b) := ?c in _] => destruct c as [pid process]
  end.
  by exists pid, process.
Qed.

(** The record a listening line of Windows [netstat] stores, when its key
    is not yet in the table. *)
Lemma windows_netstat_line_record line protocol p2 state pid rest table :
  PyStr.split_ws line = protocol :: "0.0.0.0:8080" :: p2 :: state :: pid :: rest →
  PyStr.contains "LISTENING" line = true →
  Py.omem (protocol +:+ ":8080") table = false →
  PortListener.windows_netstat_line table line
  = Py.oset (protocol +:+ ":8080")
      {| PortListener.Protocol := Py.VStr protocol;
         PortListener.Port := Py.VInt 8080;
         PortListener.Local_Address := Py.VStr "0.0.0.0";
         PortListener.State := Py.VStr state;
         PortListener.PID := Py.VStr (if String.eqb pid "0" then "Unknown" else pid);
         PortListener.Process := Py.VStr "Unknown" |}
      table.
Proof.
  intros Hsplit Hlisten Hfresh. unfold PortListener.windows_netstat_line.
  rewrite Hlisten, Hsplit. cbn [orb].
  change (5 <=? length (protocol :: "0.0.0.0:8080" :: p2 :: state :: pid :: rest))%nat
    with true.
  cbv beta iota zeta.
  change (PortListener.item 0 (protocol :: "0.0.0.0:8080" :: p2 :: state :: pid :: rest))
    with protocol.
  change (PortListener.item 1 (protocol :: "0.0.0.0:8080" :: p2 :: state :: pid :: rest))
    with "0.0.0.0:8080".
  change (PortListener.item 3 (protocol :: "0.0.0.0:8080" :: p2 :: state :: pid :: rest))
    with state.
  change (PortListener.item 4 (protocol :: "0.0.0.0:8080" :: p2 :: state :: pid :: rest))
    with pid.
  rewrite address_has_colon, address_rsplit, port_to_int, port_of_Z.
  change (":" +:+ "8080") with ":8080". by rewrite Hfresh.
Qed.

(** Whether a line of Linux [netstat] stores a record, and which one, does
    not depend on the table. *)
Lemma linux_netstat_line_shape line :
  (∀ t, PortListener.linux_netstat_line t line = t)
  ∨ ∃ k r, ∀ t, PortListener.linux_netstat_line t line = Py.oset k r t.
Proof.
  unfold PortListener.linux_netstat_line.
  repeat match goal with
         | |- context [if ?c then _ else _] => destruct c
         | |- context [match ?c with _ => _ end] => destruct c
         end; eauto.
Qed.

Lemma linux_netstat_line_other key line :
  Py.assoc key (PortListener.linux_netstat_line [] line) = None →
  ∀ t, Py.assoc key (PortListener.linux_netstat_line t line) = Py.assoc key t.
Proof.
  destruct (linux_netstat_line_shape line) as [H|(k & r & H)]; intros Hk t; rewrite H;
    [done|].
  rewrite H in Hk. apply assoc_oset_ne. intros <-. by rewrite assoc_oset_eq in Hk.
Qed.

(** On Linux the last line of a key decides its record. *)
Lemma linux_netstat_fold key r before line later :
  (∀ t, PortListener.linux_netstat_line t line = Py.oset key r t) →
  Forall (λ l, Py.assoc key (PortListener.linux_netstat_line [] l) = None) later →
  Py.assoc key (foldl PortListener.linux_netstat_line [] (before ++ line :: later))
  = Some r.
Proof.
  intros Hline Hlater. rewrite foldl_app. cbn [foldl]. rewrite Hline.
  generalize (foldl PortListener.linux_netstat_line [] before). intros t.
  assert (Py.assoc key (Py.oset key r t) = Some r) as Ht by apply assoc_oset_eq.
  revert Ht. generalize (Py.oset key r t). clear t.
  induction Hlater as [|l later Hl _ IH]; intros t Ht; cbn [foldl]; [done|].
  apply IH. by rewrite linux_netstat_line_other.
Qed.

Lemma windows_netstat_line_shape line :
  (∀ t, PortListener.windows_netstat_line t line = t)
  ∨ ∃ k r, ∀ t, PortListener.windows_netstat_line t line
                = if negb (Py.omem k t) then Py.oset k r t else t.
Proof.
  unfold PortListener.windows_netstat_line.
  destruct (_ || _); [|by left].
  destruct (_ <=? _)%nat; [|by left]. cbv zeta.
  destruct (PyStr.has_char _ _); [|by left].
  destruct (PyStr.rsplit1 _ _) as [|ip [|port [|? ?]]]; try by left.
  destruct (PyStr.to_int port); [|by left].
  right. eauto.
Qed.

Lemma windows_netstat_line_other key line :
  Py.assoc key (PortListener.windows_netstat_line [] line) = None →
  ∀ t, Py.assoc key (PortListener.windows_netstat_line t line) = Py.assoc key t.
Proof.
  destruct (windows_netstat_line_shape line) as [H|(k & r & H)]; intros Hk t; rewrite H;
    [done|].
  rewrite H in Hk. cbn in Hk. destruct (negb (Py.omem k t)); [|done].
  apply assoc_oset_ne. intros <-. by rewrite String.eqb_refl in Hk.
Qed.

Lemma windows_netstat_line_keeps t line k r :
  Py.assoc k t = Some r → Py.assoc k (PortListener.windows_netstat_line t line) = Some r.
Proof.
  intros Hk. unfold PortListener.windows_netstat_line.
  repeat match goal with
         | |- Py.assoc _ (if negb (Py.omem ?key t) then _ else _) = _ =>
             destruct (Py.omem key t) eqn:Hmem; cbn [negb]
         | |- Py.assoc _ (if ?c then _ else _) = _ => destruct c
         | |- Py.assoc _ (match ?c with _ => _ end) = _ => destruct c
         end; try done.
  rewrite assoc_oset_ne; [done|]. intros ->.
  unfold Py.omem in Hmem. by rewrite Hk in Hmem.
Qed.

(** On Windows the first line of a key decides its record. *)
Lemma windows_netstat_fold key r before line later :
  Forall (λ l, Py.assoc key (PortListener.windows_netstat_line [] l) = None) before →
  (∀ t, Py.omem key t = false →
        PortListener.windows_netstat_line t line = Py.oset key r t) →
  Py.assoc key (foldl PortListener.windows_netstat_line [] (before ++ line :: later))
  = Some r.
Proof.
  intros Hbefore Hline. rewrite foldl_app. cbn [foldl].
  assert (Py.assoc key (foldl PortListener.windows_netstat_line [] before) = None) as Ht.
  { assert (Py.assoc key ([] : list (string * PortListener.port_entry)) = None) as H0
      by done.
    revert H0. generalize ([] : list (string * PortListener.port_entry)).
    induction Hbefore as [|l before Hl _ IH]; intros t Ht; cbn [foldl]; [done|].
    apply IH. by rewrite windows_netstat_line_other. }
  rewrite Hline by (unfold Py.omem; by rewrite Ht).
  generalize (foldl PortListener.windows_netstat_line [] before). intros t.
  assert (Py.assoc key (Py.oset key r t) = Some r) as Ht' by apply assoc_oset_eq.
  revert Ht'. generalize (Py.oset key r t). clear.
  induction later as [|l later IH]; intros t Ht; cbn [foldl]; [done|].
  apply IH. by apply windows_netstat_line_keeps.
Qed.

(** A text scan whose tool exits with status 0 stores what it parses. *)
Lemma text_scan_completed e announce argv parse name failed port_info st out :
  Py.subprocess_run e (length (Py.calls st)) argv = Py.Completed 0 out →
  PortListener.text_scan e announce argv parse name failed port_info st
  = (Py.Ok (PortListener.store name (parse out) port_info),
     after st argv (Py.Completed 0 out) [announce]).
Proof. intros E. unfold PortListener.text_scan. by apply probe_nonzero. Qed.

Lemma store_other name other t port_info :
  other ≠ name →
  Py.assoc other (PortListener.store name t port_info) = Py.assoc other port_info.
Proof.
  intros Hne. unfold PortListener.store. destruct t; [done|]. by apply assoc_oset_ne.
Qed.

Lemma text_scan_other e announce argv parse name failed port_info other :
  other ≠ name →
  yields (λ p, Py.assoc other p = Py.assoc other port_info)
    (PortListener.text_scan e announce argv parse name failed port_info).
Proof.
  intros Hne. unfold PortListener.text_scan. py_yields; first [done | by apply store_other].
Qed.

Lemma powershell_scan_other e port_info other :
  other ≠ "TCP Listeners" →
  yields (λ p, Py.assoc other p = Py.assoc other port_info)
    (PortListener.powershell_scan e port_info).
Proof.
  intros Hne. unfold PortListener.powershell_scan.
  py_yields; first [done | by apply store_other].
Qed.

Lemma map_process_record e port_data :
  yields (λ r, ∃ process, r = PortListener.set_process port_data process)
    (PortListener.map_process e port_data).
Proof.
  unfold PortListener.map_process. py_yields; first [by eexists | by exists (PortListener.Process port_data); destruct port_data].
Qed.

Lemma map_processes_records e items :
  yields (λ items',
            ∀ k r, Py.assoc k items = Some r →
                   ∃ process, Py.assoc k items' = Some (PortListener.set_process r process))
    (PortListener.map_processes e items).
Proof.
  induction items as [|[port_key port_data] rest IH]; cbn [PortListener.map_processes].
  - py_yields. done.
  - eapply yields_bind_with; [apply map_process_record|]. intros d [process ->].
    eapply yields_bind_with; [apply IH|]. intros rest' Hrest.
    py_yields. intros k r. cbn [Py.assoc]. destruct (String.eqb port_key k); [|by apply Hrest].
    intros [= <-]. eauto.
Qed.

(** The mapping of processes leaves every record of the table in place,
    with its fields but [Process]. *)
Lemma process_mapping_records e port_info t :
  Py.assoc "Listening Ports" port_info = Some (PortListener.Table t) →
  yields (λ p, ∃ t', Py.assoc "Listening Ports" p = Some (PortListener.Table t')
                     ∧ ∀ k r, Py.assoc k t = Some r →
                         ∃ process,
                           Py.assoc k t' = Some (PortListener.set_process r process))
    (PortListener.process_mapping e port_info).
Proof.
  intros Ht.
  assert (∀ k r, Py.assoc k t = Some r →
            ∃ process, Py.assoc k t = Some (PortListener.set_process r process)) as Hsame.
  { intros k r Hk. exists (PortListener.Process r). rewrite Hk. by destruct r. }
  unfold PortListener.process_mapping.
  apply yields_try; [|py_yields; eauto].
  apply yields_bind. intros _. rewrite Ht.
  eapply yields_bind_with; [apply map_processes_records|]. intros items' Hitems.
  py_yields. exists items'. split; [apply assoc_oset_eq | done].
Qed.

Lemma process_mapping_none e port_info :
  Py.assoc "Listening Ports" port_info = None →
  yields (λ p, Py.assoc "Listening Ports" p = None)
    (PortListener.process_mapping e port_info).
Proof.
  intros Ht. unfold PortListener.process_mapping.
  apply yields_try; [|py_yields; done].
  apply yields_bind. intros _. rewrite Ht. by py_yields.
Qed.

(** C7, amended.  On a host whose tools raise nothing but instances of
    [Exception], when [netstat -tulpn] exits with status 0: for a line of
    its stripped output that contains LISTEN, has at least six fields and
    whose fourth field is ["0.0.0.0:8080"], and after which no line is
    recorded under the same key, [get_linux_ports] returns a dictionary
    whose ['Listening Ports'] table holds, under the key made of the line's
    first field, as printed, and [":8080"], a record with that field as
    protocol, the integer 8080 as port, the address ["0.0.0.0"] and the
    state ["LISTENING"].  [get_windows_ports] skips the first four lines
    of the stripped output of [netstat -ano]: a listing of at most four
    lines gives no table.  For a line after them that contains LISTENING,
    has at least five fields and whose second field is ["0.0.0.0:8080"],
    and before which no line after the first four is recorded under the
    same key, the table holds such a record, its state being the line's
    fourth field and its PID the fifth, ['Unknown'] for ["0"]. *)
Theorem listening_line_record (e : Py.env) (st : Py.state) (out line protocol : string)
    (before later : list string) :
  ordinary e →
  let key := protocol +:+ ":8080" in
  (∀ p1 p2 p4 p5 rest,
     Py.subprocess_run e (length (Py.calls st)) ["netstat"; "-tulpn"] = Py.Completed 0 out →
     PyStr.lines (PyStr.strip out) = before ++ line :: later →
     PyStr.split_ws line = protocol :: p1 :: p2 :: "0.0.0.0:8080" :: p4 :: p5 :: rest →
     PyStr.contains "LISTEN" line = true →
     Forall (λ l, Py.assoc key (PortListener.linux_netstat_line [] l) = None) later →
     ∃ port_info st' table pid process,
       PortListener.get_linux_ports e st = (Py.Ok port_info, st')
       ∧ Py.assoc "Listening Ports" port_info = Some (PortListener.Table table)
       ∧ Py.assoc key table
         = Some {| PortListener.Protocol := Py.VStr protocol;
                   PortListener.Port := Py.VInt 8080;
                   PortListener.Local_Address := Py.VStr "0.0.0.0";
                   PortListener.State := Py.VStr "LISTENING";
                   PortListener.PID := Py.VStr pid;
                   PortListener.Process := Py.VStr process |})
  ∧ (∀ skipped p2 state pid rest,
       Py.subprocess_run e (length (Py.calls st)) ["netstat"; "-ano"] = Py.Completed 0 out →
       PyStr.lines (PyStr.strip out) = skipped ++ before ++ line :: later →
       length skipped = 4%nat →
       PyStr.split_ws line = protocol :: "0.0.0.0:8080" :: p2 :: state :: pid :: rest →
       PyStr.contains "LISTENING" line = true →
       Forall (λ l, Py.assoc key (PortListener.windows_netstat_line [] l) = None) before →
       ∃ port_info st' table process,
         PortListener.get_windows_ports e st = (Py.Ok port_info, st')
         ∧ Py.assoc "Listening Ports" port_info = Some (PortListener.Table table)
         ∧ Py.assoc key table
           = Some {| PortListener.Protocol := Py.VStr protocol;
                     PortListener.Port := Py.VInt 8080;
                     PortListener.Local_Address := Py.VStr "0.0.0.0";
                     PortListener.State := Py.VStr state;
                     PortListener.PID :=
                       Py.VStr (if String.eqb pid "0" then "Unknown" else pid);
                     PortListener.Process := process |})
  ∧ (Py.subprocess_run e (length (Py.calls st)) ["netstat"; "-ano"] = Py.Completed 0 out →
     (length (PyStr.lines (PyStr.strip out)) ≤ 4)%nat →
     ∃ port_info st',
       PortListener.get_windows_ports e st = (Py.Ok port_info, st')
       ∧ Py.assoc "Listening Ports" port_info = None).
Proof.
  intros He key. split; [|split].
  - intros p1 p2 p4 p5 rest Hrun Hlines Hsplit Hlisten Hlater.
    destruct (linux_netstat_line_record _ _ _ _ _ _ _ Hsplit Hlisten)
      as (pid & process & Hline).
    pose proof (linux_netstat_fold key _ before line later Hline Hlater) as Hfold.
    rewrite <- Hlines in Hfold.
    destruct (linux_ports_returns e He st) as (port_info & st' & Hret).
    pose proof Hret as Hparts. unfold PortListener.get_linux_ports in Hparts.
    apply bind_ok in Hparts as (p0 & st0 & H0 & Hss).
    rewrite (text_scan_completed _ _ _ _ _ _ _ _ _ Hrun) in H0.
    injection H0 as <- <-.
    apply (text_scan_other e _ _ _ "SS Listeners" _ _ "Listening Ports") in Hss; [|done].
    unfold PortListener.store in Hss.
    destruct (foldl PortListener.linux_netstat_line [] (PyStr.lines (PyStr.strip out)))
      as [|kv t] eqn:Et; [discriminate|].
    by exists port_info, st', (kv :: t), pid, process.
  - intros skipped p2 state pid rest Hrun Hlines Hlen Hsplit Hlisten Hbefore.
    pose proof (windows_netstat_fold key _ before line later Hbefore
                  (λ t, windows_netstat_line_record line protocol p2 state pid rest t
                          Hsplit Hlisten)) as Hfold.
    assert (drop 4 (PyStr.lines (PyStr.strip out)) = before ++ line :: later) as Hdrop.
    { rewrite Hlines, <- Hlen. by rewrite drop_app_length. }
    rewrite <- Hdrop in Hfold.
    destruct (windows_ports_returns e He st) as (port_info & st' & Hret).
    exists port_info, st'.
    unfold PortListener.get_windows_ports in Hret.
    pose proof Hret as Hparts.
    apply bind_ok in Hparts as (p0 & st0 & H0 & Hparts).
    apply bind_ok in Hparts as (p1 & st1 & H1 & H2).
    rewrite (text_scan_completed _ _ _ _ _ _ _ _ _ Hrun) in H0.
    injection H0 as <- <-.
    unfold PortListener.store in H1.
    destruct (foldl PortListener.windows_netstat_line []
                (drop 4 (PyStr.lines (PyStr.strip out)))) as [|kv t] eqn:Et;
      [discriminate|].
    apply (process_mapping_records e _ (kv :: t)) in H1 as (t' & Ht' & Hrec); [|done].
    destruct (Hrec _ _ Hfold) as [process Hkey].
    apply (powershell_scan_other e _ "Listening Ports") in H2; [|done].
    exists t', process. split; [done|]. split; [by rewrite H2|]. exact Hkey.
  - intros Hrun Hlen.
    destruct (windows_ports_returns e He st) as (port_info & st' & Hret).
    exists port_info, st'. split; [exact Hret|].
    unfold PortListener.get_windows_ports in Hret.
    apply bind_ok in Hret as (p0 & st0 & H0 & Hparts).
    apply bind_ok in Hparts as (p1 & st1 & H1 & H2).
    rewrite (text_scan_completed _ _ _ _ _ _ _ _ _ Hrun) in H0.
    injection H0 as <- <-.
    rewrite drop_ge in H1 by done. cbn [foldl PortListener.store] in H1.
    apply process_mapping_none in H1; [|done].
    apply (powershell_scan_other e _ "Listening Ports") in H2; [|done].
    by rewrite H2.
Qed.

Lemma linux_ports_host_ordinary : ordinary Examples.linux_ports_host.
Proof.
  split.
  - intros n argv x H. cbn in H. unfold Examples.absent, Examples.missing in H.
    repeat match type of H with
           | context [if ?c then _ else _] => destruct c
           end; inversion H; reflexivity.
  - intros text x H. cbn in H. inversion H. reflexivity.
Qed.

Lemma windows_netstat_host_ordinary listing :
  ordinary (Examples.windows_netstat_host listing).
Proof.
  split.
  - intros n argv x H. cbn in H. unfold Examples.missing in H.
    repeat match type of H with
           | context [if ?c then _ else _] => destruct c
           end; inversion H; reflexivity.
  - intros text x H. cbn in H. inversion H. reflexivity.
Qed.

Lemma listening_line_record_witness :
  let web process :=
    {| PortListener.Protocol := Py.VStr "TCP";
       PortListener.Port := Py.VInt 8080;
       PortListener.Local_Address := Py.VStr "0.0.0.0";
       PortListener.State := Py.VStr "LISTENING";
       PortListener.PID := Py.VStr "1234";
       PortListener.Process := process |} in
  (ordinary Examples.linux_ports_host
   ∧ ∃ port_info st' table pid process,
       PortListener.get_linux_ports Examples.linux_ports_host Py.initial
       = (Py.Ok port_info, st')
       ∧ Py.assoc "Listening Ports" port_info = Some (PortListener.Table table)
       ∧ Py.assoc "tcp:8080" table
         = Some {| PortListener.Protocol := Py.VStr "tcp";
                   PortListener.Port := Py.VInt 8080;
                   PortListener.Local_Address := Py.VStr "0.0.0.0";
                   PortListener.State := Py.VStr "LISTENING";
                   PortListener.PID := Py.VStr pid;
                   PortListener.Process := Py.VStr process |})
  ∧ (ordinary Examples.windows_ports_host
     ∧ (PortListener.get_windows_ports Examples.windows_ports_host Py.initial).1
       = Py.Ok [("Listening Ports",
                 PortListener.Table
                   [ ("TCP:445",
                      {| PortListener.Protocol := Py.VStr "TCP";
                         PortListener.Port := Py.VInt 445;
                         PortListener.Local_Address := Py.VStr "0.0.0.0";
                         PortListener.State := Py.VStr "LISTENING";
                         PortListener.PID := Py.VStr "4";
                         PortListener.Process := Py.VStr "Unknown" |});
                     ("TCP:8080", web (Py.VStr "nginx.exe")) ])]
     ∧ ∃ port_info st' table process,
         PortListener.get_windows_ports Examples.windows_ports_host Py.initial
         = (Py.Ok port_info, st')
         ∧ Py.assoc "Listening Ports" port_info = Some (PortListener.Table table)
         ∧ Py.assoc "TCP:8080" table = Some (web process))
  ∧ (ordinary Examples.single_row_host
     ∧ ∃ port_info st',
         PortListener.get_windows_ports Examples.single_row_host Py.initial
         = (Py.Ok port_info, st')
         ∧ Py.assoc "Listening Ports" port_info = None).
Proof.
  cbn zeta. split; [|split].
  - split; [apply linux_ports_host_ordinary|].
    apply (proj1 (listening_line_record Examples.linux_ports_host Py.initial
                    Examples.linux_listing Examples.netstat_line "tcp"
                    (Examples.linux_heading ++ [Examples.proxy_row]) [Examples.dhcp_row]
                    linux_ports_host_ordinary)
             "0" "0" "0.0.0.0:*" "LISTEN" ["1234/nginx"]).
    + reflexivity.
    + vm_compute. reflexivity.
    + vm_compute. reflexivity.
    + vm_compute. reflexivity.
    + constructor; [vm_compute; reflexivity | constructor].
  - split; [apply windows_netstat_host_ordinary|].
    split; [vm_compute; reflexivity|].
    apply (proj1 (proj2 (listening_line_record Examples.windows_ports_host Py.initial
                           Examples.windows_listing Examples.listening_row "TCP"
                           [Examples.smb_row] [Examples.established_row]
                           (windows_netstat_host_ordinary _)))
             (Examples.windows_heading ++ [Examples.rpc_row])
             "0.0.0.0:0" "LISTENING" "1234" []).
    + reflexivity.
    + vm_compute. reflexivity.
    + vm_compute. reflexivity.
    + vm_compute. reflexivity.
    + vm_compute. reflexivity.
    + constructor; [vm_compute; reflexivity | constructor].
  - split; [apply windows_netstat_host_ordinary|].
    apply (proj2 (proj2 (listening_line_record Examples.single_row_host Py.initial
                           Examples.single_row_listing Examples.listening_row "TCP" [] []
                           (windows_netstat_host_ordinary _)))).
    + reflexivity.
    + vm_compute. lia.
Defined.

(** ** JSON answers: one object or an array *)

Lemma oset_length_fresh {V} k (v : V) d :
  Py.assoc k d = None → length (Py.oset k v d) = S (length d).
Proof.
  induction d as [|[k' v'] d IH]; cbn; [done|].
  destruct (String.eqb k' k); [discriminate|]. intros H. cbn. by rewrite IH.
Qed.

Lemma tcp_listener_accepts t conn :
  has_port conn →
  PortListener.tcp_listener t conn = Py.oset (listener_key conn) (listener_record conn) t.
Proof. unfold has_port, PortListener.tcp_listener. by intros ->. Qed.

Lemma tcp_listeners_fold_other (conns : list (list (string * Py.value))) k :
  ∀ t, Forall has_port conns → k ∉ (listener_key <$> conns) →
       Py.assoc k (foldl listener_step t (Py.VDict <$> conns)) = Py.assoc k t.
Proof.
  induction conns as [|c cs IH]; intros t Hp Hn; [done|].
  rewrite fmap_cons. cbn [foldl]. apply Forall_cons in Hp as [Hc Hp].
  rewrite fmap_cons in Hn. apply not_elem_of_cons in Hn as [Hne Hn].
  rewrite IH by done. rewrite tcp_listener_accepts by done.
  by apply assoc_oset_ne.
Qed.

Lemma tcp_listeners_fold (conns : list (list (string * Py.value))) :
  ∀ t,
    Forall has_port conns →
    NoDup (listener_key <$> conns) →
    (∀ conn, conn ∈ conns → Py.assoc (listener_key conn) t = None) →
    length (foldl listener_step t (Py.VDict <$> conns)) = (length t + length conns)%nat
    ∧ (∀ conn, conn ∈ conns →
         Py.assoc (listener_key conn) (foldl listener_step t (Py.VDict <$> conns))
         = Some (listener_record conn)).
Proof.
  induction conns as [|conn conns IH]; intros t Hp Hnd Hfresh.
  - cbn. split; [lia|]. intros conn H. by apply elem_of_nil in H.
  - rewrite fmap_cons. cbn [foldl]. apply Forall_cons in Hp as [Hconn Hp].
    rewrite fmap_cons in Hnd. apply NoDup_cons in Hnd as [Hnotin Hnd].
    rewrite tcp_listener_accepts by done.
    destruct (IH (Py.oset (listener_key conn) (listener_record conn) t)) as [Hlen Hrec];
      [done|done| |].
    { intros c Hc. rewrite assoc_oset_ne.
      - apply Hfresh. by right.
      - intros Heq. apply Hnotin. rewrite <- Heq. apply list_elem_of_fmap. eauto. }
    split.
    + rewrite Hlen, oset_length_fresh; [cbn; lia|]. apply Hfresh. by left.
    + intros c Hc. apply elem_of_cons in Hc as [-> | Hc]; [|by apply Hrec].
      rewrite tcp_listeners_fold_other by done. apply assoc_oset_eq.
Qed.

Lemma registry_entry_records sl item name :
  display_name item = Some name → sl !! name = None →
  Windows.registry_entry sl item
  = <[name := Windows.version_text (Py.get item "DisplayVersion" Py.VNone)]> sl.
Proof.
  unfold display_name, Windows.registry_entry, Windows.mem. intros Hn Hs.
  destruct (Py.get item "DisplayName" Py.VNone) as [| | | |n| |]; try discriminate.
  destruct (PyStr.nonempty n); [|discriminate]. cbn [andb] in Hn.
  destruct (PyStr.nonempty (PyStr.strip n)); [|discriminate].
  inversion Hn; subst. rewrite Hs.
  rewrite bool_decide_eq_false_2; [done|]. by intros [? ?].
Qed.

Lemma registry_fold (items : list (list (string * Py.value))) :
  ∀ sl,
    Forall (λ item, is_Some (display_name item)) items →
    NoDup (display_name <$> items) →
    (∀ item name, item ∈ items → display_name item = Some name → sl !! name = None) →
    size (foldl registry_step sl (Py.VDict <$> items)) = (size sl + length items)%nat.
Proof.
  induction items as [|item items IH]; intros sl Hn Hnd Hfresh.
  - cbn. lia.
  - rewrite fmap_cons. cbn [foldl]. apply Forall_cons in Hn as [[name Hname] Hn].
    rewrite fmap_cons in Hnd. apply NoDup_cons in Hnd as [Hnotin Hnd].
    assert (sl !! name = None) as Hs by (eapply Hfresh; [by left|done]).
    rewrite (registry_entry_records sl item name) by done.
    rewrite IH; try done.
    + rewrite map_size_insert_None by done. cbn. lia.
    + intros item' name' Hin Hname'.
      rewrite lookup_insert_ne.
      * eapply Hfresh; [by right|done].
      * intros <-. apply Hnotin. rewrite Hname, <- Hname'.
        apply list_elem_of_fmap. eauto.
Qed.

Lemma oset_length_le {V} k (v : V) d : (length (Py.oset k v d) ≤ S (length d))%nat.
Proof.
  induction d as [|[k' v'] d IH]; cbn [Py.oset length]; [lia|].
  destruct (String.eqb k' k); cbn [length]; lia.
Qed.

Lemma tcp_listener_length t conn :
  (length (PortListener.tcp_listener t conn) ≤ S (length t))%nat.
Proof.
  unfold PortListener.tcp_listener. destruct (Py.truthy _); [apply oset_length_le | lia].
Qed.

Lemma tcp_listeners_fold_length conns :
  ∀ t, (length (foldl listener_step t conns) ≤ length t + length conns)%nat.
Proof.
  induction conns as [|conn conns IH]; intros t; cbn [foldl length]; [lia|].
  etrans; [apply IH|]. destruct conn; try lia.
  pose proof (tcp_listener_length t d). lia.
Qed.

Lemma registry_entry_size sl item :
  (size (Windows.registry_entry sl item) ≤ S (size sl))%nat.
Proof.
  unfold Windows.registry_entry.
  repeat match goal with
         | |- context [match ?c with _ => _ end] => destruct c
         end; try lia.
  rewrite map_size_insert. case_match; unfold id; lia.
Qed.

Lemma registry_fold_size items :
  ∀ sl, (size (foldl registry_step sl items) ≤ size sl + length items)%nat.
Proof.
  induction items as [|item items IH]; intros sl; cbn [foldl length]; [lia|].
  etrans; [apply IH|]. destruct item; try lia.
  pose proof (registry_entry_size sl d). lia.
Qed.

(** C8, claim as stated, refuted: a bare object without a port is parsed
    into no record; an array of two objects with the same port is parsed
    into one record; and the BIOS probe parses an array into nothing. *)
Lemma json_shape_counterexample :
  PortListener.tcp_listeners_of Examples.portless_object = []
  ∧ length (PortListener.tcp_listeners_of Examples.same_port_array) = 1%nat
  ∧ Firmware.use_fields "BIOS/UEFI" Firmware.bios_fields Examples.bios_array [] Py.initial
    = (Py.Ok [], Py.initial).
Proof. vm_compute. repeat split. Qed.

(** C8, amended.  In the answer of the PowerShell port probe, a bare object
    with a truthy [LocalPort] is parsed into exactly one record, built from
    the object's fields, and a bare object without one into no record; an
    array of n objects is parsed into at most n records, and into exactly
    n, one per object, when the ports are truthy and their texts
    [str(port)], of which the keys are made, differ two by two.  In the
    registry scan, a bare object whose [DisplayName] is a text that is not
    empty, stripped or not, and whose stripped name is not yet recorded
    adds exactly one record; an array of n objects adds at most n records,
    and exactly n when each has such a name and the stripped names differ
    two by two. *)
Theorem json_object_or_array :
  (∀ data, (length (PortListener.tcp_listeners_of data) ≤ objects data)%nat)
  ∧ (∀ conn,
     has_port conn →
     PortListener.tcp_listeners_of (Py.VDict conn)
     = [(listener_key conn, listener_record conn)])
  ∧ (∀ conn, ¬ has_port conn → PortListener.tcp_listeners_of (Py.VDict conn) = [])
  ∧ (∀ conns,
       Forall has_port conns → NoDup (listener_key <$> conns) →
       length (PortListener.tcp_listeners_of (Py.VList (Py.VDict <$> conns)))
       = length conns
       ∧ ∀ conn, conn ∈ conns →
           Py.assoc (listener_key conn)
             (PortListener.tcp_listeners_of (Py.VList (Py.VDict <$> conns)))
           = Some (listener_record conn))
  ∧ (∀ sl data,
       (size (Windows.each_object Windows.registry_entry sl data)
        ≤ size sl + objects data)%nat)
  ∧ (∀ sl item name,
       display_name item = Some name → sl !! name = None →
       Windows.each_object Windows.registry_entry sl (Py.VDict item)
       = <[name := Windows.version_text (Py.get item "DisplayVersion" Py.VNone)]> sl)
  ∧ (∀ sl items,
       Forall (λ item, is_Some (display_name item)) items →
       NoDup (display_name <$> items) →
       (∀ item name, item ∈ items → display_name item = Some name → sl !! name = None) →
       size (Windows.each_object Windows.registry_entry sl (Py.VList (Py.VDict <$> items)))
       = (size sl + length items)%nat).
Proof.
  split; [|split; [|split; [|split; [|split; [|split]]]]].
  - intros data. destruct data; cbn [PortListener.tcp_listeners_of objects length]; try lia.
    + apply (tcp_listeners_fold_length l []).
    + apply (tcp_listener_length [] d).
  - intros conn H. unfold PortListener.tcp_listeners_of.
    by rewrite tcp_listener_accepts.
  - intros conn H. unfold PortListener.tcp_listeners_of, PortListener.tcp_listener.
    unfold has_port in H. by destruct (Py.truthy _).
  - intros conns Hp Hnd. unfold PortListener.tcp_listeners_of.
    destruct (tcp_listeners_fold conns [] Hp Hnd) as [Hlen Hrec]; [done|].
    split; [exact Hlen|exact Hrec].
  - intros sl data. destruct data; cbn [Windows.each_object objects]; try lia.
    + apply registry_fold_size.
    + pose proof (registry_entry_size sl d). lia.
  - intros sl item name Hn Hs. cbn [Windows.each_object].
    by apply registry_entry_records.
  - intros sl items Hn Hnd Hfresh. cbn [Windows.each_object].
    by apply registry_fold.
Qed.

Lemma json_object_or_array_witness :
  (Forall has_port Examples.two_ports ∧ NoDup (listener_key <$> Examples.two_ports)
   ∧ length (PortListener.tcp_listeners_of (Py.VList (Py.VDict <$> Examples.two_ports)))
     = 2%nat)
  ∧ (display_name Examples.git_object = Some "Git"
     ∧ Windows.each_object Windows.registry_entry ∅ (Py.VDict Examples.git_object)
       = {["Git" := "2.42.0"]}).
Proof.
  destruct json_object_or_array as (_ & _ & _ & Harray & _ & Hobject & _).
  assert (Forall has_port Examples.two_ports) as Hp by (repeat constructor).
  assert (NoDup (listener_key <$> Examples.two_ports)) as Hnd.
  { vm_compute. apply NoDup_cons. split; [|apply NoDup_singleton].
    intros H. apply list_elem_of_singleton in H. discriminate. }
  split.
  - split; [exact Hp|]. split; [exact Hnd|]. exact (proj1 (Harray _ Hp Hnd)).
  - split; [reflexivity|].
    exact (Hobject ∅ Examples.git_object "Git" eq_refl (lookup_empty _)).
Defined.

(** ** The summary of a merged mapping *)

Lemma count_keys (Q : string → Prop) `{!∀ k, Decision (Q k)} (m : gmap string string) :
  length (filter Q (Py.keys m)) = size (filter (λ kv : string * string, Q kv.1) m).
Proof.
  unfold Py.keys. induction m as [|i x m Hi Hfirst IH] using map_first_key_ind.
  - by rewrite map_filter_empty, map_to_list_empty.
  - rewrite map_to_list_insert_first_key by done. rewrite fmap_cons, filter_cons.
    cbn [fst]. destruct (decide (Q i)) as [HQ|HQ].
    + rewrite map_filter_insert_True by done.
      rewrite map_size_insert_None by (by apply map_lookup_filter_None_2; left).
      cbn. by rewrite IH.
    + rewrite map_filter_insert_not by (by intros y).
      exact IH.
Qed.

Lemma category_python k : PyStr.startswith "Python:" k = true ↔ category_of k = python.
Proof.
  unfold category_of. destruct (PyStr.startswith "Python:" k); [done|].
  destruct (PyStr.startswith "Snap:" k), (PyStr.startswith "Flatpak:" k); done.
Qed.

Lemma category_snap k : PyStr.startswith "Snap:" k = true ↔ category_of k = snap.
Proof.
  unfold category_of. destruct (PyStr.startswith "Snap:" k) eqn:Hs.
  - rewrite (prefix_clash "S" "nap:" "P" "ython:" k) by done. done.
  - destruct (PyStr.startswith "Python:" k), (PyStr.startswith "Flatpak:" k); done.
Qed.

Lemma category_flatpak k : PyStr.startswith "Flatpak:" k = true ↔ category_of k = flatpak.
Proof.
  unfold category_of. destruct (PyStr.startswith "Flatpak:" k) eqn:Hs.
  - rewrite (prefix_clash "F" "latpak:" "P" "ython:" k) by done.
    rewrite (prefix_clash "F" "latpak:" "S" "nap:" k) by done. done.
  - destruct (PyStr.startswith "Python:" k), (PyStr.startswith "Snap:" k); done.
Qed.

Lemma category_system k :
  Linux.startswith_any ["Python:"; "Snap:"; "Flatpak:"] k = false ↔ category_of k = system.
Proof.
  unfold category_of, Linux.startswith_any. cbn [existsb].
  destruct (PyStr.startswith "Python:" k), (PyStr.startswith "Snap:" k),
    (PyStr.startswith "Flatpak:" k); done.
Qed.

Lemma records_in_filter (Q : string → Prop) `{!∀ k, Decision (Q k)} c
    (software : gmap string string) :
  (∀ k, Q k ↔ category_of k = c) →
  length (filter Q (Py.keys software)) = records_in c software.
Proof.
  intros HQ. rewrite count_keys. unfold records_in. f_equal.
  apply map_filter_ext. intros i x _. cbn. apply HQ.
Qed.

Lemma count_of_summarize software c :
  count_of (Linux.summarize software) c = records_in c software.
Proof.
  destruct c; cbn.
  - apply records_in_filter, category_python.
  - apply records_in_filter, category_snap.
  - apply records_in_filter, category_flatpak.
  - apply records_in_filter, category_system.
Qed.

Lemma categories_partition (l : list string) :
  length l
  = (length (filter (λ k, category_of k = python) l)
     + length (filter (λ k, category_of k = system) l)
     + length (filter (λ k, category_of k = snap) l)
     + length (filter (λ k, category_of k = flatpak) l))%nat.
Proof.
  induction l as [|k l IH]; [done|].
  rewrite !filter_cons. cbn [length]. rewrite IH.
  destruct (category_of k); repeat case_decide; try done; cbn [length]; lia.
Qed.

Lemma records_in_keys c (software : gmap string string) :
  records_in c software = length (filter (λ k, category_of k = c) (Py.keys software)).
Proof. symmetry. by apply records_in_filter. Qed.

(** C9. The summary of a merged mapping counts all its records, and in
    each category the records whose key prefix puts them there; the four
    categories share out the total.  A mapping of ten records, six system
    packages and four Python packages, is summarised as 10, 6 and 4. *)
Theorem summary_counts (software : gmap string string) :
  Linux.total_count (Linux.summarize software) = size software
  ∧ (∀ c, count_of (Linux.summarize software) c = records_in c software)
  ∧ size software
    = (records_in python software + records_in system software
       + records_in snap software + records_in flatpak software)%nat
  ∧ (∀ e st st',
       Linux.get_installed_software e st = (Py.Ok software, st') →
       Linux.get_software_summary e st = (Py.Ok (Linux.summarize software), st'))
  ∧ (size software = 10%nat → records_in system software = 6%nat →
     records_in python software = 4%nat →
     Linux.total_count (Linux.summarize software) = 10%nat
     ∧ Linux.system_packages (Linux.summarize software) = 6%nat
     ∧ Linux.python_packages (Linux.summarize software) = 4%nat
     ∧ Linux.snap_packages (Linux.summarize software) = 0%nat
     ∧ Linux.flatpak_packages (Linux.summarize software) = 0%nat).
Proof.
  assert (Hsum : size software
                 = (records_in python software + records_in system software
                    + records_in snap software + records_in flatpak software)%nat).
  { rewrite !records_in_keys, <- categories_partition.
    unfold Py.keys. by rewrite length_fmap, length_map_to_list. }
  split; [done|]. split; [apply count_of_summarize|]. split; [exact Hsum|]. split.
  - intros e st st' H. unfold Linux.get_software_summary. monad_unfold. by rewrite H.
  - intros H10 H6 H4.
    pose proof (count_of_summarize software system) as Hsys.
    pose proof (count_of_summarize software python) as Hpy.
    pose proof (count_of_summarize software snap) as Hsnap.
    pose proof (count_of_summarize software flatpak) as Hflat.
    cbn [count_of] in *. rewrite Hsys, Hpy, Hsnap, Hflat. cbn [Linux.total_count Linux.summarize].
    repeat split; lia.
Qed.

Lemma summary_counts_witness :
  size Examples.ten_records = 10%nat
  ∧ records_in system Examples.ten_records = 6%nat
  ∧ records_in python Examples.ten_records = 4%nat
  ∧ Linux.total_count (Linux.summarize Examples.ten_records) = 10%nat
  ∧ Linux.system_packages (Linux.summarize Examples.ten_records) = 6%nat
  ∧ Linux.python_packages (Linux.summarize Examples.ten_records) = 4%nat
  ∧ Linux.snap_packages (Linux.summarize Examples.ten_records) = 0%nat
  ∧ Linux.flatpak_packages (Linux.summarize Examples.ten_records) = 0%nat.
Proof.
  assert (size Examples.ten_records = 10%nat) as H10 by (vm_compute; reflexivity).
  assert (records_in system Examples.ten_records = 6%nat) as H6 by (vm_compute; reflexivity).
  assert (records_in python Examples.ten_records = 4%nat) as H4 by (vm_compute; reflexivity).
  split; [exact H10|]. split; [exact H6|]. split; [exact H4|].
  exact (proj2 (proj2 (proj2 (proj2 (summary_counts Examples.ten_records)))) H10 H6 H4).
Defined.

(** ** Names recorded on Windows are kept *)

Lemma registry_entry_keeps sl item : sl ⊆ Windows.registry_entry sl item.
Proof.
  unfold Windows.registry_entry, Windows.mem.
  destruct (Py.get item "DisplayName" Py.VNone); try done.
  destruct (PyStr.nonempty s); [|done].
  destruct (PyStr.nonempty (PyStr.strip s)); [|done]. cbn [andb].
  case_bool_decide as Hin; cbn [negb]; [done|].
  apply insert_subseteq. by apply eq_None_not_Some.
Qed.

Lemma package_entry_keeps sl item : sl ⊆ Windows.package_entry sl item.
Proof.
  unfold Windows.package_entry, Windows.mem.
  destruct (Py.get item "Name" Py.VNone); try done.
  destruct (PyStr.nonempty s); [|done].
  case_bool_decide as Hin; cbn [negb]; [done|].
  apply insert_subseteq. by apply eq_None_not_Some.
Qed.

Lemma appx_entry_keeps sl item : sl ⊆ Windows.appx_entry sl item.
Proof.
  unfold Windows.appx_entry, Windows.mem.
  destruct (Py.get item "Name" Py.VNone); try done.
  destruct (PyStr.nonempty s); [|done].
  case_bool_decide as Hin; cbn [negb]; [done|].
  apply insert_subseteq. by apply eq_None_not_Some.
Qed.

Lemma each_object_keeps entry :
  (∀ sl item, sl ⊆ entry sl item) →
  ∀ data sl, sl ⊆ Windows.each_object entry sl data.
Proof.
  intros Hentry data sl. destruct data as [| | | | |items|d]; cbn; try done.
  revert sl. induction items as [|item items IH]; intros sl; cbn; [done|].
  etrans; [|apply IH]. destruct item; first [done | apply Hentry].
Qed.

Lemma json_method_keeps e announce script entry parse_failed scan_failed sl :
  (∀ sl item, sl ⊆ entry sl item) →
  yields (λ sl', sl ⊆ sl')
    (Windows.json_method e announce script entry parse_failed scan_failed sl).
Proof.
  intros Hentry. unfold Windows.json_method. py_yields; try done.
  by apply each_object_keeps.
Qed.

Lemma registry_loop_keeps e paths :
  ∀ sl, yields (λ sl', sl ⊆ sl') (Windows.registry_loop e paths sl).
Proof.
  induction paths as [|path paths IH]; intros sl; cbn [Windows.registry_loop].
  - by apply yields_ret.
  - eapply yields_bind_with.
    + apply json_method_keeps, registry_entry_keeps.
    + intros sl1 H1 st sl' st' E. etrans; [exact H1|]. eapply IH, E.
Qed.

(** C10. A name recorded in [software_list] keeps its version through the
    scan of a registry path, through the whole registry loop, through the
    PackageManagement method and through the Windows Store method, and so
    through the three run one after the other as [get_windows_software]
    does after the WMI method. *)
Theorem recorded_names_are_kept (e : Py.env) (software_list : gmap string string)
    (name version : string) :
  software_list !! name = Some version →
  (∀ path st sl' st',
     Windows.registry_method e path software_list st = (Py.Ok sl', st') →
     sl' !! name = Some version)
  ∧ (∀ st sl' st',
       Windows.registry_loop e Windows.registry_paths software_list st = (Py.Ok sl', st') →
       sl' !! name = Some version)
  ∧ (∀ st sl' st',
       Windows.package_method e software_list st = (Py.Ok sl', st') →
       sl' !! name = Some version)
  ∧ (∀ st sl' st',
       Windows.appx_method e software_list st = (Py.Ok sl', st') →
       sl' !! name = Some version)
  ∧ (∀ st sl' st',
       (sl1 ← Windows.registry_loop e Windows.registry_paths software_list;
        sl2 ← Windows.package_method e sl1;
        Windows.appx_method e sl2) st = (Py.Ok sl', st') →
       sl' !! name = Some version).
Proof.
  intros Hname.
  assert (Hkeep : ∀ sl' : gmap string string, software_list ⊆ sl' → sl' !! name = Some version).
  { intros sl' Hsub. eapply lookup_weaken; eauto. }
  split; [|split; [|split; [|split]]].
  - intros path st sl' st' E. apply Hkeep.
    eapply (json_method_keeps e); [apply registry_entry_keeps|exact E].
  - intros st sl' st' E. apply Hkeep. eapply registry_loop_keeps, E.
  - intros st sl' st' E. apply Hkeep.
    eapply (json_method_keeps e); [apply package_entry_keeps|exact E].
  - intros st sl' st' E. apply Hkeep.
    eapply (json_method_keeps e); [apply appx_entry_keeps|exact E].
  - intros st sl' st' E. apply Hkeep.
    apply bind_ok in E as (sl1 & st1 & E1 & E).
    apply bind_ok in E as (sl2 & st2 & E2 & E3).
    etrans; [eapply registry_loop_keeps, E1|].
    etrans; [eapply (json_method_keeps e); [apply package_entry_keeps|exact E2]|].
    eapply (json_method_keeps e); [apply appx_entry_keeps|exact E3].
Qed.

Lemma recorded_names_are_kept_witness :
  let recorded : gmap string string := {["Git" := "2.40.0"]} in
  recorded !! "Git" = Some "2.40.0"
  ∧ ∃ sl' st',
      Windows.registry_loop Examples.windows_host Windows.registry_paths recorded Py.initial
      = (Py.Ok sl', st')
      ∧ sl' !! "Git" = Some "2.40.0".
Proof.
  cbn zeta. split; [apply lookup_singleton_eq|].
  pose proof (proj1 (proj2 (recorded_names_are_kept Examples.windows_host
                              {["Git" := "2.40.0"]} "Git" "2.40.0"
                              (lookup_singleton_eq _ _)))) as Hkept.
  destruct (Windows.registry_loop Examples.windows_host Windows.registry_paths
              {["Git" := "2.40.0"]} Py.initial) as [[sl'|x] st'] eqn:E.
  - exists sl', st'. split; [reflexivity|]. exact (Hkept Py.initial sl' st' E).
  - vm_compute in E. discriminate E.
Defined.

(** * Further properties

    Properties of the parsers, of the merges, of the port and firmware
    tables and of the summaries, each read off the code. *)

(** ** Names without a space *)
Lemma split_ws_tokens s :
  Forall (λ w, w ≠ EmptyString ∧ all_chars (λ c, negb (PyStr.is_space c)) w = true)
    (PyStr.split_ws s).
Proof.
  induction s as [|c s IH]; cbn [PyStr.split_ws]; [constructor|].
  destruct (PyStr.is_space c) eqn:Hc; [done|].
  destruct s as [|c' s']; [repeat constructor; [done | by cbn; rewrite Hc]|].
  destruct (PyStr.is_space c') eqn:Hc'.
  - constructor; [|done]. split; [done | by cbn; rewrite Hc].
  - destruct (PyStr.split_ws (String c' s')) as [|w ws] eqn:E.
    + repeat constructor; [done | by cbn; rewrite Hc].
    + inversion IH as [|? ? [Hw1 Hw2] Hws]; subst. constructor; [|done].
      split; [done|]. cbn. by rewrite Hc, Hw2.
Qed.

Lemma all_chars_has_char P c s :
  all_chars P s = true → P c = false → PyStr.has_char c s = false.
Proof.
  induction s as [|d s IH]; [done|]. cbn. intros [Hd Hs]%andb_true_iff Hc.
  rewrite (IH Hs Hc), orb_false_r. apply Ascii.eqb_neq. intros ->. congruence.
Qed.

Lemma partition_char c s a b :
  PyStr.partition (String c EmptyString) s = Some (a, b) →
  s = a +:+ String c b ∧ PyStr.has_char c a = false.
Proof.
  revert a b. induction s as [|d s IH]; intros a b; [done|].
  cbn [PyStr.partition PyStr.strip_prefix].
  destruct (Ascii.eqb c d) eqn:Hcd.
  - apply Ascii.eqb_eq in Hcd as ->. intros [= <- <-]. done.
  - destruct (PyStr.partition _ s) as [[a' b']|] eqn:E; [|done].
    intros [= <- <-]. destruct (IH _ _ eq_refl) as [-> Ha]. split; [done|].
    cbn. rewrite Ha, orb_false_r. rewrite Ascii.eqb_sym. done.
Qed.

Lemma split_char_pieces sep s :
  Forall (λ w, PyStr.has_char sep w = false) (PyStr.split_char sep s).
Proof.
  induction s as [|c s IH]; cbn [PyStr.split_char]; [by repeat constructor|].
  destruct (Ascii.eqb c sep) eqn:Hc; [by constructor|].
  destruct (PyStr.split_char sep s) as [|w ws]; [repeat constructor; cbn; by rewrite Hc|].
  inversion IH; subst. constructor; [|done]. cbn. by rewrite Hc.
Qed.

Lemma split_char_nonempty sep s : PyStr.split_char sep s ≠ [].
Proof.
  destruct s as [|c s]; cbn; [done|]. destruct (Ascii.eqb c sep); [done|].
  by destruct (PyStr.split_char sep s).
Qed.

Lemma join_split_char sep s :
  PyStr.join (String sep EmptyString) (PyStr.split_char sep s) = s.
Proof.
  unfold PyStr.join.
  induction s as [|c s IH]; [done|]. cbn [PyStr.split_char].
  destruct (Ascii.eqb c sep) eqn:Hc.
  - apply Ascii.eqb_eq in Hc as ->.
    pose proof (split_char_nonempty sep s).
    destruct (PyStr.split_char sep s) as [|w ws] eqn:E; [done|].
    rewrite <- IH. done.
  - pose proof (split_char_nonempty sep s).
    destruct (PyStr.split_char sep s) as [|w ws] eqn:E; [done|].
    rewrite <- IH. destruct ws; done.
Qed.

Lemma spaceless_empty : spaceless ∅.
Proof. intros k [? Hk]. by rewrite lookup_empty in Hk. Qed.

Lemma spaceless_insert k v d :
  PyStr.has_char " " k = false → spaceless d → spaceless (<[k := v]> d).
Proof.
  intros Hk Hd k' Hk'. destruct (decide (k = k')) as [<-|Hne]; [done|].
  rewrite lookup_insert_ne in Hk' by done. by apply Hd.
Qed.

Lemma spaceless_foldl (step : gmap string string → string → gmap string string) lines :
  (∀ d line, spaceless d → spaceless (step d line)) →
  ∀ d, spaceless d → spaceless (foldl step d lines).
Proof. intros Hstep. induction lines as [|l ls IH]; intros d Hd; cbn; auto. Qed.

Lemma has_char_app c s t :
  PyStr.has_char c (s +:+ t) = PyStr.has_char c s || PyStr.has_char c t.
Proof.
  induction s as [|d s IH]; [done|].
  change (String d s +:+ t) with (String d (s +:+ t)).
  cbn [PyStr.has_char]. by rewrite IH, orb_assoc.
Qed.

Lemma has_char_join c sep l :
  PyStr.has_char c sep = false → Forall (λ w, PyStr.has_char c w = false) l →
  PyStr.has_char c (PyStr.join sep l) = false.
Proof.
  intros Hsep. unfold PyStr.join. induction 1 as [|w ws Hw Hws IH]; [done|].
  destruct ws as [|w' ws']; [done|].
  change (String.concat sep (w :: w' :: ws')) with (w +:+ sep +:+ String.concat sep (w' :: ws')).
  by rewrite !has_char_app, Hw, Hsep, IH.
Qed.

Lemma split_char_keeps_absent c sep s :
  PyStr.has_char c s = false →
  Forall (λ w, PyStr.has_char c w = false) (PyStr.split_char sep s).
Proof.
  induction s as [|d s IH]; cbn [PyStr.split_char]; [by repeat constructor|].
  cbn. intros [Hd Hs]%orb_false_iff. specialize (IH Hs).
  destruct (Ascii.eqb d sep); [by constructor|].
  destruct (PyStr.split_char sep s) as [|w ws]; [repeat constructor; cbn; by rewrite Hd|].
  inversion IH; subst. constructor; [|done]. cbn. by rewrite Hd.
Qed.

Lemma dpkg_line_spaceless d line : spaceless d → spaceless (Linux.dpkg_line d line).
Proof.
  intros Hd. unfold Linux.dpkg_line. destruct (PyStr.startswith _ _); [|done].
  pose proof (split_ws_tokens line) as Htok.
  destruct (PyStr.split_ws line) as [|w0 [|name [|version rest]]]; try done.
  apply spaceless_insert; [|done].
  apply Forall_cons in Htok as [_ Htok]. apply Forall_cons in Htok as [[_ Hname] _].
  by eapply all_chars_has_char.
Qed.

Lemma pacman_line_spaceless d line : spaceless d → spaceless (Linux.pacman_line d line).
Proof.
  intros Hd. unfold Linux.pacman_line, PyStr.split1.
  destruct (PyStr.has_char _ _); [|done].
  destruct (PyStr.partition " " line) as [[a b]|] eqn:E; [|done].
  apply spaceless_insert; [|done]. by apply partition_char in E as [_ ?].
Qed.

Lemma apk_line_spaceless d line : spaceless d → spaceless (Linux.apk_line d line).
Proof.
  intros Hd. unfold Linux.apk_line.
  destruct (_ && _); [|done].
  pose proof (split_char_pieces " " line) as Hp.
  destruct (PyStr.split_char " " line) as [|pkg_info rest]; [done|].
  apply Forall_cons in Hp as [Hpkg _].
  destruct (PyStr.has_char "-" pkg_info); [|done].
  destruct (PyStr.nonempty _); [|done].
  apply spaceless_insert; [|done].
  apply has_char_join; [done|]. apply Forall_take. by apply split_char_keeps_absent.
Qed.

Lemma parse_output_spaceless pm_name lines :
  pm_name ∈ ["dpkg"; "pacman"; "apk"] →
  spaceless (Linux.parse_output pm_name lines ∅).
Proof.
  rewrite !elem_of_cons, elem_of_nil.
  intros [->|[->|[->|[]]]]; cbn [Linux.parse_output String.eqb Ascii.eqb Bool.eqb];
    apply spaceless_foldl; auto using spaceless_empty, dpkg_line_spaceless,
      pacman_line_spaceless, apk_line_spaceless.
Qed.

Lemma prefix_conflict p q k :
  PyStr.startswith p k = true → PyStr.startswith q k = true →
  PyStr.startswith p q = true ∨ PyStr.startswith q p = true.
Proof.
  unfold PyStr.startswith. revert q k.
  induction p as [|a p IH]; intros q k Hp Hq; [left; by destruct q|].
  destruct q as [|b q]; [by right|].
  destruct k as [|c k]; [done|]. cbn in *.
  destruct (ascii_dec a c) as [->|]; [|done].
  destruct (ascii_dec b c) as [->|]; [|done].
  destruct (ascii_dec c c); [|done]. eauto.
Qed.

Lemma keys_start_disjoint p q (d1 d2 : gmap string string) :
  PyStr.startswith p q = false → PyStr.startswith q p = false →
  keys_start p d1 → keys_start q d2 → d1 ##ₘ d2.
Proof.
  intros Hpq Hqp H1 H2. apply map_disjoint_spec. intros k v1 v2 E1 E2.
  destruct (prefix_conflict p q k) as [H|H]; [apply H1; eauto | apply H2; eauto | |];
    congruence.
Qed.

Lemma startswith_has_char c p k :
  PyStr.startswith p k = true → PyStr.has_char c p = true → PyStr.has_char c k = true.
Proof.
  unfold PyStr.startswith. revert k. induction p as [|a p IH]; intros k Hp Hc; [done|].
  destruct k as [|b k]; [done|]. cbn in *.
  destruct (ascii_dec a b) as [->|]; [|done].
  apply orb_true_iff in Hc as [Hc|Hc]; [by rewrite Hc|].
  rewrite (IH _ Hp Hc). apply orb_true_r.
Qed.

Lemma spaceless_disjoint p (A d : gmap string string) :
  PyStr.has_char " " p = true → spaceless A → keys_start p d → A ##ₘ d.
Proof.
  intros Hp HA Hd. apply map_disjoint_spec. intros k v1 v2 E1 E2.
  assert (PyStr.has_char " " k = true) as H.
  { eapply startswith_has_char; [apply Hd; eauto | done]. }
  rewrite HA in H; [done | eauto].
Qed.

Lemma spaceless_not_prefixed p name :
  PyStr.has_char " " p = true → PyStr.has_char " " name = false →
  PyStr.startswith p name = false.
Proof.
  intros Hp Hname. destruct (PyStr.startswith p name) eqn:E; [|done].
  by rewrite (startswith_has_char " " p name E Hp) in Hname.
Qed.

(** X1. A name recorded from the output of [dpkg -l], [pacman -Q] or
    [apk list --installed] never holds a space, so it is none of the keys
    [Snap: ...], [Flatpak: ...] and [Python: ...] under which the additive
    probes store their records. *)
Theorem system_names_have_no_space (pm_name : string) (lines : list string)
    (name : string) :
  pm_name ∈ ["dpkg"; "pacman"; "apk"] →
  is_Some (Linux.parse_output pm_name lines ∅ !! name) →
  PyStr.has_char " " name = false
  ∧ PyStr.startswith "Snap: " name = false
  ∧ PyStr.startswith "Flatpak: " name = false
  ∧ PyStr.startswith "Python: " name = false.
Proof.
  intros Hpm Hname.
  pose proof (parse_output_spaceless pm_name lines Hpm name Hname) as Hsp.
  repeat split; first [done | by apply spaceless_not_prefixed].
Qed.

Lemma system_names_have_no_space_witness :
  "dpkg" ∈ ["dpkg"; "pacman"; "apk"]
  ∧ is_Some (Linux.parse_output "dpkg" (PyStr.lines Examples.dpkg_output) ∅ !! "curl")
  ∧ PyStr.has_char " " "curl" = false
  ∧ PyStr.startswith "Snap: " "curl" = false
  ∧ PyStr.startswith "Flatpak: " "curl" = false
  ∧ PyStr.startswith "Python: " "curl" = false.
Proof.
  assert ("dpkg" ∈ ["dpkg"; "pacman"; "apk"]) as Hpm by apply list_elem_of_here.
  assert (is_Some (Linux.parse_output "dpkg" (PyStr.lines Examples.dpkg_output) ∅ !! "curl"))
    as Hname by (exists "7.81.0-1"; vm_compute; reflexivity).
  split; [exact Hpm|]. split; [exact Hname|].
  exact (system_names_have_no_space "dpkg" (PyStr.lines Examples.dpkg_output) "curl"
           Hpm Hname).
Defined.

(** ** The merge on Linux *)

Lemma linux_merge_parts e st m st' :
  Linux.get_installed_software e st = (Py.Ok m, st') →
  ∃ A S F P st0 st1 st2 st3,
    Linux.get_linux_software e st0 = (Py.Ok A, st1)
    ∧ Linux.get_snap_packages e st1 = (Py.Ok S, st2)
    ∧ Linux.get_flatpak_packages e st2 = (Py.Ok F, st3)
    ∧ Linux.get_python_packages e st3 = (Py.Ok P, st')
    ∧ st0 = Py.State (Py.calls st) (Py.printed st ++ ["Detecting software on Linux..."])
    ∧ m = P ∪ (F ∪ (S ∪ A)).
Proof.
  unfold Linux.get_installed_software. intros H.
  apply bind_ok in H as ([] & st0 & H0 & H).
  apply bind_ok in H as (A & st1 & HA & H).
  apply bind_ok in H as (S & st2 & HS & H).
  apply bind_ok in H as (F & st3 & HF & H).
  apply bind_ok in H as (P & st4 & HP & H).
  monad_unfold. inversion H; subst; clear H. inversion H0; subst; clear H0.
  exists A, S, F, P. do 4 eexists. repeat split; try done.
  unfold Py.update. by rewrite (right_id_L ∅ (∪)).
Qed.

Lemma try_package_manager_failed e pm_name command software_list st :
  failed (Py.subprocess_run e (length (Py.calls st)) command) →
  ∃ st', Linux.try_package_manager e pm_name command software_list st = (Py.Ok None, st')
         ∧ length (Py.calls st') = S (length (Py.calls st)).
Proof.
  intros Hfail. unfold Linux.try_package_manager.
  destruct (Py.subprocess_run e (length (Py.calls st)) command) as [x|rc out] eqn:E.
  - rewrite (probe_raised _ _ _ _ _ _ _ E Hfail). monad_unfold. eexists. split; [done|].
    cbn. rewrite length_app. cbn. lia.
  - erewrite probe_nonzero; [| exact E |].
    + eexists. split; [done|]. cbn. rewrite length_app. cbn. lia.
    + intros st1. cbn in Hfail. apply Z.eqb_neq in Hfail. cbn [fst]. by rewrite Hfail.
Qed.

Lemma package_manager_loop_first_success e pms software_list st i pm_name command out :
  pms !! i = Some (pm_name, command) →
  (∀ j pm_j command_j,
     (j < i)%nat → pms !! j = Some (pm_j, command_j) →
     failed (Py.subprocess_run e (length (Py.calls st) + j) command_j)) →
  Py.subprocess_run e (length (Py.calls st) + i) command = Py.Completed 0 out →
  ∃ st',
    Linux.package_manager_loop e pms software_list st
    = (Py.Ok (Linux.parse_output pm_name (PyStr.lines (PyStr.strip out)) software_list), st').
Proof.
  revert i st. induction pms as [|[pm0 command0] rest IH]; intros i st Hi Hfail Hrun;
    [done|].
  cbn [Linux.package_manager_loop]. destruct i as [|i].
  - injection Hi as -> ->. rewrite Nat.add_0_r in Hrun.
    assert (Linux.try_package_manager e pm_name command software_list st
            = (Py.Ok (Some (Linux.parse_output pm_name (PyStr.lines (PyStr.strip out))
                              software_list)),
               after st command (Py.Completed 0 out)
                 ["Trying " +:+ pm_name +:+ " package manager..."])) as Htry.
    { unfold Linux.try_package_manager. by apply probe_nonzero. }
    monad_unfold. rewrite Htry. eauto.
  - destruct (try_package_manager_failed e pm0 command0 software_list st) as (st1 & Htry & Hlen).
    { specialize (Hfail 0%nat pm0 command0). rewrite Nat.add_0_r in Hfail.
      apply Hfail; [lia | done]. }
    monad_unfold. rewrite Htry. apply (IH i st1); [done| |].
    + intros j pm_j command_j Hj Hlookup. rewrite Hlen.
      replace (S (length (Py.calls st)) + j)%nat with (length (Py.calls st) + S j)%nat by lia.
      apply (Hfail (S j) pm_j command_j); [lia | done].
    + rewrite Hlen.
      by replace (S (length (Py.calls st)) + i)%nat with (length (Py.calls st) + S i)%nat by lia.
Qed.

(** X2. The package manager that decides.  When the managers declared
    before one of the list fail, each run in its turn, and that one
    completes with status 0, [get_linux_software] returns what the parser
    of that manager reads in its output, and nothing else. *)
Theorem first_successful_manager_decides (e : Py.env) (st : Py.state) (i : nat)
    (pm_name : string) (command : list string) (out : string) :
  Linux.package_managers !! i = Some (pm_name, command) →
  (∀ j pm_j command_j,
     (j < i)%nat → Linux.package_managers !! j = Some (pm_j, command_j) →
     failed (Py.subprocess_run e (length (Py.calls st) + j) command_j)) →
  Py.subprocess_run e (length (Py.calls st) + i) command = Py.Completed 0 out →
  ∃ st',
    Linux.get_linux_software e st
    = (Py.Ok (Linux.parse_output pm_name (PyStr.lines (PyStr.strip out)) ∅), st').
Proof. apply package_manager_loop_first_success. Qed.

Lemma arch_host_earlier_fail j pm_j command_j :
  (j < 2)%nat → Linux.package_managers !! j = Some (pm_j, command_j) →
  failed (Py.subprocess_run Examples.arch_host (length (Py.calls Py.initial) + j) command_j).
Proof.
  intros Hj Hlookup. destruct j as [|[|j]]; [| |lia];
    injection Hlookup as <- <-; reflexivity.
Qed.

Lemma first_successful_manager_decides_witness :
  let out := "bash 5.1.16-1" +:+ Examples.nl +:+ "linux 6.1.1.arch1-1" in
  Linux.package_managers !! 2%nat = Some ("pacman", ["pacman"; "-Q"])
  ∧ Py.subprocess_run Examples.arch_host (length (Py.calls Py.initial) + 2) ["pacman"; "-Q"]
    = Py.Completed 0 out
  ∧ Linux.parse_output "pacman" (PyStr.lines (PyStr.strip out)) ∅
    = <["bash" := "5.1.16-1"]> {["linux" := "6.1.1.arch1-1"]}
  ∧ ∃ st',
      Linux.get_linux_software Examples.arch_host Py.initial
      = (Py.Ok (Linux.parse_output "pacman" (PyStr.lines (PyStr.strip out)) ∅), st').
Proof.
  cbn zeta. split; [reflexivity|]. split; [reflexivity|].
  split; [vm_compute; reflexivity|].
  exact (first_successful_manager_decides Examples.arch_host Py.initial 2 "pacman" ["pacman"; "-Q"] _
           eq_refl arch_host_earlier_fail eq_refl).
Defined.

(** X3. On a host where the package manager that decides is [dpkg],
    [pacman] or [apk], every package it lists is in the mapping
    [get_installed_software] returns, with the version it gave: no record
    of Snap, Flatpak or pip replaces it. *)
Theorem system_records_survive_merge (e : Py.env) (st : Py.state) (i : nat)
    (pm_name : string) (command : list string) (out : string) :
  ordinary e →
  pm_name ∈ ["dpkg"; "pacman"; "apk"] →
  Linux.package_managers !! i = Some (pm_name, command) →
  (∀ j pm_j command_j,
     (j < i)%nat → Linux.package_managers !! j = Some (pm_j, command_j) →
     failed (Py.subprocess_run e (length (Py.calls st) + j) command_j)) →
  Py.subprocess_run e (length (Py.calls st) + i) command = Py.Completed 0 out →
  ∃ m st',
    Linux.get_installed_software e st = (Py.Ok m, st')
    ∧ Linux.parse_output pm_name (PyStr.lines (PyStr.strip out)) ∅ ⊆ m.
Proof.
  intros He Hpm Hi Hfail Hrun.
  destruct (linux_software_returns e He st) as (m & st' & Hm).
  exists m, st'. split; [done|].
  destruct (linux_merge_parts _ _ _ _ Hm) as (A & S & F & P & st0 & st1 & st2 & st3
    & HA & HS & HF & HP & -> & ->).
  assert (A = Linux.parse_output pm_name (PyStr.lines (PyStr.strip out)) ∅) as HAeq.
  { destruct (package_manager_loop_first_success e Linux.package_managers ∅
                (Py.State (Py.calls st) (Py.printed st ++ ["Detecting software on Linux..."]))
                i pm_name command out Hi Hfail Hrun) as (st4 & H4).
    unfold Linux.get_linux_software in HA. rewrite H4 in HA. by injection HA as <- _. }
  assert (spaceless A) as Hsp by (rewrite HAeq; by apply parse_output_spaceless).
  rewrite <- HAeq.
  apply get_snap_packages_keys in HS. apply get_flatpak_packages_keys in HF.
  apply get_python_packages_keys in HP.
  apply map_subseteq_spec. intros k v Hk.
  assert (P !! k = None) as ->%(lookup_union_r P (F ∪ (S ∪ A))).
  { eapply map_disjoint_Some_l; [by apply (spaceless_disjoint "Python: ")|done]. }
  assert (F !! k = None) as ->%(lookup_union_r F (S ∪ A)).
  { eapply map_disjoint_Some_l; [by apply (spaceless_disjoint "Flatpak: ")|done]. }
  assert (S !! k = None) as ->%(lookup_union_r S A).
  { eapply map_disjoint_Some_l; [by apply (spaceless_disjoint "Snap: ")|done]. }
  done.
Qed.

Lemma arch_host_ordinary : ordinary Examples.arch_host.
Proof.
  split.
  - intros n argv x H. cbn in H. unfold Examples.absent, Examples.missing in H.
    repeat match type of H with
           | context [if ?c then _ else _] => destruct c
           end; inversion H; reflexivity.
  - intros text x H. cbn in H. inversion H. reflexivity.
Qed.

Lemma system_records_survive_merge_witness :
  let out := "bash 5.1.16-1" +:+ Examples.nl +:+ "linux 6.1.1.arch1-1" in
  ordinary Examples.arch_host
  ∧ "pacman" ∈ ["dpkg"; "pacman"; "apk"]
  ∧ Linux.package_managers !! 2%nat = Some ("pacman", ["pacman"; "-Q"])
  ∧ Py.subprocess_run Examples.arch_host (length (Py.calls Py.initial) + 2)
      ["pacman"; "-Q"]
    = Py.Completed 0 out
  ∧ ∃ m st',
      Linux.get_installed_software Examples.arch_host Py.initial = (Py.Ok m, st')
      ∧ Linux.parse_output "pacman" (PyStr.lines (PyStr.strip out)) ∅ ⊆ m.
Proof.
  cbn zeta.
  assert ("pacman" ∈ ["dpkg"; "pacman"; "apk"]) as Hpm
    by apply list_elem_of_further, list_elem_of_here.
  split; [apply arch_host_ordinary|]. split; [exact Hpm|].
  split; [reflexivity|]. split; [reflexivity|].
  exact (system_records_survive_merge Examples.arch_host Py.initial 2 "pacman"
           ["pacman"; "-Q"] _ arch_host_ordinary Hpm eq_refl arch_host_earlier_fail
           eq_refl).
Defined.

(** X4. The records of the Snap, Flatpak and pip probes never share a key:
    merging them in the opposite order gives the same mapping, and merged
    into an empty mapping they count for the sum of their sizes. *)
Theorem additive_probes_never_collide (e : Py.env) (st1 st2 st3 st1' st2' st3' : Py.state)
    (S F P : gmap string string) :
  Linux.get_snap_packages e st1 = (Py.Ok S, st1') →
  Linux.get_flatpak_packages e st2 = (Py.Ok F, st2') →
  Linux.get_python_packages e st3 = (Py.Ok P, st3') →
  S ##ₘ F ∧ S ##ₘ P ∧ F ##ₘ P
  ∧ (∀ acc, Py.update (Py.update (Py.update acc S) F) P
            = Py.update (Py.update (Py.update acc P) F) S)
  ∧ size (Py.update (Py.update (Py.update ∅ S) F) P) = (size S + size F + size P)%nat.
Proof.
  intros HS%get_snap_packages_keys HF%get_flatpak_packages_keys
    HP%get_python_packages_keys.
  assert (S ##ₘ F) as HSF by by apply (keys_start_disjoint "Snap: " "Flatpak: ").
  assert (S ##ₘ P) as HSP by by apply (keys_start_disjoint "Snap: " "Python: ").
  assert (F ##ₘ P) as HFP by by apply (keys_start_disjoint "Flatpak: " "Python: ").
  repeat split; try done.
  - intros acc. unfold Py.update. apply map_eq. intros k. rewrite !lookup_union.
    pose proof (proj1 (map_disjoint_spec _ _) HSF k) as H1.
    pose proof (proj1 (map_disjoint_spec _ _) HSP k) as H2.
    pose proof (proj1 (map_disjoint_spec _ _) HFP k) as H3.
    destruct (S !! k), (F !! k), (P !! k), (acc !! k); try done; exfalso; eauto.
  - unfold Py.update. rewrite !(right_id_L ∅ (∪)).
    rewrite !map_size_disj_union; [lia | done |].
    symmetry. by apply map_disjoint_union_l.
Qed.

Lemma additive_probes_never_collide_witness :
  let e := Examples.zypper_then_snap in
  let S : gmap string string := {["Snap: core" := "2.0"]} in
  let F : gmap string string := ∅ in
  let P : gmap string string := ∅ in
  Linux.get_snap_packages e Py.initial
  = (Py.Ok S, (Linux.get_snap_packages e Py.initial).2)
  ∧ Linux.get_flatpak_packages e Py.initial
    = (Py.Ok F, (Linux.get_flatpak_packages e Py.initial).2)
  ∧ Linux.get_python_packages e Py.initial
    = (Py.Ok P, (Linux.get_python_packages e Py.initial).2)
  ∧ S ##ₘ F ∧ S ##ₘ P ∧ F ##ₘ P
  ∧ (∀ acc, Py.update (Py.update (Py.update acc S) F) P
            = Py.update (Py.update (Py.update acc P) F) S)
  ∧ size (Py.update (Py.update (Py.update ∅ S) F) P) = (size S + size F + size P)%nat.
Proof.
  cbn zeta.
  assert (Linux.get_snap_packages Examples.zypper_then_snap Py.initial
          = (Py.Ok {["Snap: core" := "2.0"]},
             (Linux.get_snap_packages Examples.zypper_then_snap Py.initial).2)) as E1
    by (vm_compute; reflexivity).
  assert (Linux.get_flatpak_packages Examples.zypper_then_snap Py.initial
          = (Py.Ok ∅, (Linux.get_flatpak_packages Examples.zypper_then_snap Py.initial).2))
    as E2 by (vm_compute; reflexivity).
  assert (Linux.get_python_packages Examples.zypper_then_snap Py.initial
          = (Py.Ok ∅, (Linux.get_python_packages Examples.zypper_then_snap Py.initial).2))
    as E3 by (vm_compute; reflexivity).
  split; [exact E1|]. split; [exact E2|]. split; [exact E3|].
  exact (additive_probes_never_collide _ _ _ _ _ _ _ _ _ _ E1 E2 E3).
Defined.

(** ** The merge on macOS *)

Lemma update_keeps (x acc y : gmap string string) :
  x ##ₘ y → x ⊆ acc → x ⊆ Py.update acc y.
Proof.
  intros Hd Hx. apply map_subseteq_spec. intros k v Hk. unfold Py.update.
  rewrite lookup_union_r by by eapply map_disjoint_Some_l.
  by eapply lookup_weaken.
Qed.

Lemma update_adds (acc y : gmap string string) : y ⊆ Py.update acc y.
Proof. apply map_union_subseteq_l. Qed.

Lemma homebrew_line_keys d line :
  keys_start "Homebrew: " d → keys_start "Homebrew: " (Macos.homebrew_line d line).
Proof.
  intros Hd. unfold Macos.homebrew_line. destruct (PyStr.nonempty _); [|done].
  destruct (PyStr.split1 " " line) as [|name [|version rest]]; try done.
  apply keys_start_insert; [apply startswith_app | done].
Qed.

Lemma cask_line_keys d line :
  keys_start "Homebrew Cask: " d → keys_start "Homebrew Cask: " (Macos.cask_line d line).
Proof.
  intros Hd. unfold Macos.cask_line. destruct (PyStr.nonempty _); [|done].
  destruct (PyStr.split1 " " line) as [|name [|version rest]]; try done;
    (apply keys_start_insert; [apply startswith_app | done]).
Qed.

Lemma macports_line_keys d line :
  keys_start "MacPorts: " d → keys_start "MacPorts: " (Macos.macports_line d line).
Proof.
  intros Hd. unfold Macos.macports_line. destruct (PyStr.nonempty _); [|done].
  destruct (Re.re_match _ _) as [[|name [|version [|? ?]]]|]; try done.
  apply keys_start_insert; [apply startswith_app | done].
Qed.

Lemma mas_line_keys d line :
  keys_start "App Store: " d → keys_start "App Store: " (Macos.mas_line d line).
Proof.
  intros Hd. unfold Macos.mas_line. destruct (PyStr.nonempty _); [|done].
  destruct (Re.re_match _ _) as [[|app_id [|name [|version [|? ?]]]]|]; try done.
  apply keys_start_insert; [apply startswith_app | done].
Qed.

Lemma silent_probe_keys e announce argv parse p :
  (∀ ls, keys_start p (parse ls)) →
  yields (keys_start p) (Macos.silent_probe e announce argv parse).
Proof.
  intros Hparse. unfold Macos.silent_probe.
  py_yields; first [done | apply keys_start_empty].
Qed.

(** X5. The records of the Homebrew, Homebrew Cask, MacPorts, App Store
    and pip probes of the macOS reader never share a key: whatever was
    collected before them, each probe finds all of its records in the
    merged mapping, and merged into an empty mapping they count for the sum
    of their sizes. *)
Theorem macos_package_probes_never_collide (e : Py.env)
    (s1 s2 s3 s4 s5 s1' s2' s3' s4' s5' : Py.state) (H C M A P : gmap string string) :
  Macos.get_homebrew_packages e s1 = (Py.Ok H, s1') →
  Macos.get_homebrew_cask_packages e s2 = (Py.Ok C, s2') →
  Macos.get_macports_packages e s3 = (Py.Ok M, s3') →
  Macos.get_app_store_apps e s4 = (Py.Ok A, s4') →
  Macos.get_python_packages e s5 = (Py.Ok P, s5') →
  (∀ acc,
     let m := Py.update (Py.update (Py.update (Py.update (Py.update acc H) C) M) A) P in
     H ⊆ m ∧ C ⊆ m ∧ M ⊆ m ∧ A ⊆ m ∧ P ⊆ m)
  ∧ size (Py.update (Py.update (Py.update (Py.update (Py.update ∅ H) C) M) A) P)
    = (size H + size C + size M + size A + size P)%nat.
Proof.
  intros HH HC HM HA HP.
  assert (keys_start "Homebrew: " H) as KH.
  { eapply (silent_probe_keys e _ _ _ "Homebrew: "); [|exact HH].
    intros. apply keys_start_foldl; auto using keys_start_empty, homebrew_line_keys. }
  assert (keys_start "Homebrew Cask: " C) as KC.
  { eapply (silent_probe_keys e _ _ _ "Homebrew Cask: "); [|exact HC].
    intros. apply keys_start_foldl; auto using keys_start_empty, cask_line_keys. }
  assert (keys_start "MacPorts: " M) as KM.
  { eapply (silent_probe_keys e _ _ _ "MacPorts: "); [|exact HM].
    intros. apply keys_start_foldl; auto using keys_start_empty, macports_line_keys. }
  assert (keys_start "App Store: " A) as KA.
  { eapply (silent_probe_keys e _ _ _ "App Store: "); [|exact HA].
    intros. apply keys_start_foldl; auto using keys_start_empty, mas_line_keys. }
  apply get_python_packages_keys in HP.
  assert (H ##ₘ C) by by apply (keys_start_disjoint "Homebrew: " "Homebrew Cask: ").
  assert (H ##ₘ M) by by apply (keys_start_disjoint "Homebrew: " "MacPorts: ").
  assert (H ##ₘ A) by by apply (keys_start_disjoint "Homebrew: " "App Store: ").
  assert (H ##ₘ P) by by apply (keys_start_disjoint "Homebrew: " "Python: ").
  assert (C ##ₘ M) by by apply (keys_start_disjoint "Homebrew Cask: " "MacPorts: ").
  assert (C ##ₘ A) by by apply (keys_start_disjoint "Homebrew Cask: " "App Store: ").
  assert (C ##ₘ P) by by apply (keys_start_disjoint "Homebrew Cask: " "Python: ").
  assert (M ##ₘ A) by by apply (keys_start_disjoint "MacPorts: " "App Store: ").
  assert (M ##ₘ P) by by apply (keys_start_disjoint "MacPorts: " "Python: ").
  assert (A ##ₘ P) by by apply (keys_start_disjoint "App Store: " "Python: ").
  split.
  - intros acc m. subst m.
    repeat split; repeat first [apply update_adds | apply update_keeps; [done|]].
  - unfold Py.update. rewrite (right_id_L ∅ (∪)).
    rewrite !map_size_disj_union; [lia|..];
      repeat (apply map_disjoint_union_r; split); by symmetry.
Qed.

Lemma macos_package_probes_never_collide_witness :
  let e := Examples.brew_host in
  let H : gmap string string := {["Homebrew: wget" := "1.21.4"]} in
  let C : gmap string string := {["Homebrew Cask: firefox" := "120.0"]} in
  let none : gmap string string := ∅ in
  Macos.get_homebrew_packages e Py.initial
  = (Py.Ok H, (Macos.get_homebrew_packages e Py.initial).2)
  ∧ Macos.get_homebrew_cask_packages e Py.initial
    = (Py.Ok C, (Macos.get_homebrew_cask_packages e Py.initial).2)
  ∧ Macos.get_macports_packages e Py.initial
    = (Py.Ok none, (Macos.get_macports_packages e Py.initial).2)
  ∧ Macos.get_app_store_apps e Py.initial
    = (Py.Ok none, (Macos.get_app_store_apps e Py.initial).2)
  ∧ Macos.get_python_packages e Py.initial
    = (Py.Ok none, (Macos.get_python_packages e Py.initial).2)
  ∧ (∀ acc,
       let m :=
         Py.update (Py.update (Py.update (Py.update (Py.update acc H) C) none) none) none in
       H ⊆ m ∧ C ⊆ m ∧ none ⊆ m ∧ none ⊆ m ∧ none ⊆ m)
  ∧ size (Py.update (Py.update (Py.update (Py.update (Py.update ∅ H) C) none) none) none)
    = (size H + size C + size none + size none + size none)%nat.
Proof.
  cbn zeta.
  assert (Macos.get_homebrew_packages Examples.brew_host Py.initial
          = (Py.Ok {["Homebrew: wget" := "1.21.4"]},
             (Macos.get_homebrew_packages Examples.brew_host Py.initial).2)) as E1
    by (vm_compute; reflexivity).
  assert (Macos.get_homebrew_cask_packages Examples.brew_host Py.initial
          = (Py.Ok {["Homebrew Cask: firefox" := "120.0"]},
             (Macos.get_homebrew_cask_packages Examples.brew_host Py.initial).2)) as E2
    by (vm_compute; reflexivity).
  assert (Macos.get_macports_packages Examples.brew_host Py.initial
          = (Py.Ok ∅, (Macos.get_macports_packages Examples.brew_host Py.initial).2)) as E3
    by (vm_compute; reflexivity).
  assert (Macos.get_app_store_apps Examples.brew_host Py.initial
          = (Py.Ok ∅, (Macos.get_app_store_apps Examples.brew_host Py.initial).2)) as E4
    by (vm_compute; reflexivity).
  assert (Macos.get_python_packages Examples.brew_host Py.initial
          = (Py.Ok ∅, (Macos.get_python_packages Examples.brew_host Py.initial).2)) as E5
    by (vm_compute; reflexivity).
  split; [exact E1|]. split; [exact E2|]. split; [exact E3|]. split; [exact E4|].
  split; [exact E5|].
  exact (macos_package_probes_never_collide _ _ _ _ _ _ _ _ _ _ _ _ _ _ _ _
           E1 E2 E3 E4 E5).
Defined.

(** ** The order of the merge *)

Lemma update_commutes (acc A B : gmap string string) :
  agree A B → Py.update (Py.update acc A) B = Py.update (Py.update acc B) A.
Proof.
  intros H. apply map_eq. intros k. rewrite !lookup_update.
  destruct (A !! k) as [a|] eqn:Ha, (B !! k) as [b|] eqn:Hb; try reflexivity.
  f_equal. symmetry. by eapply H.
Qed.

Lemma agree_refl (A : gmap string string) : agree A A.
Proof. intros k a b Ha Hb. congruence. Qed.

Lemma agree_sym (A B : gmap string string) : agree A B → agree B A.
Proof. intros H k a b Ha Hb. symmetry. by eapply H. Qed.

Lemma disjoint_agree (A B : gmap string string) : A ##ₘ B → agree A B.
Proof.
  intros H k a b Ha Hb. by destruct (proj1 (map_disjoint_spec A B) H k a b).
Qed.

(** Mappings that agree two by two merge to the same mapping in any
    order. *)
Lemma foldl_update_permutation (l l' : list (gmap string string)) :
  l ≡ₚ l' → (∀ X Y, X ∈ l → Y ∈ l → agree X Y) →
  ∀ acc, foldl Py.update acc l = foldl Py.update acc l'.
Proof.
  induction 1 as [|x l l' Hp IH|x y l|l l' l'' Hp IH Hp' IH']; intros Hagree acc.
  - done.
  - cbn [foldl]. apply IH. intros X Y HX HY. apply Hagree; by right.
  - cbn [foldl]. f_equal. apply update_commutes, Hagree.
    + left.
    + right. left.
  - rewrite IH by done. apply IH'. intros X Y HX HY.
    apply Hagree; by rewrite Hp.
Qed.

Ltac agree_cases :=
  match goal with
  | |- ∀ X Y, X ∈ _ → Y ∈ _ → agree X Y =>
      let X := fresh "X" in
      let Y := fresh "Y" in
      let HX := fresh "HX" in
      let HY := fresh "HY" in
      intros X Y HX HY;
      repeat (apply elem_of_cons in HX as [->|HX]);
      try (by apply elem_of_nil in HX);
      repeat (apply elem_of_cons in HY as [->|HY]);
      try (by apply elem_of_nil in HY);
      first [ apply agree_refl | assumption | by apply agree_sym
            | by apply disjoint_agree | by apply agree_sym, disjoint_agree ]
  end.

(** C6, claim as stated, refuted.  On the first host [zypper] lists a
    package under the name the Snap probe gives to the snap [core], with
    the version ['Unknown'], and [snap] lists [core] with the version
    ["2.0"]: the results of the two probes carry no conflicting non-unset
    value, and merging them in the two orders gives different mappings.  On
    the second host the applications scan finds the version ["120.0"] for
    the name the Cask probe gives to the cask [firefox], which Homebrew
    lists without a version: the Cask probe records ['Unknown'], and the
    collection, which merges it later, returns ['Unknown']. *)
Lemma merge_order_counterexample :
  (let e := Examples.zypper_unset in
   let first := Linux.get_linux_software e Py.initial in
   let later := Linux.get_snap_packages e first.2 in
   let A : gmap string string := {["Snap: core" := "Unknown"]} in
   let B : gmap string string := {["Snap: core" := "2.0"]} in
   first.1 = Py.Ok A ∧ later.1 = Py.Ok B
   ∧ no_conflict A B
   ∧ merged [A; B] !! "Snap: core" = Some "2.0"
   ∧ merged [B; A] !! "Snap: core" = Some "Unknown"
   ∧ merged [A; B] ≠ merged [B; A]
   ∧ resolved (Linux.get_installed_software e Py.initial) "Snap: core" = Some "2.0")
  ∧ (let e := Examples.cask_unset in
     let first := Macos.get_macos_applications e Py.initial in
     let later :=
       Macos.get_homebrew_cask_packages e (Macos.get_homebrew_packages e first.2).2 in
     let A : gmap string string := {["Homebrew Cask: firefox" := "120.0"]} in
     let B : gmap string string := {["Homebrew Cask: firefox" := "Unknown"]} in
     first.1 = Py.Ok A ∧ later.1 = Py.Ok B
     ∧ no_conflict A B
     ∧ merged [A; B] !! "Homebrew Cask: firefox" = Some "Unknown"
     ∧ merged [B; A] !! "Homebrew Cask: firefox" = Some "120.0"
     ∧ merged [A; B] ≠ merged [B; A]
     ∧ resolved (Macos.get_installed_software e Py.initial) "Homebrew Cask: firefox"
       = Some "Unknown").
Proof.
  cbn zeta. split.
  - split; [vm_compute; reflexivity|]. split; [vm_compute; reflexivity|].
    split.
    { intros k a b Ha Hb. apply lookup_singleton_Some in Ha as [_ <-]. auto. }
    split; [vm_compute; reflexivity|]. split; [vm_compute; reflexivity|].
    split; [|vm_compute; reflexivity].
    intros H. apply (f_equal (λ m, m !! "Snap: core")) in H. vm_compute in H.
    discriminate.
  - split; [vm_compute; reflexivity|]. split; [vm_compute; reflexivity|].
    split.
    { intros k a b Ha Hb. apply lookup_singleton_Some in Hb as [_ <-]. auto. }
    split; [vm_compute; reflexivity|]. split; [vm_compute; reflexivity|].
    split; [|vm_compute; reflexivity].
    intros H. apply (f_equal (λ m, m !! "Homebrew Cask: firefox")) in H. vm_compute in H.
    discriminate.
Qed.

(** C6, amended.  When every identity present in both mappings carries the
    same value in both, merging A then B into the running mapping yields the
    same mapping as merging B then A.  In a chain, when the result of the
    package-manager probe, or of the applications scan, carries on every
    identity it shares with the result of another probe the value that one
    carries, merging the results of the probes of the chain in any order
    yields the mapping [get_installed_software] returns; between the other
    probes no condition is needed, their keys bearing different
    prefixes. *)
Theorem merge_order_independent (e : Py.env) (st : Py.state) :
  (∀ acc A B : gmap string string,
     agree A B → Py.update (Py.update acc A) B = Py.update (Py.update acc B) A)
  ∧ (∀ A S F P st1 st2 st3 st',
       Linux.get_linux_software e
         (Py.State (Py.calls st) (Py.printed st ++ ["Detecting software on Linux..."]))
       = (Py.Ok A, st1) →
       Linux.get_snap_packages e st1 = (Py.Ok S, st2) →
       Linux.get_flatpak_packages e st2 = (Py.Ok F, st3) →
       Linux.get_python_packages e st3 = (Py.Ok P, st') →
       agree A S → agree A F → agree A P →
       ∀ order, order ≡ₚ [A; S; F; P] →
         Linux.get_installed_software e st = (Py.Ok (merged order), st'))
  ∧ (∀ A H C M S P st1 st2 st3 st4 st5 st',
       Macos.get_macos_applications e
         (Py.State (Py.calls st) (Py.printed st ++ ["Detecting software on macOS..."]))
       = (Py.Ok A, st1) →
       Macos.get_homebrew_packages e st1 = (Py.Ok H, st2) →
       Macos.get_homebrew_cask_packages e st2 = (Py.Ok C, st3) →
       Macos.get_macports_packages e st3 = (Py.Ok M, st4) →
       Macos.get_app_store_apps e st4 = (Py.Ok S, st5) →
       Macos.get_python_packages e st5 = (Py.Ok P, st') →
       agree A H → agree A C → agree A M → agree A S → agree A P →
       ∀ order, order ≡ₚ [A; H; C; M; S; P] →
         Macos.get_installed_software e st = (Py.Ok (merged order), st')).
Proof.
  split; [exact update_commutes|]. split.
  - intros A S F P st1 st2 st3 st' EA ES EF EP HS HF HP order Horder.
    pose proof (get_snap_packages_keys e _ _ _ ES) as KS.
    pose proof (get_flatpak_packages_keys e _ _ _ EF) as KF.
    pose proof (get_python_packages_keys e _ _ _ EP) as KP.
    assert (S ##ₘ F) by by apply (keys_start_disjoint "Snap: " "Flatpak: ").
    assert (S ##ₘ P) by by apply (keys_start_disjoint "Snap: " "Python: ").
    assert (F ##ₘ P) by by apply (keys_start_disjoint "Flatpak: " "Python: ").
    unfold merged.
    rewrite <- (foldl_update_permutation [A; S; F; P] order); [|done|agree_cases].
    unfold Linux.get_installed_software. monad_unfold. by rewrite EA, ES, EF, EP.
  - intros A H C M S P st1 st2 st3 st4 st5 st' EA EH EC EM ES EP HH HC HM HS HP
      order Horder.
    assert (keys_start "Homebrew: " H) as KH.
    { eapply (silent_probe_keys e _ _ _ "Homebrew: "); [|exact EH].
      intros. apply keys_start_foldl; auto using keys_start_empty, homebrew_line_keys. }
    assert (keys_start "Homebrew Cask: " C) as KC.
    { eapply (silent_probe_keys e _ _ _ "Homebrew Cask: "); [|exact EC].
      intros. apply keys_start_foldl; auto using keys_start_empty, cask_line_keys. }
    assert (keys_start "MacPorts: " M) as KM.
    { eapply (silent_probe_keys e _ _ _ "MacPorts: "); [|exact EM].
      intros. apply keys_start_foldl; auto using keys_start_empty, macports_line_keys. }
    assert (keys_start "App Store: " S) as KS.
    { eapply (silent_probe_keys e _ _ _ "App Store: "); [|exact ES].
      intros. apply keys_start_foldl; auto using keys_start_empty, mas_line_keys. }
    pose proof (get_python_packages_keys e _ _ _ EP) as KP.
    assert (H ##ₘ C) by by apply (keys_start_disjoint "Homebrew: " "Homebrew Cask: ").
    assert (H ##ₘ M) by by apply (keys_start_disjoint "Homebrew: " "MacPorts: ").
    assert (H ##ₘ S) by by apply (keys_start_disjoint "Homebrew: " "App Store: ").
    assert (H ##ₘ P) by by apply (keys_start_disjoint "Homebrew: " "Python: ").
    assert (C ##ₘ M) by by apply (keys_start_disjoint "Homebrew Cask: " "MacPorts: ").
    assert (C ##ₘ S) by by apply (keys_start_disjoint "Homebrew Cask: " "App Store: ").
    assert (C ##ₘ P) by by apply (keys_start_disjoint "Homebrew Cask: " "Python: ").
    assert (M ##ₘ S) by by apply (keys_start_disjoint "MacPorts: " "App Store: ").
    assert (M ##ₘ P) by by apply (keys_start_disjoint "MacPorts: " "Python: ").
    assert (S ##ₘ P) by by apply (keys_start_disjoint "App Store: " "Python: ").
    unfold merged.
    rewrite <- (foldl_update_permutation [A; H; C; M; S; P] order); [|done|agree_cases].
    unfold Macos.get_installed_software, Macos.get_python_packages in *. monad_unfold.
    by rewrite EA, EH, EC, EM, ES, EP.
Qed.

Lemma agree_singleton (A : gmap string string) k v :
  (∀ a, A !! k = Some a → a = v) → agree A {[k := v]}.
Proof.
  intros H k' a b Ha Hb. apply lookup_singleton_Some in Hb as [<- <-]. by apply H.
Qed.

Lemma agree_empty (A : gmap string string) : agree A ∅.
Proof. intros k a b _ Hb. by rewrite lookup_empty in Hb. Qed.

Lemma merge_order_independent_witness :
  (let e := Examples.zypper_agrees in
   let A : gmap string string := <["Snap: core" := "2.0"]> {["vim" := "9.0"]} in
   let S : gmap string string := {["Snap: core" := "2.0"]} in
   let F : gmap string string := {["Flatpak: org.gimp.GIMP" := "2.10.34"]} in
   let P : gmap string string := {["Python: requests" := "2.31.0"]} in
   let st0 := Py.State [] ["Detecting software on Linux..."] in
   let st1 := (Linux.get_linux_software e st0).2 in
   let st2 := (Linux.get_snap_packages e st1).2 in
   let st3 := (Linux.get_flatpak_packages e st2).2 in
   let st' := (Linux.get_python_packages e st3).2 in
   Linux.get_linux_software e st0 = (Py.Ok A, st1)
   ∧ Linux.get_snap_packages e st1 = (Py.Ok S, st2)
   ∧ Linux.get_flatpak_packages e st2 = (Py.Ok F, st3)
   ∧ Linux.get_python_packages e st3 = (Py.Ok P, st')
   ∧ agree A S ∧ agree A F ∧ agree A P
   ∧ [P; F; S; A] ≡ₚ [A; S; F; P]
   ∧ Linux.get_installed_software e Py.initial = (Py.Ok (merged [P; F; S; A]), st'))
  ∧ (let e := Examples.cask_agrees in
     let A : gmap string string := {["Homebrew Cask: firefox" := "120.0"]} in
     let H : gmap string string := {["Homebrew: wget" := "1.21.4"]} in
     let C : gmap string string := {["Homebrew Cask: firefox" := "120.0"]} in
     let none : gmap string string := ∅ in
     let st0 := Py.State [] ["Detecting software on macOS..."] in
     let st1 := (Macos.get_macos_applications e st0).2 in
     let st2 := (Macos.get_homebrew_packages e st1).2 in
     let st3 := (Macos.get_homebrew_cask_packages e st2).2 in
     let st4 := (Macos.get_macports_packages e st3).2 in
     let st5 := (Macos.get_app_store_apps e st4).2 in
     let st' := (Macos.get_python_packages e st5).2 in
     Macos.get_macos_applications e st0 = (Py.Ok A, st1)
     ∧ Macos.get_homebrew_packages e st1 = (Py.Ok H, st2)
     ∧ Macos.get_homebrew_cask_packages e st2 = (Py.Ok C, st3)
     ∧ Macos.get_macports_packages e st3 = (Py.Ok none, st4)
     ∧ Macos.get_app_store_apps e st4 = (Py.Ok none, st5)
     ∧ Macos.get_python_packages e st5 = (Py.Ok none, st')
     ∧ agree A H ∧ agree A C ∧ agree A none
     ∧ [none; none; none; C; H; A] ≡ₚ [A; H; C; none; none; none]
     ∧ Macos.get_installed_software e Py.initial
       = (Py.Ok (merged [none; none; none; C; H; A]), st')).
Proof.
  cbn zeta. split.
  - set (e := Examples.zypper_agrees).
    set (A := <["Snap: core" := "2.0"]> {["vim" := "9.0"]} : gmap string string).
    set (st0 := Py.State [] ["Detecting software on Linux..."]).
    assert (Linux.get_linux_software e st0
            = (Py.Ok A, (Linux.get_linux_software e st0).2)) as EA
      by (vm_compute; reflexivity).
    set (st1 := (Linux.get_linux_software e st0).2) in *.
    assert (Linux.get_snap_packages e st1
            = (Py.Ok {["Snap: core" := "2.0"]}, (Linux.get_snap_packages e st1).2)) as ES
      by (vm_compute; reflexivity).
    set (st2 := (Linux.get_snap_packages e st1).2) in *.
    assert (Linux.get_flatpak_packages e st2
            = (Py.Ok {["Flatpak: org.gimp.GIMP" := "2.10.34"]},
               (Linux.get_flatpak_packages e st2).2)) as EF
      by (vm_compute; reflexivity).
    set (st3 := (Linux.get_flatpak_packages e st2).2) in *.
    assert (Linux.get_python_packages e st3
            = (Py.Ok {["Python: requests" := "2.31.0"]},
               (Linux.get_python_packages e st3).2)) as EP
      by (vm_compute; reflexivity).
    assert (agree A {["Snap: core" := "2.0"]}) as HS.
    { apply agree_singleton. intros a Ha. vm_compute in Ha. congruence. }
    assert (agree A {["Flatpak: org.gimp.GIMP" := "2.10.34"]}) as HF.
    { apply agree_singleton. intros a Ha. vm_compute in Ha. congruence. }
    assert (agree A {["Python: requests" := "2.31.0"]}) as HP.
    { apply agree_singleton. intros a Ha. vm_compute in Ha. congruence. }
    assert ([ {["Python: requests" := "2.31.0"]};
              {["Flatpak: org.gimp.GIMP" := "2.10.34"]};
              {["Snap: core" := "2.0"]}; A ]
            ≡ₚ [ A; {["Snap: core" := "2.0"]};
                 {["Flatpak: org.gimp.GIMP" := "2.10.34"]};
                 {["Python: requests" := "2.31.0"]} ]) as Horder
      by (symmetry; apply (reverse_Permutation [_; _; _; _])).
    split; [exact EA|]. split; [exact ES|]. split; [exact EF|]. split; [exact EP|].
    split; [exact HS|]. split; [exact HF|]. split; [exact HP|]. split; [exact Horder|].
    exact (proj1 (proj2 (merge_order_independent e Py.initial))
             _ _ _ _ _ _ _ _ EA ES EF EP HS HF HP _ Horder).
  - set (e := Examples.cask_agrees).
    set (A := {["Homebrew Cask: firefox" := "120.0"]} : gmap string string).
    set (st0 := Py.State [] ["Detecting software on macOS..."]).
    assert (Macos.get_macos_applications e st0
            = (Py.Ok A, (Macos.get_macos_applications e st0).2)) as EA
      by (vm_compute; reflexivity).
    set (st1 := (Macos.get_macos_applications e st0).2) in *.
    assert (Macos.get_homebrew_packages e st1
            = (Py.Ok {["Homebrew: wget" := "1.21.4"]},
               (Macos.get_homebrew_packages e st1).2)) as EH
      by (vm_compute; reflexivity).
    set (st2 := (Macos.get_homebrew_packages e st1).2) in *.
    assert (Macos.get_homebrew_cask_packages e st2
            = (Py.Ok A, (Macos.get_homebrew_cask_packages e st2).2)) as EC
      by (vm_compute; reflexivity).
    set (st3 := (Macos.get_homebrew_cask_packages e st2).2) in *.
    assert (Macos.get_macports_packages e st3
            = (Py.Ok ∅, (Macos.get_macports_packages e st3).2)) as EM
      by (vm_compute; reflexivity).
    set (st4 := (Macos.get_macports_packages e st3).2) in *.
    assert (Macos.get_app_store_apps e st4
            = (Py.Ok ∅, (Macos.get_app_store_apps e st4).2)) as ES
      by (vm_compute; reflexivity).
    set (st5 := (Macos.get_app_store_apps e st4).2) in *.
    assert (Macos.get_python_packages e st5
            = (Py.Ok ∅, (Macos.get_python_packages e st5).2)) as EP
      by (vm_compute; reflexivity).
    assert (agree A {["Homebrew: wget" := "1.21.4"]}) as HH.
    { apply agree_singleton. intros a Ha. vm_compute in Ha. congruence. }
    assert (agree A A) as HC by apply agree_refl.
    assert (agree A ∅) as HN by apply agree_empty.
    assert ([ (∅ : gmap string string); ∅; ∅; A; {["Homebrew: wget" := "1.21.4"]}; A ]
            ≡ₚ [ A; {["Homebrew: wget" := "1.21.4"]}; A; ∅; ∅; ∅ ]) as Horder
      by (symmetry; apply (reverse_Permutation [_; _; _; _; _; _])).
    split; [exact EA|]. split; [exact EH|]. split; [exact EC|]. split; [exact EM|].
    split; [exact ES|]. split; [exact EP|].
    split; [exact HH|]. split; [exact HC|]. split; [exact HN|]. split; [exact Horder|].
    exact (proj2 (proj2 (merge_order_independent e Py.initial))
             _ _ _ _ _ _ _ _ _ _ _ _ EA EH EC EM ES EP HH HC HN HN HN _ Horder).
Defined.

(** ** The patterns of the parsers

    [match_here] finds a match exactly when the pattern spells a prefix of
    the text, and the groups it returns are groups of such a spelling. *)

Lemma strip_prefix_app l s rest : PyStr.strip_prefix l s = Some rest → s = l +:+ rest.
Proof.
  revert s. induction l as [|a l IH]; intros s; cbn; [by intros [= ->]|].
  destruct s as [|b s]; [done|]. destruct (Ascii.eqb a b) eqn:E; [|done].
  apply Ascii.eqb_eq in E as ->. intros ->%IH. done.
Qed.

Lemma first_some_elem {A B} (f : A → option B) l b :
  Re.first_some f l = Some b → ∃ a, a ∈ l ∧ f a = Some b.
Proof.
  induction l as [|a l IH]; [done|]. cbn. destruct (f a) eqn:E.
  - intros [= ->]. exists a. split; [left | done].
  - intros (a' & ? & ?)%IH. exists a'. split; [by right | done].
Qed.

Lemma take_drop_chars i s : PyStr.take_chars i s +:+ PyStr.drop_chars i s = s.
Proof.
  revert s. induction i as [|i IH]; intros [|c s]; try done.
  change (String c (PyStr.take_chars i s +:+ PyStr.drop_chars i s) = String c s).
  by rewrite IH.
Qed.

Lemma take_chars_run cls i s :
  (1 ≤ i ≤ Re.run_length cls s)%nat →
  PyStr.take_chars i s ≠ EmptyString ∧ all_chars cls (PyStr.take_chars i s) = true.
Proof.
  revert s. induction i as [|i IH]; intros s [H1 H2]; [lia|].
  destruct s as [|c s]; cbn in H2; [lia|]. destruct (cls c) eqn:Hc; [|lia].
  split; [done|]. cbn. rewrite Hc. cbn.
  destruct i as [|i]; [done|]. apply IH. lia.
Qed.

Lemma match_here_sound p s gs : Re.match_here p s = Some gs → spells p gs s.
Proof.
  revert s gs. induction p as [|[l|g greedy cls|] p IH]; intros s gs; cbn [Re.match_here].
  - intros [= <-]. constructor.
  - destruct (PyStr.strip_prefix l s) as [rest|] eqn:E; [|done].
    apply strip_prefix_app in E as ->. intros H%IH. by constructor.
  - intros (i & Hi & Hf)%first_some_elem.
    destruct (Re.match_here p (PyStr.drop_chars i s)) as [gs'|] eqn:E; [|done].
    injection Hf as <-. apply IH in E.
    assert (1 ≤ i ≤ Re.run_length cls s)%nat as Hrange.
    { destruct greedy; [apply list_elem_of_In, in_rev, list_elem_of_In in Hi|];
        apply elem_of_seq in Hi; lia. }
    destruct (take_chars_run cls i s Hrange) as [Hne Hall].
    rewrite <- (take_drop_chars i s) at 2. by constructor.
  - destruct (Re.at_end s) eqn:E; [|done]. intros H%IH. by constructor.
Qed.

Lemma rstrip_last s t c :
  PyStr.rstrip s = t +:+ String c EmptyString → PyStr.is_space c = false.
Proof.
  revert t. induction s as [|a s IH]; intros t; cbn [PyStr.rstrip].
  - by destruct t.
  - destruct (PyStr.rstrip s) as [|b r] eqn:E.
    + destruct (PyStr.is_space a) eqn:Ha; [by destruct t|].
      destruct t as [|a' t]; [by intros [= ->]|]. intros [= -> H]. by destruct t.
    + destruct t as [|a' t]; [done|]. intros [= -> H]. by apply (IH t).
Qed.

Lemma app_assoc_str (a b c : string) : (a +:+ b) +:+ c = a +:+ (b +:+ c).
Proof.
  induction a as [|x a IH]; [done|].
  change (String x ((a +:+ b) +:+ c) = String x (a +:+ b +:+ c)). by rewrite IH.
Qed.

Lemma app_empty_r (a : string) : a +:+ EmptyString = a.
Proof.
  induction a as [|x a IH]; [done|].
  change (String x (a +:+ EmptyString) = String x a). by rewrite IH.
Qed.

Lemma none_of_has_char c w :
  all_chars (Re.none_of [c]) w = true → PyStr.has_char c w = false.
Proof.
  intros H. eapply all_chars_has_char; [exact H|].
  unfold Re.none_of. cbn. by rewrite Ascii.eqb_refl.
Qed.

Lemma rpm_record_reassembles (d : gmap string string) (line : string) :
  Linux.rpm_line d line = d
  ∨ ∃ name v r arch,
      Linux.rpm_line d line = <[name := v +:+ "-" +:+ r]> d
      ∧ PyStr.strip line = name +:+ "-" +:+ v +:+ "-" +:+ r +:+ "." +:+ arch
      ∧ name ≠ EmptyString ∧ arch ≠ EmptyString
      ∧ PyStr.has_char "-" v = false ∧ PyStr.has_char "-" r = false.
Proof.
  unfold Linux.rpm_line. destruct (PyStr.has_char "-" line); [|by left].
  unfold Re.re_match.
  destruct (Re.match_here _ _) as [gs|] eqn:E; [|by left].
  apply match_here_sound in E. unfold Linux.rpm_re in E.
  inversion E as [| | |g1 gr1 c1 p1 gs1 name s1 Hname _ E1 Hp Hgs Hs]; subst; clear E.
  inversion E1 as [|l2 p2 gs2 s2 E2| |]; subst; clear E1.
  inversion E2 as [| | |g3 gr3 c3 p3 gs3 v s3 Hv Hvc E3]; subst; clear E2.
  inversion E3 as [|l4 p4 gs4 s4 E4| |]; subst; clear E3.
  inversion E4 as [| | |g5 gr5 c5 p5 gs5 r s5 Hr Hrc E5]; subst; clear E4.
  inversion E5 as [|l6 p6 gs6 s6 E6| |]; subst; clear E5.
  inversion E6 as [| | |g7 gr7 c7 p7 gs7 arch s7 Harch _ E7]; subst; clear E6.
  inversion E7 as [| |p8 gs8 s8 Hend E8|]; subst; clear E7.
  inversion E8; subst; clear E8.
  right. exists name, v, r, arch.
  assert (s7 = EmptyString) as ->.
  { destruct s7 as [|c [|? ?]]; [done| |done].
    cbn in Hend. apply Ascii.eqb_eq in Hend as ->.
    unfold PyStr.strip in Hs.
    rewrite <- !app_assoc_str in Hs. symmetry in Hs. by apply rstrip_last in Hs. }
  rewrite ?app_empty_r in *.
  repeat split; first [done | by apply none_of_has_char].
Qed.

Lemma strip_prefix_of_app l s : PyStr.strip_prefix l (l +:+ s) = Some s.
Proof.
  induction l as [|a l IH]; [done|].
  change (String a l +:+ s) with (String a (l +:+ s)).
  cbn [PyStr.strip_prefix]. by rewrite Ascii.eqb_refl.
Qed.

Lemma first_some_is_some {A B} (f : A → option B) l a :
  a ∈ l → is_Some (f a) → is_Some (Re.first_some f l).
Proof.
  intros Ha Hf. induction Ha as [a l|a b l Ha IH]; cbn.
  - by destruct Hf as [? ->].
  - destruct (f b); eauto.
Qed.

Lemma drop_chars_app w s : PyStr.drop_chars (String.length w) (w +:+ s) = s.
Proof. induction w as [|c w IH]; [by destruct s|]. exact IH. Qed.

Lemma run_length_app cls w s :
  all_chars cls w = true → (String.length w ≤ Re.run_length cls (w +:+ s))%nat.
Proof.
  induction w as [|c w IH]; [cbn; lia|]. cbn [all_chars].
  intros [Hc Hw]%andb_true_iff.
  change (String c w +:+ s) with (String c (w +:+ s)). cbn [Re.run_length String.length].
  rewrite Hc. specialize (IH Hw). lia.
Qed.

Lemma match_here_complete p gs s : spells p gs s → is_Some (Re.match_here p s).
Proof.
  induction 1 as [s|l p gs s _ IH|p gs s Hend _ IH|g greedy cls p gs w s Hw Hcls _ IH];
    cbn [Re.match_here].
  - eauto.
  - by rewrite strip_prefix_of_app.
  - by rewrite Hend.
  - apply (first_some_is_some _ _ (String.length w)).
    + pose proof (run_length_app cls w s Hcls).
      assert (1 ≤ String.length w)%nat by (destruct w; [done | cbn; lia]).
      destruct greedy;
        [apply list_elem_of_In, (proj1 (in_rev _ _)), list_elem_of_In|];
        apply elem_of_seq; lia.
    + rewrite drop_chars_app. by destruct IH as [? ->].
Qed.

Lemma has_char_lstrip c s :
  PyStr.has_char c (PyStr.lstrip s) = true → PyStr.has_char c s = true.
Proof.
  induction s as [|a s IH]; [done|]. cbn [PyStr.lstrip].
  destruct (PyStr.is_space a); [|done]. intros H%IH. cbn. rewrite H. apply orb_true_r.
Qed.

Lemma has_char_rstrip c s :
  PyStr.has_char c (PyStr.rstrip s) = true → PyStr.has_char c s = true.
Proof.
  induction s as [|a s IH]; [done|]. cbn [PyStr.rstrip].
  destruct (PyStr.rstrip s) as [|b r].
  - destruct (PyStr.is_space a); [done|]. cbn. rewrite orb_false_r. by intros ->.
  - cbn in *. intros [->|H]%orb_true_iff; [done|]. rewrite IH by done. apply orb_true_r.
Qed.

Lemma has_char_strip c s :
  PyStr.has_char c (PyStr.strip s) = true → PyStr.has_char c s = true.
Proof. intros H. by apply has_char_lstrip, has_char_rstrip. Qed.

Lemma all_chars_any w :
  PyStr.has_char PyStr.newline w = false → all_chars Re.any w = true.
Proof.
  induction w as [|c w IH]; [done|]. cbn [PyStr.has_char all_chars].
  intros [Hc Hw]%orb_false_iff. unfold Re.any at 1. rewrite Hc. by apply IH.
Qed.

Lemma all_chars_none_of c w :
  PyStr.has_char c w = false → all_chars (Re.none_of [c]) w = true.
Proof.
  induction w as [|a w IH]; [done|]. cbn [PyStr.has_char all_chars].
  intros [Hc Hw]%orb_false_iff. unfold Re.none_of at 1. cbn [existsb].
  rewrite Hc. by apply IH.
Qed.

(** X6. [rpm -qa] lines.  A line is either skipped or recorded under a
    name and a version [v-r] such that the stripped line reads
    [name-v-r.arch], [v] and [r] holding no hyphen; and every line of that
    shape is recorded. *)
Theorem rpm_line_parses_name_version_release (d : gmap string string) (line : string) :
  (Linux.rpm_line d line = d
   ∨ ∃ name v r arch,
       Linux.rpm_line d line = <[name := v +:+ "-" +:+ r]> d
       ∧ PyStr.strip line = name +:+ "-" +:+ v +:+ "-" +:+ r +:+ "." +:+ arch
       ∧ name ≠ EmptyString ∧ arch ≠ EmptyString
       ∧ PyStr.has_char "-" v = false ∧ PyStr.has_char "-" r = false)
  ∧ (∀ name v r arch,
       PyStr.strip line = name +:+ "-" +:+ v +:+ "-" +:+ r +:+ "." +:+ arch →
       name ≠ EmptyString → v ≠ EmptyString → r ≠ EmptyString → arch ≠ EmptyString →
       PyStr.has_char "-" v = false → PyStr.has_char "-" r = false →
       PyStr.has_char PyStr.newline name = false →
       PyStr.has_char PyStr.newline arch = false →
       ∃ name' version, Linux.rpm_line d line = <[name' := version]> d).
Proof.
  split; [apply rpm_record_reassembles|].
  intros name v r arch Hs Hname Hv Hr Harch Hvd Hrd Hnl Hal.
  assert (spells Linux.rpm_re [name; v; r; arch]
            (name +:+ "-" +:+ v +:+ "-" +:+ r +:+ "." +:+ arch +:+ EmptyString)) as Hsp.
  { unfold Linux.rpm_re.
    apply (spells_plus true); [done | by apply all_chars_any |].
    apply spells_lit.
    apply (spells_plus true); [done | by apply all_chars_none_of |].
    apply spells_lit.
    apply (spells_plus true); [done | by apply all_chars_none_of |].
    apply spells_lit.
    apply (spells_plus true); [done | by apply all_chars_any |].
    apply spells_end; [done|]. constructor. }
  rewrite app_empty_r, <- Hs in Hsp.
  apply match_here_complete in Hsp as [gs Hgs].
  unfold Linux.rpm_line.
  assert (PyStr.has_char "-" line = true) as ->.
  { apply has_char_strip. rewrite Hs, has_char_app. cbn. apply orb_true_r. }
  unfold Re.re_match. rewrite Hgs.
  apply match_here_sound in Hgs. unfold Linux.rpm_re in Hgs.
  inversion Hgs as [| | |? ? ? ? ? ? ? ? ? E1]; subst; clear Hgs.
  inversion E1 as [|? ? ? ? E2| |]; subst; clear E1.
  inversion E2 as [| | |? ? ? ? ? ? ? ? ? E3]; subst; clear E2.
  inversion E3 as [|? ? ? ? E4| |]; subst; clear E3.
  inversion E4 as [| | |? ? ? ? ? ? ? ? ? E5]; subst; clear E4.
  inversion E5 as [|? ? ? ? E6| |]; subst; clear E5.
  inversion E6 as [| | |? ? ? ? ? ? ? ? ? E7]; subst; clear E6.
  inversion E7 as [| |? ? ? ? E8|]; subst; clear E7.
  inversion E8; subst; clear E8. eauto.
Qed.

Lemma rpm_line_parses_name_version_release_witness :
  ∃ name' version,
    Linux.rpm_line ∅ "bash-5.1.8-6.el9.x86_64" = <[name' := version]> ∅.
Proof.
  apply (proj2 (rpm_line_parses_name_version_release ∅ "bash-5.1.8-6.el9.x86_64")
           "bash" "5.1.8" "6" "el9.x86_64"); done.
Defined.

Ltac spells_inv :=
  repeat match goal with
         | H : spells (_ :: _) _ _ |- _ => inversion H; subst; clear H
         | H : spells [] _ _ |- _ => inversion H; subst; clear H
         end.

Lemma at_end_after_strip line t s :
  t +:+ s = PyStr.strip line → Re.at_end s = true → s = EmptyString.
Proof.
  intros Hs Hend. destruct s as [|c [|? ?]]; [done| |done].
  cbn in Hend. apply Ascii.eqb_eq in Hend as ->.
  unfold PyStr.strip in Hs. symmetry in Hs. by apply rstrip_last in Hs.
Qed.

(** X7. [qlist -I] lines.  A line is either skipped or recorded under
    [category/name] with a version such that the stripped line reads
    [category/name-version], the version holding no hyphen; and every line
    of that shape is recorded. *)
Theorem portage_line_parses_category_name_version (d : gmap string string)
    (line : string) :
  (Linux.portage_line d line = d
   ∨ ∃ category name version,
       Linux.portage_line d line = <[category +:+ "/" +:+ name := version]> d
       ∧ PyStr.strip line = category +:+ "/" +:+ name +:+ "-" +:+ version
       ∧ category ≠ EmptyString ∧ name ≠ EmptyString ∧ version ≠ EmptyString
       ∧ PyStr.has_char "-" version = false)
  ∧ (∀ category name version,
       PyStr.strip line = category +:+ "/" +:+ name +:+ "-" +:+ version →
       category ≠ EmptyString → name ≠ EmptyString → version ≠ EmptyString →
       PyStr.has_char "-" version = false →
       PyStr.has_char PyStr.newline category = false →
       PyStr.has_char PyStr.newline name = false →
       ∃ key version', Linux.portage_line d line = <[key := version']> d).
Proof.
  split.
  - unfold Linux.portage_line. destruct (PyStr.has_char "/" line); [|by left].
    unfold Re.re_match.
    destruct (Re.match_here _ _) as [gs|] eqn:E; [|by left].
    apply match_here_sound in E. unfold Linux.portage_re in E.
    remember (PyStr.strip line) as s eqn:Hs. spells_inv.
    right. do 3 eexists. split; [reflexivity|].
    match goal with
    | H : Re.at_end ?s = true, E : _ = PyStr.strip line |- _ =>
        assert (s = EmptyString) as ->
          by (rewrite <- !app_assoc_str in E; eapply at_end_after_strip; [exact E|done])
    end.
    rewrite ?app_empty_r in *.
    repeat split; first [done | by apply none_of_has_char].
  - intros category name version Hs Hc Hn Hv Hvd Hcl Hnl.
    assert (spells Linux.portage_re [category; name; version]
              (category +:+ "/" +:+ name +:+ "-" +:+ version +:+ EmptyString)) as Hsp.
    { unfold Linux.portage_re.
      apply (spells_plus true); [done | by apply all_chars_any |].
      apply spells_lit.
      apply (spells_plus true); [done | by apply all_chars_any |].
      apply spells_lit.
      apply (spells_plus true); [done | by apply all_chars_none_of |].
      apply spells_end; [done|]. constructor. }
    rewrite app_empty_r, <- Hs in Hsp.
    apply match_here_complete in Hsp as [gs Hgs].
    unfold Linux.portage_line.
    assert (PyStr.has_char "/" line = true) as ->.
    { apply has_char_strip. rewrite Hs, has_char_app. cbn. apply orb_true_r. }
    unfold Re.re_match. rewrite Hgs.
    apply match_here_sound in Hgs. unfold Linux.portage_re in Hgs.
    remember (PyStr.strip line) as s. spells_inv. eauto.
Qed.

Lemma portage_line_parses_category_name_version_witness :
  ∃ key version', Linux.portage_line ∅ "app-editors/vim-9.0.1" = <[key := version']> ∅.
Proof.
  apply (proj2 (portage_line_parses_category_name_version ∅ "app-editors/vim-9.0.1")
           "app-editors" "vim" "9.0.1"); done.
Defined.

Lemma join_cons sep w w' ws :
  PyStr.join sep (w :: w' :: ws) = w +:+ sep +:+ PyStr.join sep (w' :: ws).
Proof. done. Qed.

Lemma join_app sep l1 l2 :
  l1 ≠ [] → l2 ≠ [] →
  PyStr.join sep (l1 ++ l2) = PyStr.join sep l1 +:+ sep +:+ PyStr.join sep l2.
Proof.
  intros H1 H2. induction l1 as [|w [|w' ws] IH]; [done| |].
  - destruct l2 as [|w2 l2]; [done|]. done.
  - change ((w :: w' :: ws) ++ l2) with (w :: w' :: (ws ++ l2)).
    rewrite !join_cons. change (w' :: ws ++ l2) with ((w' :: ws) ++ l2).
    rewrite IH by done. by rewrite !app_assoc_str.
Qed.

Lemma split_char_absent sep s :
  PyStr.has_char sep s = false → PyStr.split_char sep s = [s].
Proof.
  induction s as [|c s IH]; [done|]. cbn [PyStr.has_char PyStr.split_char].
  intros [Hc Hs]%orb_false_iff. by rewrite Hc, IH.
Qed.

Lemma split_char_app sep x y :
  PyStr.split_char sep (x +:+ String sep y)
  = PyStr.split_char sep x ++ PyStr.split_char sep y.
Proof.
  induction x as [|c x IH].
  - change (EmptyString +:+ String sep y) with (String sep y).
    cbn [PyStr.split_char]. by rewrite Ascii.eqb_refl.
  - change (String c x +:+ String sep y) with (String c (x +:+ String sep y)).
    cbn [PyStr.split_char]. rewrite IH.
    destruct (Ascii.eqb c sep); [done|].
    pose proof (split_char_nonempty sep x).
    by destruct (PyStr.split_char sep x).
Qed.

Lemma join_empty_iff sep l :
  PyStr.nonempty (PyStr.join (String sep EmptyString) l) = true → l ≠ [].
Proof. by destruct l. Qed.

(** X8. [apk list --installed] lines.  The first space-separated field
    of a recorded line reads [name-a-b], where [a] and [b] hold no hyphen:
    the version recorded is [a-b] and the name is what comes before it; a
    line whose first field has that shape, and which does not start with
    [WARNING], is recorded so.  A field with a single hyphen is skipped,
    its name being empty. *)
Theorem apk_line_keeps_last_two_fields (d : gmap string string) (line : string) :
  let pkg_info := hd EmptyString (PyStr.split_char " " line) in
  (Linux.apk_line d line = d
   ∨ ∃ name a b,
       Linux.apk_line d line = <[name := a +:+ "-" +:+ b]> d
       ∧ pkg_info = name +:+ "-" +:+ a +:+ "-" +:+ b
       ∧ name ≠ EmptyString
       ∧ PyStr.has_char "-" a = false ∧ PyStr.has_char "-" b = false)
  ∧ (∀ name a b,
       pkg_info = name +:+ "-" +:+ a +:+ "-" +:+ b →
       name ≠ EmptyString →
       PyStr.has_char "-" a = false → PyStr.has_char "-" b = false →
       PyStr.startswith "WARNING" line = false →
       Linux.apk_line d line = <[name := a +:+ "-" +:+ b]> d).
Proof.
  intros pkg_info. split.
  - unfold Linux.apk_line. destruct (_ && _); [|by left].
    subst pkg_info.
    destruct (PyStr.split_char " " line) as [|pkg_info rest]; [by left|].
    cbn [hd]. destruct (PyStr.has_char "-" pkg_info) eqn:Hdash; [|by left].
    pose proof (join_split_char "-" pkg_info) as Hjoin.
    pose proof (split_char_pieces "-" pkg_info) as Hpieces.
    set (nv := PyStr.split_char "-" pkg_info) in *.
    destruct (PyStr.nonempty _) eqn:Hne; [|by left].
    pose proof (join_empty_iff _ _ Hne) as Hname.
    assert (2 < length nv)%nat as Hlen.
    { destruct (take (length nv - 2) nv) eqn:E; [done|].
      apply (f_equal length) in E. rewrite length_take in E. cbn in E. lia. }
    assert (∃ a b, drop (length nv - 2) nv = [a; b]) as (a & b & Hdrop).
    { assert (length (drop (length nv - 2) nv) = 2%nat) as H by (rewrite length_drop; lia).
      destruct (drop _ nv) as [|a [|b [|? ?]]]; try done. eauto. }
    right. exists (PyStr.join "-" (take (length nv - 2) nv)), a, b.
    rewrite Hdrop. split; [done|].
    assert (Forall (λ w, PyStr.has_char "-" w = false) [a; b]) as Hab.
    { rewrite <- Hdrop. by apply Forall_drop. }
    apply Forall_cons in Hab as [Ha Hb]. apply Forall_cons in Hb as [Hb _].
    repeat split; try done.
    + rewrite <- Hjoin at 1. rewrite <- (take_drop (length nv - 2) nv) at 1.
      rewrite join_app, Hdrop; [done..|]. by rewrite Hdrop.
    + intros E. by rewrite E in Hne.
  - intros name a b Hpkg Hname Ha Hb Hwarn.
    unfold Linux.apk_line. rewrite Hwarn. cbn [negb].
    assert (PyStr.nonempty line = true) as ->.
    { destruct line; [|done]. cbn in pkg_info. subst pkg_info. by destruct name. }
    cbn [andb]. subst pkg_info.
    pose proof (split_char_nonempty " " line).
    destruct (PyStr.split_char " " line) as [|pkg_info rest]; [done|].
    cbn [hd] in Hpkg. subst pkg_info.
    assert (PyStr.has_char "-" (name +:+ "-" +:+ a +:+ "-" +:+ b) = true) as ->.
    { rewrite has_char_app. cbn. apply orb_true_r. }
    change (name +:+ "-" +:+ a +:+ "-" +:+ b)
      with (name +:+ String "-" (a +:+ String "-" b)).
    rewrite split_char_app, split_char_app, (split_char_absent _ a), (split_char_absent _ b)
      by done.
    rewrite !length_app. cbn [length].
    replace (length (PyStr.split_char "-" name) + (1 + 1) - 2)%nat
      with (length (PyStr.split_char "-" name) + 0)%nat by lia.
    rewrite take_app_add, drop_app_add. cbn [take drop]. rewrite app_nil_r.
    rewrite join_split_char.
    destruct name; [done|]. done.
Qed.

Lemma apk_line_keeps_last_two_fields_witness :
  Linux.apk_line ∅ "musl-utils-1.2.4-r2 x86_64 {musl} (MIT) [installed]"
  = <["musl-utils" := "1.2.4-r2"]> ∅
  ∧ Linux.apk_line ∅ "musl-1.2.4" = ∅.
Proof.
  split; [|reflexivity].
  apply (proj2 (apk_line_keeps_last_two_fields ∅
                  "musl-utils-1.2.4-r2 x86_64 {musl} (MIT) [installed]")
           "musl-utils" "1.2.4" "r2"); done.
Defined.

(** ** Port tables *)

Lemma oset_Forall {V} (P : string * V → Prop) k v d :
  P (k, v) → Forall P d → Forall P (Py.oset k v d).
Proof.
  intros Hkv. induction 1 as [|[k' v'] d Hk' Hd IH]; cbn [Py.oset].
  - by repeat constructor.
  - destruct (String.eqb k' k); by constructor.
Qed.

Lemma oset_keys {V} k (v : V) d :
  (Py.oset k v d).*1 = if Py.omem k d then d.*1 else d.*1 ++ [k].
Proof.
  unfold Py.omem. induction d as [|[k' v'] d IH]; [done|]. cbn [Py.oset Py.assoc].
  destruct (String.eqb k' k) eqn:E.
  - apply String.eqb_eq in E as ->. done.
  - rewrite fmap_cons, IH. by destruct (Py.assoc k d).
Qed.

Lemma assoc_None_keys {V} k (d : list (string * V)) : Py.assoc k d = None → k ∉ d.*1.
Proof.
  induction d as [|[k' v'] d IH]; cbn [Py.assoc]; [by intros _ ?%elem_of_nil|].
  destruct (String.eqb k' k) eqn:E; [done|]. apply String.eqb_neq in E.
  intros H%IH. rewrite fmap_cons. cbn. intros [->|?]%elem_of_cons; done.
Qed.

Lemma oset_NoDup {V} k (v : V) d : NoDup d.*1 → NoDup (Py.oset k v d).*1.
Proof.
  intros Hd. rewrite oset_keys. unfold Py.omem.
  destruct (Py.assoc k d) eqn:E; [done|].
  apply NoDup_app. repeat split; [done| |apply NoDup_singleton].
  intros x Hx ->%list_elem_of_singleton. by apply assoc_None_keys in E.
Qed.

Lemma keyed_table_nil : keyed_table [].
Proof. split; [constructor | apply NoDup_nil_2]. Qed.

Lemma keyed_table_oset protocol port (r : PortListener.port_entry) t :
  PortListener.Protocol r = Py.VStr protocol → PortListener.Port r = port →
  keyed_table t → keyed_table (Py.oset (protocol +:+ ":" +:+ Py.str port) r t).
Proof.
  intros Hp Hport [Hk Hn]. split; [|by apply oset_NoDup].
  apply oset_Forall; [|done]. exists protocol. by rewrite <- Hport.
Qed.

Lemma keyed_table_foldl {A} (step : list (string * PortListener.port_entry) → A → _) l :
  (∀ t a, keyed_table t → keyed_table (step t a)) →
  ∀ t, keyed_table t → keyed_table (foldl step t l).
Proof. intros Hstep. induction l as [|a l IH]; intros t Ht; cbn; auto. Qed.

Ltac keyed_line :=
  repeat match goal with
         | |- keyed_table (if ?c then _ else _) => destruct c
         | |- keyed_table (match ?c with _ => _ end) => destruct c
         | |- keyed_table (let '(_, _) := ?c in _) => destruct c
         end;
  first [ assumption | by apply (keyed_table_oset _ (Py.VInt _)) ].

Lemma windows_netstat_line_keyed t line :
  keyed_table t → keyed_table (PortListener.windows_netstat_line t line).
Proof. intros Ht. unfold PortListener.windows_netstat_line. keyed_line. Qed.

Lemma linux_netstat_line_keyed t line :
  keyed_table t → keyed_table (PortListener.linux_netstat_line t line).
Proof. intros Ht. unfold PortListener.linux_netstat_line. keyed_line. Qed.

Lemma ss_line_keyed t line : keyed_table t → keyed_table (PortListener.ss_line t line).
Proof. intros Ht. unfold PortListener.ss_line. keyed_line. Qed.

Lemma macos_netstat_line_keyed t line :
  keyed_table t → keyed_table (PortListener.macos_netstat_line t line).
Proof. intros Ht. unfold PortListener.macos_netstat_line. keyed_line. Qed.

Lemma lsof_line_keyed t line : keyed_table t → keyed_table (PortListener.lsof_line t line).
Proof. intros Ht. unfold PortListener.lsof_line. keyed_line. Qed.

Lemma tcp_listener_keyed t conn :
  keyed_table t → keyed_table (PortListener.tcp_listener t conn).
Proof.
  intros Ht. unfold PortListener.tcp_listener. destruct (Py.truthy _); [|done].
  by apply (keyed_table_oset "TCP").
Qed.

Lemma tcp_listeners_of_keyed data : keyed_table (PortListener.tcp_listeners_of data).
Proof.
  destruct data; cbn [PortListener.tcp_listeners_of]; try apply keyed_table_nil.
  - apply keyed_table_foldl; [|apply keyed_table_nil].
    intros t [] Ht; auto using tcp_listener_keyed.
  - apply tcp_listener_keyed, keyed_table_nil.
Qed.

Lemma sound_ports_nil : sound_ports [].
Proof. constructor. Qed.

Lemma sound_ports_oset name t port_info :
  sound_table t → sound_ports port_info →
  sound_ports (Py.oset name (PortListener.Table t) port_info).
Proof.
  intros Ht Hp. apply oset_Forall; [|done]. by exists t.
Qed.

Lemma sound_ports_store name t port_info :
  keyed_table t → sound_ports port_info →
  sound_ports (PortListener.store name t port_info).
Proof.
  intros [Hk Hn] Hp. unfold PortListener.store. destruct t as [|kv t]; [done|].
  by apply sound_ports_oset.
Qed.

Lemma assoc_elem {V} k (v : V) d : Py.assoc k d = Some v → (k, v) ∈ d.
Proof.
  induction d as [|[k' v'] d IH]; [done|]. cbn [Py.assoc].
  destruct (String.eqb k' k) eqn:E.
  - apply String.eqb_eq in E as ->. intros [= ->]. left.
  - intros H%IH. by right.
Qed.

Lemma yields_weaken {A} (P Q : A → Prop) (m : Py.M A) :
  (∀ a, P a → Q a) → yields P m → yields Q m.
Proof. intros HPQ Hm st a st' H. eapply HPQ, Hm, H. Qed.

Section SoundPorts.
Context (e : Py.env).

Lemma text_scan_sound announce argv parse name failed port_info :
  (∀ out, keyed_table (parse out)) → sound_ports port_info →
  yields sound_ports (PortListener.text_scan e announce argv parse name failed port_info).
Proof.
  intros Hparse Hp. unfold PortListener.text_scan.
  py_yields; first [done | by apply sound_ports_store].
Qed.

Lemma map_process_fields port_data :
  yields (λ r, r = PortListener.set_process port_data (PortListener.Process r))
    (PortListener.map_process e port_data).
Proof.
  unfold PortListener.map_process. py_yields; by destruct port_data.
Qed.

Lemma map_processes_fields items :
  yields (Forall2 (λ old new,
                     new.1 = old.1
                     ∧ new.2 = PortListener.set_process old.2 (PortListener.Process new.2))
            items)
    (PortListener.map_processes e items).
Proof.
  induction items as [|[port_key port_data] rest IH]; cbn [PortListener.map_processes].
  - py_yields. constructor.
  - eapply yields_bind_with; [apply map_process_fields|]. intros r Hr.
    eapply yields_bind_with; [apply IH|]. intros rest' Hrest.
    py_yields. by constructor.
Qed.

Lemma sound_table_mapped items items' :
  Forall2 (λ old new : string * PortListener.port_entry,
             new.1 = old.1
             ∧ new.2 = PortListener.set_process old.2 (PortListener.Process new.2))
    items items' →
  sound_table items → sound_table items'.
Proof.
  intros H Hs.
  assert (items'.*1 = items.*1) as Hkeys.
  { clear Hs. induction H as [|? ? ? ? [? ?]]; [done|]. rewrite !fmap_cons. by f_equal. }
  destruct Hs as (Hne & Hk & Hn). repeat split.
  - intros ->. inversion H; by subst.
  - clear Hne Hn Hkeys. induction H as [|[k r] [k' r'] l l' [Hk1 Hk2] _ IH]; [done|].
    apply Forall_cons in Hk as [(protocol & Hp & Hkey) Hk].
    constructor; [|by apply IH]. cbn in *. subst k'. exists protocol.
    rewrite Hk2. by destruct r.
  - by rewrite Hkeys.
Qed.

Lemma process_mapping_sound port_info :
  sound_ports port_info → yields sound_ports (PortListener.process_mapping e port_info).
Proof.
  intros Hp. unfold PortListener.process_mapping.
  apply yields_try; [|py_yields; done].
  apply yields_bind. intros _.
  destruct (Py.assoc "Listening Ports" port_info) as [[items|]|] eqn:E;
    [|by py_yields..].
  eapply yields_bind_with; [apply map_processes_fields|]. intros items' Hitems.
  py_yields. apply sound_ports_oset; [|done].
  eapply sound_table_mapped; [done|].
  apply assoc_elem in E. apply (proj1 (Forall_forall _ _) Hp) in E as (t & [= <-] & Ht).
  done.
Qed.

Lemma powershell_scan_sound port_info :
  sound_ports port_info → yields sound_ports (PortListener.powershell_scan e port_info).
Proof.
  intros Hp. unfold PortListener.powershell_scan.
  py_yields; first [done | apply sound_ports_store; [apply tcp_listeners_of_keyed|done]].
Qed.

Lemma windows_ports_sound : yields sound_ports (PortListener.get_windows_ports e).
Proof.
  unfold PortListener.get_windows_ports.
  eapply yields_bind_with.
  { apply text_scan_sound; [|apply sound_ports_nil]. intros out.
    apply keyed_table_foldl; auto using windows_netstat_line_keyed, keyed_table_nil. }
  intros p1 H1. eapply yields_bind_with; [by apply process_mapping_sound|].
  intros p2 H2. by apply powershell_scan_sound.
Qed.

Lemma linux_ports_sound : yields sound_ports (PortListener.get_linux_ports e).
Proof.
  unfold PortListener.get_linux_ports.
  eapply yields_bind_with.
  { apply text_scan_sound; [|apply sound_ports_nil]. intros out.
    apply keyed_table_foldl; auto using linux_netstat_line_keyed, keyed_table_nil. }
  intros p1 H1. apply text_scan_sound; [|done]. intros out.
  apply keyed_table_foldl; auto using ss_line_keyed, keyed_table_nil.
Qed.

Lemma macos_ports_sound : yields sound_ports (PortListener.get_macos_ports e).
Proof.
  unfold PortListener.get_macos_ports.
  eapply yields_bind_with.
  { apply text_scan_sound; [|apply sound_ports_nil]. intros out.
    apply keyed_table_foldl; auto using macos_netstat_line_keyed, keyed_table_nil. }
  intros p1 H1. apply text_scan_sound; [|done]. intros out.
  apply keyed_table_foldl; auto using lsof_line_keyed, keyed_table_nil.
Qed.

Lemma listening_ports_sound :
  yields (λ port_info,
            sound_ports port_info ∨ ∃ text, port_info = [("error", PortListener.Text text)])
    (PortListener.get_listening_ports e).
Proof.
  unfold PortListener.get_listening_ports. apply yields_bind. intros _.
  repeat match goal with |- yields _ (if ?c then _ else _) => destruct c end;
    [eapply yields_weaken; [|apply windows_ports_sound]; by left
    |eapply yields_weaken; [|apply linux_ports_sound]; by left
    |eapply yields_weaken; [|apply macos_ports_sound]; by left
    |].
  py_yields. right. eauto.
Qed.

End SoundPorts.

(** X9. In every table [get_listening_ports] returns, on any platform,
    a record sits under the key made of its own protocol and port, its
    protocol is a text, no key occurs twice, and the table is not empty. *)
Theorem port_records_match_their_keys (e : Py.env) (st st' : Py.state)
    (port_info : list (string * PortListener.info_value)) (name : string)
    (t : list (string * PortListener.port_entry)) :
  PortListener.get_listening_ports e st = (Py.Ok port_info, st') →
  Py.assoc name port_info = Some (PortListener.Table t) →
  t ≠ []
  ∧ NoDup t.*1
  ∧ ∀ key r, (key, r) ∈ t →
      ∃ protocol,
        PortListener.Protocol r = Py.VStr protocol
        ∧ key = protocol +:+ ":" +:+ Py.str (PortListener.Port r).
Proof.
  intros H Hname. apply listening_ports_sound in H as [H|H].
  - apply assoc_elem in Hname.
    apply (proj1 (Forall_forall _ _) H) in Hname as (t' & [= <-] & Hne & Hk & Hn).
    repeat split; try done.
    intros key r Hin. by apply (proj1 (Forall_forall _ _) Hk (key, r)).
  - destruct H as [text ->]. cbn [Py.assoc] in Hname.
    by destruct (String.eqb "error" name).
Qed.

Lemma port_records_match_their_keys_witness :
  let e := Examples.netstat_host in
  let t :=
    [ ("tcp:8080",
       {| PortListener.Protocol := Py.VStr "tcp";
          PortListener.Port := Py.VInt 8080;
          PortListener.Local_Address := Py.VStr "0.0.0.0";
          PortListener.State := Py.VStr "LISTENING";
          PortListener.PID := Py.VStr "1234";
          PortListener.Process := Py.VStr "nginx" |}) ] in
  let port_info := [("Listening Ports", PortListener.Table t)] in
  PortListener.get_listening_ports e Py.initial
  = (Py.Ok port_info, (PortListener.get_listening_ports e Py.initial).2)
  ∧ Py.assoc "Listening Ports" port_info = Some (PortListener.Table t)
  ∧ t ≠ []
  ∧ NoDup t.*1
  ∧ ∀ key r, (key, r) ∈ t →
      ∃ protocol,
        PortListener.Protocol r = Py.VStr protocol
        ∧ key = protocol +:+ ":" +:+ Py.str (PortListener.Port r).
Proof.
  cbn zeta.
  match goal with
  | |- ?eq1 ∧ ?eq2 ∧ _ =>
      assert eq1 as E1 by (vm_compute; reflexivity);
      assert eq2 as E2 by reflexivity
  end.
  split; [exact E1|]. split; [exact E2|].
  exact (port_records_match_their_keys _ _ _ _ _ _ E1 E2).
Defined.

(** X10. The loop over the lines of the Windows [netstat -ano] listing
    never replaces a record: the first line seen for a protocol and port
    decides its record, whatever the later lines say. *)
Theorem windows_netstat_keeps_first_record (lines : list string)
    (t : list (string * PortListener.port_entry)) (k : string)
    (r : PortListener.port_entry) :
  Py.assoc k t = Some r →
  Py.assoc k (foldl PortListener.windows_netstat_line t lines) = Some r.
Proof.
  revert t. induction lines as [|line lines IH]; intros t Hk; [done|].
  cbn [foldl]. by apply IH, windows_netstat_line_keeps.
Qed.

Lemma windows_netstat_keeps_first_record_witness :
  Py.assoc "TCP:80" [("TCP:80", Examples.web_record)] = Some Examples.web_record
  ∧ Py.omem "TCP:80"
      (foldl PortListener.windows_netstat_line [] [Examples.established_line]) = true
  ∧ Py.assoc "TCP:80"
      (foldl PortListener.windows_netstat_line [("TCP:80", Examples.web_record)]
         [Examples.established_line])
    = Some Examples.web_record.
Proof.
  split; [reflexivity|]. split; [vm_compute; reflexivity|].
  apply (windows_netstat_keeps_first_record [Examples.established_line]
           [("TCP:80", Examples.web_record)] "TCP:80" Examples.web_record).
  reflexivity.
Defined.

Lemma map_process_trace e r st r' st' :
  PortListener.map_process e r st = (Py.Ok r', st') →
  r' = PortListener.set_process r (PortListener.Process r')
  ∧ Py.printed st' = Py.printed st
  ∧ (if has_pid r then ∃ o, Py.calls st' = Py.calls st ++ [(tasklist r, o)]
     else r' = r ∧ Py.calls st' = Py.calls st).
Proof.
  unfold PortListener.map_process. fold (has_pid r).
  destruct (has_pid r).
  - unfold Py.try_except, Py.run. monad_unfold. fold (tasklist r).
    destruct (Py.subprocess_run e _ _) as [x|rc out] eqn:E; cbn [Py.calls Py.printed].
    + destruct (Py.catches _ x); [|done]. intros [= <- <-]. cbn.
      split; [by destruct r|]. eauto.
    + cbn [fst snd]. destruct (rc =? 0).
      * destruct (PyStr.lines _) as [|l0 [|l1 ls]];
          [intros [= <- <-]; cbn; split; [by destruct r|eauto]..|].
        destruct (PyStr.split_char _ _) as [|process rest];
          intros [= <- <-]; cbn; split; first [by destruct r | eauto].
      * intros [= <- <-]. cbn. split; [by destruct r|eauto].
  - monad_unfold. intros [= <- <-]. split; [by destruct r|done].
Qed.

(** X11. The loop that maps processes to the ports of the Windows table
    keeps the keys and their order and changes no field of a record but
    [Process]; a record whose PID is unset is left as it is; and the loop
    runs [tasklist] once for each record with a PID, in the order of the
    table, and prints nothing. *)
Theorem process_mapping_changes_only_process (e : Py.env)
    (items items' : list (string * PortListener.port_entry)) (st st' : Py.state) :
  PortListener.map_processes e items st = (Py.Ok items', st') →
  Forall2 (λ old new,
             new.1 = old.1
             ∧ new.2 = PortListener.set_process old.2 (PortListener.Process new.2)
             ∧ (has_pid old.2 = false → new = old))
    items items'
  ∧ (Py.calls st').*1
    = (Py.calls st).*1 ++ map (λ kv, tasklist kv.2) (filter (λ kv, has_pid kv.2 = true) items)
  ∧ Py.printed st' = Py.printed st.
Proof.
  revert items' st st'.
  induction items as [|[port_key port_data] rest IH]; intros items' st st';
    cbn [PortListener.map_processes].
  - monad_unfold. intros [= <- <-]. rewrite filter_nil. cbn. rewrite app_nil_r.
    by repeat constructor.
  - intros H. apply bind_ok in H as (r & st1 & Hr & H).
    apply bind_ok in H as (rest' & st2 & Hrest & H).
    monad_unfold. injection H as <- <-.
    apply map_process_trace in Hr as (Hfields & Hprinted & Hcalls).
    apply IH in Hrest as (Hall & Hcalls' & Hprinted').
    rewrite filter_cons. cbn [snd].
    split; [|split; [|congruence]].
    + constructor; [|done]. cbn. repeat split; [done|].
      intros Hpid. rewrite Hpid in Hcalls. by destruct Hcalls as [-> _].
    + rewrite Hcalls'. destruct (has_pid port_data) eqn:Hpid.
      * destruct Hcalls as [o ->]. rewrite decide_True by done.
        rewrite fmap_app. cbn. by rewrite <- app_assoc.
      * destruct Hcalls as [_ ->]. by rewrite decide_False by done.
Qed.

Lemma process_mapping_changes_only_process_witness :
  let e := Examples.tasklist_host in
  let items := [("TCP:80", Examples.web_record)] in
  let items' :=
    [("TCP:80", PortListener.set_process Examples.web_record (Py.VStr "nginx.exe"))] in
  let st' := (PortListener.map_processes e items Py.initial).2 in
  PortListener.map_processes e items Py.initial = (Py.Ok items', st')
  ∧ Forall2 (λ old new,
               new.1 = old.1
               ∧ new.2 = PortListener.set_process old.2 (PortListener.Process new.2)
               ∧ (has_pid old.2 = false → new = old))
      items items'
  ∧ (Py.calls st').*1
    = (Py.calls Py.initial).*1
      ++ map (λ kv, tasklist kv.2) (filter (λ kv, has_pid kv.2 = true) items)
  ∧ Py.printed st' = Py.printed Py.initial.
Proof.
  cbn zeta.
  match goal with
  | |- ?eq1 ∧ _ => assert eq1 as E1 by (vm_compute; reflexivity)
  end.
  split; [exact E1|].
  exact (process_mapping_changes_only_process _ _ _ _ _ E1).
Defined.

(** ** The port summary *)

Lemma count_protocols_counts t c st :
  Forall keyed t →
  ∃ c', PortListener.count_protocols t c st = (Py.Ok c', st)
        ∧ (c'.1 + c'.2 ≤ c.1 + c.2 + length t)%nat.
Proof.
  intros Ht. revert c. induction Ht as [|[k r] t (protocol & Hp & _) _ IH]; intros c;
    cbn [PortListener.count_protocols].
  - exists c. split; [done | cbn; lia].
  - cbn [snd] in Hp. rewrite Hp. cbn [PortListener.upper_of]. monad_unfold.
    match goal with
    | |- ∃ c', PortListener.count_protocols t ?c0 st = _ ∧ _ =>
        destruct (IH c0) as (c' & Hc' & Hle); exists c'; split; [done|]
    end.
    cbn [length].
    destruct (PyStr.contains "TCP" _); [cbn in Hle; lia|].
    destruct (PyStr.contains "UDP" _); cbn in Hle; lia.
Qed.

Lemma count_categories_counts ports c st :
  sound_ports ports →
  ∃ c', PortListener.count_categories ports c st = (Py.Ok c', st)
        ∧ (c'.1 + c'.2
           ≤ c.1 + c.2 + list_sum (map (λ kv, PortListener.ports_in kv.2) ports))%nat.
Proof.
  intros Hp. revert c. induction Hp as [|[name v] ports (t & Hv & _ & Ht & _) _ IH];
    intros c; cbn [PortListener.count_categories].
  - exists c. split; [done | cbn; lia].
  - cbn [snd] in Hv. subst v.
    destruct (count_protocols_counts t c st Ht) as (c1 & Hc1 & Hle1).
    destruct (IH c1) as (c' & Hc' & Hle).
    exists c'. monad_unfold. rewrite Hc1. split; [done|].
    cbn [map list_sum fold_right snd PortListener.ports_in]. unfold list_sum in Hle. lia.
Qed.

Lemma sound_ports_total ports :
  sound_ports ports →
  (length ports ≤ list_sum (map (λ kv, PortListener.ports_in kv.2) ports))%nat.
Proof.
  induction 1 as [|[name v] ports (t & Hv & Hne & _) _ IH]; [done|].
  cbn [snd] in Hv. subst v. destruct t as [|p t]; [done|].
  cbn [map list_sum fold_right snd length PortListener.ports_in].
  unfold list_sum in IH. lia.
Qed.

(** X12. On a host whose tools raise nothing but instances of
    [Exception], [get_port_summary] returns.  On an unsupported platform
    it hands back the dictionary with the ['error'] entry and runs no tool;
    otherwise it summarises the dictionary [get_listening_ports] returns:
    the categories are its keys, the TCP and UDP counts together do not
    exceed the total, and no category is empty, so the total is at least
    the number of categories. *)
Theorem port_summary_counts (e : Py.env) (st : Py.state) :
  ordinary e →
  ∃ v st',
    PortListener.get_port_summary e st = (Py.Ok v, st')
    ∧ match v with
      | PortListener.Unsummarized ports =>
          ¬ supported e
          ∧ ports = [("error",
                      PortListener.Text
                        ("Unsupported operating system: "
                           +:+ PyStr.lower (Py.platform_system e)))]
          ∧ Py.calls st' = Py.calls st
      | PortListener.Summarized s =>
          supported e
          ∧ PortListener.get_listening_ports e st = (Py.Ok (PortListener.port_details s), st')
          ∧ PortListener.categories s = (PortListener.port_details s).*1
          ∧ (PortListener.tcp_ports s + PortListener.udp_ports s
             ≤ PortListener.total_ports s)%nat
          ∧ (length (PortListener.categories s) ≤ PortListener.total_ports s)%nat
      end.
Proof.
  intros He. unfold PortListener.get_port_summary.
  destruct (decide (supported e)) as [Hs|Hs].
  - destruct (ports_return e st He Hs) as (d & st1 & Hd & _).
    pose proof (ports_supported_no_error _ _ _ _ Hs Hd) as Hne.
    pose proof (listening_ports_sound e _ _ _ Hd) as [Hsound|[text ->]]; [|done].
    destruct (count_categories_counts d (0%nat, 0%nat) st1 Hsound) as (c & Hc & Hle).
    monad_unfold. rewrite Hd. unfold Py.omem. unfold no_error in Hne. rewrite Hne, Hc.
    do 2 eexists. split; [reflexivity|]. cbn.
    repeat split; try done.
    rewrite length_map. by apply sound_ports_total.
  - monad_unfold. rewrite (ports_unsupported e st Hs). cbn.
    do 2 eexists. split; [reflexivity|]. done.
Qed.

Lemma netstat_host_ordinary : ordinary Examples.netstat_host.
Proof.
  split.
  - intros n argv x H. cbn in H. unfold Examples.absent, Examples.missing in H.
    repeat match type of H with
           | context [if ?c then _ else _] => destruct c
           end; inversion H; reflexivity.
  - intros text x H. cbn in H. inversion H. reflexivity.
Qed.

Lemma port_summary_counts_witness :
  ordinary Examples.netstat_host
  ∧ ∃ v st',
      PortListener.get_port_summary Examples.netstat_host Py.initial = (Py.Ok v, st')
      ∧ match v with
        | PortListener.Unsummarized ports =>
            ¬ supported Examples.netstat_host
            ∧ ports = [("error",
                        PortListener.Text
                          ("Unsupported operating system: "
                             +:+ PyStr.lower (Py.platform_system Examples.netstat_host)))]
            ∧ Py.calls st' = Py.calls Py.initial
        | PortListener.Summarized s =>
            supported Examples.netstat_host
            ∧ PortListener.get_listening_ports Examples.netstat_host Py.initial
              = (Py.Ok (PortListener.port_details s), st')
            ∧ PortListener.categories s = (PortListener.port_details s).*1
            ∧ (PortListener.tcp_ports s + PortListener.udp_ports s
               ≤ PortListener.total_ports s)%nat
            ∧ (length (PortListener.categories s) ≤ PortListener.total_ports s)%nat
        end.
Proof.
  split; [apply netstat_host_ordinary|].
  apply (port_summary_counts Examples.netstat_host Py.initial netstat_host_ordinary).
Defined.

Lemma count_protocols_filter t c st c' st' :
  PortListener.count_protocols t c st = (Py.Ok c', st') →
  c'.1 = (c.1 + length (filter (λ r, counted_tcp r = true) t.*2))%nat
  ∧ c'.2 = (c.2 + length (filter (λ r, counted_udp r = true) t.*2))%nat
  ∧ st' = st.
Proof.
  revert c. induction t as [|[k r] t IH]; intros c; cbn [PortListener.count_protocols].
  - monad_unfold. intros [= <- <-]. rewrite fmap_nil, !filter_nil. cbn [length].
    repeat split; first [lia | done].
  - intros H. apply bind_ok in H as (protocol & st1 & Hup & H).
    unfold PortListener.upper_of in Hup.
    destruct (PortListener.Protocol r) as [| | | |p| |] eqn:Hp; try done.
    monad_unfold. injection Hup as <- <-.
    assert (counted_tcp r = PyStr.contains "TCP" (PyStr.upper p)) as Et
      by (unfold counted_tcp; by rewrite Hp).
    assert (counted_udp r
            = negb (PyStr.contains "TCP" (PyStr.upper p))
              && PyStr.contains "UDP" (PyStr.upper p)) as Eu
      by (unfold counted_udp; by rewrite Hp).
    apply IH in H as (H1 & H2 & H3). rewrite fmap_cons, !filter_cons. cbn [snd].
    destruct (PyStr.contains "TCP" (PyStr.upper p)); cbn [negb andb] in *.
    + rewrite decide_True, decide_False by (by rewrite ?Et, ?Eu).
      cbn [length fst snd] in *. repeat split; first [lia | done].
    + destruct (PyStr.contains "UDP" (PyStr.upper p)).
      * rewrite decide_False, decide_True by (by rewrite ?Et, ?Eu).
        cbn [length fst snd] in *. repeat split; first [lia | done].
      * rewrite !decide_False by (by rewrite ?Et, ?Eu).
        cbn [length fst snd] in *. repeat split; first [lia | done].
Qed.

Lemma count_categories_filter ports c st c' st' :
  PortListener.count_categories ports c st = (Py.Ok c', st') →
  c'.1 = (c.1 + length (filter (λ r, counted_tcp r = true) (records ports)))%nat
  ∧ c'.2 = (c.2 + length (filter (λ r, counted_udp r = true) (records ports)))%nat
  ∧ st' = st.
Proof.
  revert c st. induction ports as [|[name [t|text]] ports IH]; intros c st;
    cbn [PortListener.count_categories].
  - monad_unfold. intros [= <- <-]. unfold records. cbn [flat_map].
    rewrite !filter_nil. cbn [length]. repeat split; first [lia | done].
  - intros H. apply bind_ok in H as (c1 & st1 & H1 & H).
    apply count_protocols_filter in H1 as (H11 & H12 & H13).
    apply IH in H as (H21 & H22 & H23).
    unfold records in *. cbn [flat_map snd]. rewrite !filter_app, !length_app.
    repeat split; first [lia | congruence].
  - intros H%IH. done.
Qed.

Lemma ports_in_records ports :
  list_sum (map (λ kv, PortListener.ports_in kv.2) ports) = length (records ports).
Proof.
  induction ports as [|[name [t|text]] ports IH]; [done|..];
    unfold records in *; cbn [map list_sum fold_right flat_map snd PortListener.ports_in];
    unfold list_sum in IH; rewrite ?length_app, ?length_fmap, IH; done.
Qed.

(** X13. What the counts of the port summary count: the total is the
    number of records of all the tables, [tcp_ports] the number of records
    whose protocol holds [TCP] whatever the case of its letters, so that the
    protocol [tcp] of a Linux listing counts, and [udp_ports] the number of
    the others whose protocol holds [UDP]. *)
Theorem port_summary_counts_by_protocol (e : Py.env) (st st' : Py.state)
    (s : PortListener.summary) :
  PortListener.get_port_summary e st = (Py.Ok (PortListener.Summarized s), st') →
  let found := records (PortListener.port_details s) in
  PortListener.total_ports s = length found
  ∧ PortListener.tcp_ports s = length (filter (λ r, counted_tcp r = true) found)
  ∧ PortListener.udp_ports s = length (filter (λ r, counted_udp r = true) found).
Proof.
  unfold PortListener.get_port_summary. intros H.
  apply bind_ok in H as (ports & st1 & _ & H).
  destruct (Py.omem "error" ports); [by monad_unfold|].
  apply bind_ok in H as (c & st2 & Hc & H). monad_unfold. injection H as <- <-.
  apply count_categories_filter in Hc as (H1 & H2 & _). cbn.
  split; [apply ports_in_records|]. done.
Qed.

Lemma port_summary_counts_by_protocol_witness :
  let e := Examples.netstat_host in
  let record :=
    {| PortListener.Protocol := Py.VStr "tcp";
       PortListener.Port := Py.VInt 8080;
       PortListener.Local_Address := Py.VStr "0.0.0.0";
       PortListener.State := Py.VStr "LISTENING";
       PortListener.PID := Py.VStr "1234";
       PortListener.Process := Py.VStr "nginx" |} in
  let ports := [("Listening Ports", PortListener.Table [("tcp:8080", record)])] in
  let s := PortListener.Summary 1 1 0 ["Listening Ports"] ports in
  PortListener.get_port_summary e Py.initial
  = (Py.Ok (PortListener.Summarized s), (PortListener.get_port_summary e Py.initial).2)
  ∧ counted_tcp record = true
  ∧ PortListener.total_ports s = length (records ports)
  ∧ PortListener.tcp_ports s = length (filter (λ r, counted_tcp r = true) (records ports))
  ∧ PortListener.udp_ports s = length (filter (λ r, counted_udp r = true) (records ports)).
Proof.
  cbn zeta.
  match goal with
  | |- ?eq1 ∧ _ => assert eq1 as E1 by (vm_compute; reflexivity)
  end.
  split; [exact E1|]. split; [reflexivity|].
  exact (port_summary_counts_by_protocol _ _ _ _ E1).
Defined.

(** ** Trimmed names *)

Lemma rstrip_idem s : PyStr.rstrip (PyStr.rstrip s) = PyStr.rstrip s.
Proof.
  induction s as [|c s IH]; [done|]. cbn [PyStr.rstrip].
  destruct (PyStr.rstrip s) as [|b r] eqn:E.
  - destruct (PyStr.is_space c) eqn:Hc; [done|]. cbn. by rewrite Hc.
  - cbn [PyStr.rstrip]. cbn [PyStr.rstrip] in IH.
    destruct (match PyStr.rstrip r with
              | EmptyString => if PyStr.is_space b then EmptyString else String b EmptyString
              | String a s0 => String b (String a s0)
              end); [done|]. by injection IH as -> ->.
Qed.

Lemma lstrip_head s :
  PyStr.lstrip s = EmptyString
  ∨ ∃ c t, PyStr.lstrip s = String c t ∧ PyStr.is_space c = false.
Proof.
  induction s as [|c s IH]; [by left|]. cbn [PyStr.lstrip].
  destruct (PyStr.is_space c) eqn:Hc; [done|]. right. eauto.
Qed.

Lemma strip_idem s : PyStr.strip (PyStr.strip s) = PyStr.strip s.
Proof.
  unfold PyStr.strip. destruct (lstrip_head s) as [->|(c & t & -> & Hc)]; [done|].
  assert (PyStr.lstrip (PyStr.rstrip (String c t)) = PyStr.rstrip (String c t)) as ->.
  { cbn [PyStr.rstrip]. destruct (PyStr.rstrip t); rewrite ?Hc; cbn [PyStr.lstrip];
      by rewrite Hc. }
  apply rstrip_idem.
Qed.

Lemma trimmed_insert name v d :
  PyStr.nonempty (PyStr.strip name) = true → trimmed d →
  trimmed (<[PyStr.strip name := v]> d).
Proof.
  intros Hn Hd k Hk. destruct (decide (PyStr.strip name = k)) as [<-|Hne].
  - split; [by destruct (PyStr.strip name) | apply strip_idem].
  - rewrite lookup_insert_ne in Hk by done. by apply Hd.
Qed.

Lemma wmic_line_trimmed d line : trimmed d → trimmed (Windows.wmic_line d line).
Proof.
  intros Hd. unfold Windows.wmic_line. destruct (_ && _); [|done].
  destruct (PyStr.split_char "," line) as [|? [|name [|version rest]]]; try done.
  destruct (PyStr.nonempty (PyStr.strip name)) eqn:Hn; [|done]. cbn [andb].
  destruct (PyStr.nonempty (PyStr.strip version)); [|done]. by apply trimmed_insert.
Qed.

Lemma registry_entry_trimmed d item : trimmed d → trimmed (Windows.registry_entry d item).
Proof.
  intros Hd. unfold Windows.registry_entry.
  destruct (Py.get item "DisplayName" Py.VNone); try done.
  destruct (PyStr.nonempty s); [|done].
  destruct (PyStr.nonempty (PyStr.strip s)) eqn:Hn; [|done]. cbn [andb].
  destruct (negb _); [|done]. by apply trimmed_insert.
Qed.

Lemma each_object_trimmed entry d data :
  (∀ d item, trimmed d → trimmed (entry d item)) →
  trimmed d → trimmed (Windows.each_object entry d data).
Proof.
  intros Hentry Hd. destruct data; cbn [Windows.each_object]; auto.
  revert d Hd. induction l as [|item l IH]; intros d Hd; [done|].
  cbn [foldl]. apply IH. destruct item; auto.
Qed.

Lemma trimmed_foldl (step : gmap string string → string → gmap string string) lines :
  (∀ d line, trimmed d → trimmed (step d line)) →
  ∀ d, trimmed d → trimmed (foldl step d lines).
Proof. intros Hstep. induction lines as [|l ls IH]; intros d Hd; cbn; auto. Qed.

Lemma wmi_method_trimmed e d : trimmed d → yields trimmed (Windows.wmi_method e d).
Proof.
  intros Hd. unfold Windows.wmi_method.
  py_yields; first [done | apply trimmed_foldl; auto using wmic_line_trimmed].
Qed.

Lemma registry_method_trimmed e path d :
  trimmed d → yields trimmed (Windows.registry_method e path d).
Proof.
  intros Hd. unfold Windows.registry_method, Windows.json_method.
  py_yields; first [done | apply each_object_trimmed; auto using registry_entry_trimmed].
Qed.

Lemma registry_loop_trimmed e paths d :
  trimmed d → yields trimmed (Windows.registry_loop e paths d).
Proof.
  revert d. induction paths as [|path paths IH]; intros d Hd; cbn [Windows.registry_loop].
  - by py_yields.
  - eapply yields_bind_with; [by apply registry_method_trimmed|]. intros d' Hd'. by apply IH.
Qed.

(** X14. After the WMI scan and the three registry scans of
    [get_windows_software], every name recorded is non-empty and has no
    whitespace at either end. *)
Theorem wmi_and_registry_names_are_trimmed (e : Py.env) (st st1 st2 : Py.state)
    (d1 d2 : gmap string string) (name : string) :
  Windows.wmi_method e ∅ st = (Py.Ok d1, st1) →
  Windows.registry_loop e Windows.registry_paths d1 st1 = (Py.Ok d2, st2) →
  is_Some (d2 !! name) →
  name ≠ EmptyString ∧ PyStr.strip name = name.
Proof.
  intros H1 H2. eapply registry_loop_trimmed; [|exact H2].
  eapply wmi_method_trimmed; [|exact H1]. intros k [? Hk]. by rewrite lookup_empty in Hk.
Qed.

Lemma wmi_and_registry_names_are_trimmed_witness :
  let e := Examples.windows_host in
  let d1 : gmap string string := ∅ in
  let d2 : gmap string string := {["Git" := "2.42.0"]} in
  let st1 := (Windows.wmi_method e ∅ Py.initial).2 in
  Windows.wmi_method e ∅ Py.initial = (Py.Ok d1, st1)
  ∧ Windows.registry_loop e Windows.registry_paths d1 st1
    = (Py.Ok d2, (Windows.registry_loop e Windows.registry_paths d1 st1).2)
  ∧ is_Some (d2 !! "Git")
  ∧ "Git" ≠ EmptyString ∧ PyStr.strip "Git" = "Git".
Proof.
  cbn zeta.
  match goal with
  | |- ?eq1 ∧ ?eq2 ∧ ?some ∧ _ =>
      assert eq1 as E1 by (vm_compute; reflexivity);
      assert eq2 as E2 by (vm_compute; reflexivity);
      assert some as E3 by (exists "2.42.0"; apply lookup_singleton_eq)
  end.
  split; [exact E1|]. split; [exact E2|]. split; [exact E3|].
  exact (wmi_and_registry_names_are_trimmed _ _ _ _ _ _ _ E1 E2 E3).
Defined.

(** ** The software summaries *)

Lemma filter_length_le {A} (P Q : A → Prop) `{!∀ x, Decision (P x)} `{!∀ x, Decision (Q x)}
    (l : list A) :
  (∀ x, P x → Q x) → (length (filter P l) ≤ length (filter Q l))%nat.
Proof.
  intros HPQ. induction l as [|x l IH]; [done|]. rewrite !filter_cons.
  destruct (decide (P x)) as [HP|HP].
  - rewrite decide_True by auto. cbn. lia.
  - destruct (decide (Q x)); cbn; lia.
Qed.

Lemma filter_length_split {A} (P : A → bool) (l : list A) :
  length l
  = (length (filter (λ x, P x = true) l) + length (filter (λ x, P x = false) l))%nat.
Proof.
  induction l as [|x l IH]; [done|]. rewrite !filter_cons. cbn [length]. rewrite IH.
  destruct (P x); repeat case_decide; try done; cbn [length]; lia.
Qed.

(** X15. The Windows summary splits the records in two: the total is the
    number of Python packages plus the number counted as system software.
    The store applications are counted among the system software, and a
    second time under [store_apps]. *)
Theorem windows_summary_counts (software : gmap string string) :
  let s := Windows.summarize software in
  Windows.total_count s
  = (Windows.python_packages s + Windows.system_software s)%nat
  ∧ (Windows.store_apps s ≤ Windows.system_software s)%nat
  ∧ Windows.store_apps s
    = size (filter (λ kv, PyStr.startswith "Store:" kv.1 = true) software).
Proof.
  cbn. repeat split.
  - rewrite <- filter_length_split. unfold Py.keys.
    by rewrite length_fmap, length_map_to_list.
  - apply filter_length_le. intros k Hk.
    destruct (PyStr.startswith "Python:" k) eqn:E; [|done].
    by rewrite (prefix_clash "S" "tore:" "P" "ython:" k) in E.
  - apply count_keys.
Qed.

Lemma prefix_excludes p q k :
  PyStr.startswith p q = false → PyStr.startswith q p = false →
  PyStr.startswith p k = true → PyStr.startswith q k = false.
Proof.
  intros Hpq Hqp Hp. destruct (PyStr.startswith q k) eqn:Hq; [|done].
  destruct (prefix_conflict p q k Hp Hq); congruence.
Qed.

Lemma macos_categories_partition (l : list string) :
  length l
  = (length (filter (λ k, PyStr.startswith "Python:" k = true) l)
     + length (filter (λ k, Linux.startswith_any
                              ["Python:"; "Homebrew:"; "MacPorts:"; "App Store:"] k = false) l)
     + length (filter (λ k, PyStr.startswith "Homebrew:" k = true) l)
     + length (filter (λ k, PyStr.startswith "MacPorts:" k = true) l)
     + length (filter (λ k, PyStr.startswith "App Store:" k = true) l))%nat.
Proof.
  induction l as [|k l IH]; [done|].
  rewrite !filter_cons. cbn [length]. rewrite IH. clear IH.
  unfold Linux.startswith_any. cbn [existsb].
  destruct (PyStr.startswith "Python:" k) eqn:EP.
  - rewrite (prefix_excludes "Python:" "Homebrew:" k),
      (prefix_excludes "Python:" "MacPorts:" k),
      (prefix_excludes "Python:" "App Store:" k) by done.
    repeat case_decide; try done; cbn [length]; lia.
  - destruct (PyStr.startswith "Homebrew:" k) eqn:EH.
    + rewrite (prefix_excludes "Homebrew:" "MacPorts:" k),
        (prefix_excludes "Homebrew:" "App Store:" k) by done.
      repeat case_decide; try done; cbn [length]; lia.
    + destruct (PyStr.startswith "MacPorts:" k) eqn:EM.
      * rewrite (prefix_excludes "MacPorts:" "App Store:" k) by done.
        repeat case_decide; try done; cbn [length]; lia.
      * destruct (PyStr.startswith "App Store:" k) eqn:EA;
          repeat case_decide; try done; cbn [length]; lia.
Qed.

(** X16. The five counts of the macOS summary add up to the total.  A
    key [Homebrew Cask: ...] does not start with [Homebrew:], so the cask
    records are counted among the system applications. *)
Theorem macos_summary_counts (software : gmap string string) :
  let s := Macos.summarize software in
  Macos.total_count s
  = (Macos.python_packages s + Macos.system_applications s + Macos.homebrew_packages s
     + Macos.macports_packages s + Macos.app_store_apps s)%nat
  ∧ ∀ casks : gmap string string,
      casks ⊆ software → keys_start "Homebrew Cask: " casks →
      (size casks ≤ Macos.system_applications s)%nat.
Proof.
  cbn. split.
  - rewrite <- macos_categories_partition. unfold Py.keys.
    by rewrite length_fmap, length_map_to_list.
  - intros casks Hsub Hkeys. rewrite count_keys. apply map_subseteq_size.
    apply map_subseteq_spec. intros k v Hk.
    apply map_lookup_filter_Some. split; [by eapply lookup_weaken|].
    assert (PyStr.startswith "Homebrew Cask: " k = true) as Hc by (apply Hkeys; eauto).
    cbn [fst]. unfold Linux.startswith_any. cbn [existsb].
    by rewrite (prefix_excludes "Homebrew Cask: " "Python:" k),
      (prefix_excludes "Homebrew Cask: " "Homebrew:" k),
      (prefix_excludes "Homebrew Cask: " "MacPorts:" k),
      (prefix_excludes "Homebrew Cask: " "App Store:" k).
Qed.

Lemma macos_summary_counts_witness :
  let casks : gmap string string := {["Homebrew Cask: firefox" := "120.0"]} in
  casks ⊆ Examples.mac_records
  ∧ keys_start "Homebrew Cask: " casks
  ∧ Macos.homebrew_packages (Macos.summarize Examples.mac_records) = 1%nat
  ∧ Macos.system_applications (Macos.summarize Examples.mac_records) = 2%nat
  ∧ (size casks ≤ Macos.system_applications (Macos.summarize Examples.mac_records))%nat.
Proof.
  cbn zeta.
  assert (({["Homebrew Cask: firefox" := "120.0"]} : gmap string string)
          ⊆ Examples.mac_records) as Hsub.
  { apply map_singleton_subseteq_l. vm_compute. reflexivity. }
  assert (keys_start "Homebrew Cask: "
            ({["Homebrew Cask: firefox" := "120.0"]} : gmap string string)) as Hkeys.
  { intros k [v Hk]. apply lookup_singleton_Some in Hk as [<- _]. reflexivity. }
  split; [exact Hsub|]. split; [exact Hkeys|].
  split; [vm_compute; reflexivity|]. split; [vm_compute; reflexivity|].
  exact (proj2 (macos_summary_counts Examples.mac_records) _ Hsub Hkeys).
Defined.

(** ** The firmware summary *)

Lemma populated_store_devices name devices fi :
  populated fi → populated (Firmware.store_devices name devices fi).
Proof.
  intros Hfi. unfold Firmware.store_devices. destruct devices as [|dev devices]; [done|].
  apply oset_Forall; [cbn; lia | done].
Qed.

Lemma populated_store_fields name fields fi :
  populated fi → populated (Firmware.store_fields name fields fi).
Proof.
  intros Hfi. unfold Firmware.store_fields. destruct fields as [|f fields]; [done|].
  apply oset_Forall; [cbn; lia | done].
Qed.

Section Populated.
Context (e : Py.env).

Lemma use_fields_populated name fields data fi :
  fields ≠ [] → populated fi → yields populated (Firmware.use_fields name fields data fi).
Proof.
  intros Hf Hfi. unfold Firmware.use_fields. py_yields; try done.
  apply oset_Forall; [|done]. cbn. unfold Firmware.attributes. rewrite length_map.
  destruct fields; [done | cbn; lia].
Qed.

Lemma use_devices_populated name name_key label fields data fi :
  populated fi →
  yields populated (Firmware.use_devices name name_key label fields data fi).
Proof.
  intros Hfi. unfold Firmware.use_devices. py_yields. by apply populated_store_devices.
Qed.

Lemma json_probe_populated announce script use parse_failed scan_failed fi :
  (∀ data fi, populated fi → yields populated (use data fi)) → populated fi →
  yields populated (Firmware.json_probe e announce script use parse_failed scan_failed fi).
Proof.
  intros Huse Hfi. unfold Firmware.json_probe. py_yields; first [done | by apply Huse].
Qed.

Lemma text_probe_populated announce argv use failed fi :
  (∀ out fi, populated fi → populated (use out fi)) → populated fi →
  yields populated (Firmware.text_probe e announce argv use failed fi).
Proof.
  intros Huse Hfi. unfold Firmware.text_probe. py_yields; first [done | by apply Huse].
Qed.

Lemma profiler_probe_populated announce data_type use parse_failed scan_failed fi :
  (∀ data fi, populated fi → yields populated (use data fi)) → populated fi →
  yields populated
    (Firmware.profiler_probe e announce data_type use parse_failed scan_failed fi).
Proof.
  intros Huse Hfi. unfold Firmware.profiler_probe.
  py_yields; first [done | by apply Huse].
Qed.

Lemma use_hardware_populated data fi :
  populated fi → yields populated (Firmware.use_hardware data fi).
Proof.
  intros Hfi. unfold Firmware.use_hardware. py_yields; try done.
  apply oset_Forall; [cbn; lia | done].
Qed.

Lemma use_storage_populated data fi :
  populated fi → yields populated (Firmware.use_storage data fi).
Proof.
  intros Hfi. unfold Firmware.use_storage. py_yields. by apply populated_store_devices.
Qed.

Lemma windows_firmware_populated : yields populated (Firmware.get_windows_firmware e).
Proof.
  unfold Firmware.get_windows_firmware.
  repeat (eapply yields_bind_with;
          [apply json_probe_populated;
           [intros; first [by apply use_fields_populated | by apply use_devices_populated]
           |first [done | constructor]]
          |intros ? ?]).
  apply json_probe_populated; [|done]. intros. by apply use_devices_populated.
Qed.

Lemma linux_firmware_populated : yields populated (Firmware.get_linux_firmware e).
Proof.
  unfold Firmware.get_linux_firmware.
  repeat (eapply yields_bind_with;
          [apply text_probe_populated;
           [intros;
            first [by apply populated_store_fields | by apply populated_store_devices]
           |first [done | constructor]]
          |intros ? ?]).
  apply text_probe_populated; [|done]. intros. by apply populated_store_devices.
Qed.

Lemma macos_firmware_populated : yields populated (Firmware.get_macos_firmware e).
Proof.
  unfold Firmware.get_macos_firmware.
  eapply yields_bind_with.
  { apply profiler_probe_populated; [|constructor]. intros. by apply use_hardware_populated. }
  intros fi Hfi. apply profiler_probe_populated; [|done].
  intros. by apply use_storage_populated.
Qed.

Lemma firmware_info_populated : yields populated (Firmware.get_firmware_info e).
Proof.
  unfold Firmware.get_firmware_info. apply yields_bind. intros _.
  repeat match goal with |- yields _ (if ?c then _ else _) => destruct c end;
    auto using windows_firmware_populated, linux_firmware_populated,
      macos_firmware_populated.
  py_yields. repeat constructor.
Qed.

End Populated.

Lemma populated_total firmware :
  populated firmware →
  (length firmware ≤ list_sum (map (λ kv, Firmware.components kv.2) firmware))%nat.
Proof.
  induction 1 as [|kv firmware Hkv _ IH]; [done|].
  cbn [map list_sum fold_right length]. unfold list_sum in IH. lia.
Qed.

Lemma firmware_host_ordinary : ordinary Examples.firmware_host.
Proof.
  split.
  - intros n argv x H. cbn in H. unfold Examples.absent, Examples.missing in H.
    repeat match type of H with
           | context [if ?c then _ else _] => destruct c
           end; inversion H; reflexivity.
  - intros text x H. cbn in H. inversion H. reflexivity.
Qed.

(** X18. On a host whose tools raise nothing but instances of
    [Exception], [get_firmware_summary] returns.  On an unsupported
    platform it hands back the dictionary with the ['error'] entry and runs
    no tool; otherwise it summarises the dictionary [get_firmware_info]
    returns: the categories are its keys, the total is the sum of the
    components of the categories, and no category is empty, so the number
    of components is at least the number of categories. *)
Theorem firmware_summary_counts (e : Py.env) (st : Py.state) :
  ordinary e →
  ∃ v st',
    Firmware.get_firmware_summary e st = (Py.Ok v, st')
    ∧ match v with
      | Firmware.Unsummarized firmware =>
          ¬ supported e
          ∧ firmware = [("error",
                         Firmware.Text
                           ("Unsupported operating system: "
                              +:+ PyStr.lower (Py.platform_system e)))]
          ∧ Py.calls st' = Py.calls st
      | Firmware.Summarized s =>
          supported e
          ∧ Firmware.get_firmware_info e st = (Py.Ok (Firmware.firmware_details s), st')
          ∧ Firmware.categories s = (Firmware.firmware_details s).*1
          ∧ Firmware.total_components s
            = list_sum (map (λ kv, Firmware.components kv.2) (Firmware.firmware_details s))
          ∧ populated (Firmware.firmware_details s)
          ∧ (length (Firmware.categories s) ≤ Firmware.total_components s)%nat
      end.
Proof.
  intros He. unfold Firmware.get_firmware_summary.
  destruct (decide (supported e)) as [Hs|Hs].
  - destruct (firmware_returns e st He Hs) as (d & st1 & Hd & _).
    pose proof (firmware_supported_no_error _ _ _ _ Hs Hd) as Hne.
    pose proof (firmware_info_populated e _ _ _ Hd) as Hpop.
    monad_unfold. rewrite Hd. unfold Py.omem. unfold no_error in Hne. rewrite Hne.
    do 2 eexists. split; [reflexivity|]. cbn.
    repeat split; try done.
    rewrite length_map. by apply populated_total.
  - monad_unfold. rewrite (firmware_unsupported e st Hs). cbn.
    do 2 eexists. split; [reflexivity|]. done.
Qed.

Lemma firmware_summary_counts_witness :
  let e := Examples.firmware_host in
  ordinary e
  ∧ (Firmware.get_firmware_summary e Py.initial).1
    = Py.Ok
        (Firmware.Summarized
           {| Firmware.total_components := 4;
              Firmware.categories := ["BIOS/UEFI"; "Storage Devices"];
              Firmware.firmware_details :=
                [ ("BIOS/UEFI",
                   Firmware.Fields
                     [ ("Manufacturer", Py.VStr "LENOVO");
                       ("Version", Py.VStr "N2HET63W (1.46 )");
                       ("Release Date", Py.VStr "06/01/2021") ]);
                  ("Storage Devices",
                   Firmware.Devices
                     [ (Py.VStr "Samsung_SSD",
                        [ ("Serial", Py.VStr "S4EWNX0N");
                          ("Firmware Revision", Py.VStr "2B6Q") ]) ]) ] |})
  ∧ ∃ v st',
      Firmware.get_firmware_summary e Py.initial = (Py.Ok v, st')
      ∧ match v with
        | Firmware.Unsummarized firmware =>
            ¬ supported e
            ∧ firmware = [("error",
                           Firmware.Text
                             ("Unsupported operating system: "
                                +:+ PyStr.lower (Py.platform_system e)))]
            ∧ Py.calls st' = Py.calls Py.initial
        | Firmware.Summarized s =>
            supported e
            ∧ Firmware.get_firmware_info e Py.initial
              = (Py.Ok (Firmware.firmware_details s), st')
            ∧ Firmware.categories s = (Firmware.firmware_details s).*1
            ∧ Firmware.total_components s
              = list_sum (map (λ kv, Firmware.components kv.2) (Firmware.firmware_details s))
            ∧ populated (Firmware.firmware_details s)
            ∧ (length (Firmware.categories s) ≤ Firmware.total_components s)%nat
        end.
Proof.
  cbn zeta. split; [apply firmware_host_ordinary|].
  split; [vm_compute; reflexivity|].
  apply (firmware_summary_counts Examples.firmware_host Py.initial firmware_host_ordinary).
Defined.

(** ** What escapes a collector *)

Lemma only_interrupts_ret {A} (a : A) : only_interrupts (mret a).
Proof. by intros st x st'. Qed.

Lemma only_interrupts_print line : only_interrupts (Py.print line).
Proof. by intros st x st'. Qed.

Lemma only_interrupts_bind {A B} (m : Py.M A) (k : A → Py.M B) :
  only_interrupts m → (∀ a, only_interrupts (k a)) → only_interrupts (m ≫= k).
Proof.
  intros Hm Hk st x st'. monad_unfold.
  destruct (m st) as [[a|y] st1] eqn:E.
  - apply Hk.
  - intros [= <- <-]. by eapply Hm.
Qed.

Lemma only_interrupts_try {A} (body : Py.M A) handler :
  (∀ x, only_interrupts (handler x)) →
  only_interrupts (Py.try_except body [Py.Exception] handler).
Proof.
  intros Hh st x st'. unfold Py.try_except.
  destruct (body st) as [[a|y] st1]; [done|].
  destruct (Py.catches [Py.Exception] y) eqn:E.
  - apply Hh.
  - intros [= <- <-]. unfold is_exception. by rewrite E.
Qed.

Ltac py_interrupts :=
  repeat (intros; cbn beta;
    lazymatch goal with
    | |- only_interrupts (mret _) => apply only_interrupts_ret
    | |- only_interrupts (Py.print _) => apply only_interrupts_print
    | |- only_interrupts (mbind _ _) => apply only_interrupts_bind
    | |- only_interrupts (Py.try_except _ [Py.Exception] _) => apply only_interrupts_try
    | |- only_interrupts (if ?c then _ else _) => destruct c
    | |- only_interrupts (match ?c with _ => _ end) => destruct c
    | |- only_interrupts _ => solve [eauto]
    end).

Section Interrupts.
Context (e : Py.env).

Lemma package_manager_loop_interrupts pms software_list :
  only_interrupts (Linux.package_manager_loop e pms software_list).
Proof.
  induction pms as [|[pm_name command] rest IH]; cbn [Linux.package_manager_loop].
  - py_interrupts.
  - apply only_interrupts_bind; [unfold Linux.try_package_manager; py_interrupts|].
    intros [d|]; [py_interrupts | apply IH].
Qed.

Lemma linux_software_interrupts : only_interrupts (Linux.get_installed_software e).
Proof.
  unfold Linux.get_installed_software, Linux.get_linux_software, Linux.get_snap_packages,
    Linux.get_flatpak_packages, Linux.get_python_packages.
  pose proof package_manager_loop_interrupts. py_interrupts.
Qed.

Lemma registry_loop_interrupts paths software_list :
  only_interrupts (Windows.registry_loop e paths software_list).
Proof.
  revert software_list.
  induction paths as [|p rest IH]; intros software_list; cbn [Windows.registry_loop].
  - py_interrupts.
  - apply only_interrupts_bind; [|apply IH].
    unfold Windows.registry_method, Windows.json_method. py_interrupts.
Qed.

Lemma windows_software_interrupts : only_interrupts (Windows.get_installed_software e).
Proof.
  unfold Windows.get_installed_software, Windows.get_windows_software,
    Windows.get_python_packages, Linux.get_python_packages, Windows.wmi_method,
    Windows.package_method, Windows.appx_method, Windows.json_method.
  pose proof registry_loop_interrupts. py_interrupts.
Qed.

Lemma macos_software_interrupts : only_interrupts (Macos.get_installed_software e).
Proof.
  unfold Macos.get_installed_software, Macos.get_macos_applications,
    Macos.get_homebrew_packages, Macos.get_homebrew_cask_packages,
    Macos.get_macports_packages, Macos.get_app_store_apps, Macos.get_python_packages,
    Linux.get_python_packages, Macos.silent_probe.
  py_interrupts.
Qed.

Lemma listening_ports_interrupts : only_interrupts (PortListener.get_listening_ports e).
Proof.
  unfold PortListener.get_listening_ports, PortListener.get_windows_ports,
    PortListener.get_linux_ports, PortListener.get_macos_ports, PortListener.text_scan,
    PortListener.process_mapping, PortListener.powershell_scan.
  py_interrupts.
Qed.

Lemma firmware_info_interrupts : only_interrupts (Firmware.get_firmware_info e).
Proof.
  unfold Firmware.get_firmware_info, Firmware.get_windows_firmware,
    Firmware.get_linux_firmware, Firmware.get_macos_firmware, Firmware.json_probe,
    Firmware.text_probe, Firmware.profiler_probe.
  py_interrupts.
Qed.

End Interrupts.

Lemma only_interrupts_bind_with {A B} (Q : A → Prop) (m : Py.M A) (k : A → Py.M B) :
  yields Q m → only_interrupts m → (∀ a, Q a → only_interrupts (k a)) →
  only_interrupts (m ≫= k).
Proof.
  intros HQ Hm Hk st x st'. monad_unfold.
  destruct (m st) as [[a|y] st1] eqn:E.
  - apply Hk. by eapply HQ.
  - intros [= <- <-]. by eapply Hm.
Qed.

Lemma port_summary_interrupts e : only_interrupts (PortListener.get_port_summary e).
Proof.
  unfold PortListener.get_port_summary.
  eapply only_interrupts_bind_with;
    [apply listening_ports_sound | apply listening_ports_interrupts |].
  intros ports [Hsound|[text ->]]; [|by intros st x st'].
  destruct (Py.omem "error" ports); [py_interrupts|].
  intros st x st'. monad_unfold.
  destruct (count_categories_counts ports (0%nat, 0%nat) st Hsound) as (c & -> & _).
  done.
Qed.

Lemma firmware_summary_interrupts e : only_interrupts (Firmware.get_firmware_summary e).
Proof.
  unfold Firmware.get_firmware_summary. pose proof (firmware_info_interrupts e).
  py_interrupts.
Qed.

(** X19. On any host, whatever a platform collector of software, the
    port scan, the firmware scan or one of their two summaries raises is no
    instance of [Exception]: every such error of a tool or of the decoding
    is caught on the way.  What is not an [Exception], a
    [KeyboardInterrupt] say, is passed on: raised by [dpkg -l], it ends
    the Linux collection. *)
Theorem collectors_let_no_exception_escape (e : Py.env) :
  (only_interrupts (Linux.get_installed_software e)
   ∧ only_interrupts (Windows.get_installed_software e)
   ∧ only_interrupts (Macos.get_installed_software e)
   ∧ only_interrupts (PortListener.get_listening_ports e)
   ∧ only_interrupts (PortListener.get_port_summary e)
   ∧ only_interrupts (Firmware.get_firmware_info e)
   ∧ only_interrupts (Firmware.get_firmware_summary e))
  ∧ ∀ st x,
      Py.subprocess_run e (length (Py.calls st)) ["dpkg"; "-l"] = Py.Raised x →
      ¬ is_exception x →
      ∃ st', Linux.get_installed_software e st = (Py.Raise x, st').
Proof.
  split.
  - auto 10 using linux_software_interrupts, windows_software_interrupts,
      macos_software_interrupts, listening_ports_interrupts, firmware_info_interrupts,
      port_summary_interrupts, firmware_summary_interrupts.
  - intros st x Hrun Hx.
    unfold Linux.get_installed_software, Linux.get_linux_software.
    cbn [Linux.package_manager_loop Linux.package_managers].
    unfold Linux.try_package_manager, Py.try_except, Py.run. monad_unfold.
    cbn [Py.calls Py.printed]. rewrite Hrun.
    unfold is_exception in Hx. apply not_true_is_false in Hx. rewrite Hx. eauto.
Qed.

Lemma collectors_let_no_exception_escape_witness :
  let x := Py.Exn Py.KeyboardInterrupt EmptyString in
  Py.subprocess_run Examples.interrupted (length (Py.calls Py.initial)) ["dpkg"; "-l"]
  = Py.Raised x
  ∧ ¬ is_exception x
  ∧ ∃ st', Linux.get_installed_software Examples.interrupted Py.initial = (Py.Raise x, st').
Proof.
  cbn zeta.
  assert (¬ is_exception (Py.Exn Py.KeyboardInterrupt EmptyString)) as Hx
    by (intros H; vm_compute in H; discriminate H).
  split; [reflexivity|]. split; [exact Hx|].
  exact (proj2 (collectors_let_no_exception_escape Examples.interrupted) Py.initial
           (Py.Exn Py.KeyboardInterrupt EmptyString) eq_refl Hx).
Defined.

(** ** The commands a scan runs *)

Lemma quiet_ret {A} (a : A) : always_executes [] (mret a).
Proof. intros st. cbn. by rewrite app_nil_r. Qed.

Lemma quiet_raise {A} x : always_executes [] (@Py.raise A x).
Proof. intros st. cbn. by rewrite app_nil_r. Qed.

Lemma quiet_print line : always_executes [] (Py.print line).
Proof. intros st. cbn. unfold commands. cbn. by rewrite app_nil_r. Qed.

Lemma quiet_loads e text : always_executes [] (Py.loads e text).
Proof. intros st. cbn. by rewrite app_nil_r. Qed.

Lemma always_executes_run e argv : always_executes [argv] (Py.run e argv).
Proof.
  intros st. unfold Py.run, commands.
  destruct (Py.subprocess_run e _ _); cbn; by rewrite fmap_app.
Qed.

Lemma always_executes_bind {A B} cmds (m : Py.M A) (k : A → Py.M B) :
  always_executes cmds m → (∀ a, always_executes [] (k a)) → always_executes cmds (m ≫= k).
Proof.
  intros Hm Hk st. monad_unfold. specialize (Hm st).
  destruct (m st) as [[a|x] st1]; [|done].
  rewrite (Hk a st1). cbn in Hm. by rewrite Hm, app_nil_r.
Qed.

Lemma always_executes_print_then {A} cmds line (m : Py.M A) :
  always_executes cmds m → always_executes cmds (Py.print line ;; m).
Proof. intros Hm st. monad_unfold. by rewrite Hm. Qed.

Lemma always_executes_try {A} cmds (body : Py.M A) targets handler :
  always_executes cmds body → (∀ x, always_executes [] (handler x)) →
  always_executes cmds (Py.try_except body targets handler).
Proof.
  intros Hb Hh st. unfold Py.try_except. specialize (Hb st).
  destruct (body st) as [[a|x] st1]; [done|].
  destruct (Py.catches targets x); [|done].
  rewrite (Hh x st1). cbn in Hb. by rewrite Hb, app_nil_r.
Qed.

Lemma executes_of_always {A} cmds (m : Py.M A) : always_executes cmds m → executes cmds m.
Proof. intros Hm st a st' H. specialize (Hm st). by rewrite H in Hm. Qed.

Lemma executes_bind {A B} c1 c2 (m : Py.M A) (k : A → Py.M B) :
  executes c1 m → (∀ a, executes c2 (k a)) → executes (c1 ++ c2) (m ≫= k).
Proof.
  intros Hm Hk st b st' H. apply bind_ok in H as (a & st1 & H1 & H2).
  rewrite (Hk _ _ _ _ H2), (Hm _ _ _ H1). by rewrite app_assoc.
Qed.

Lemma executes_ret {A} (a : A) : executes [] (mret a).
Proof. apply executes_of_always, quiet_ret. Qed.

Ltac py_quiet :=
  repeat (intros; cbn beta;
    lazymatch goal with
    | |- always_executes [] (mret _) => apply quiet_ret
    | |- always_executes [] (Py.raise _) => apply quiet_raise
    | |- always_executes [] (Py.print _) => apply quiet_print
    | |- always_executes [] (Py.loads _ _) => apply quiet_loads
    | |- always_executes _ (Py.run _ _) => apply always_executes_run
    | |- always_executes _ (Py.print _ ;; _) => apply always_executes_print_then
    | |- always_executes _ (mbind _ _) => apply always_executes_bind
    | |- always_executes _ (Py.try_except _ _ _) => apply always_executes_try
    | |- always_executes _ (if ?c then _ else _) => destruct c
    | |- always_executes _ (match ?c with _ => _ end) => destruct c
    | |- always_executes _ _ => solve [eauto]
    end).

Lemma quiet_get obj k default : always_executes [] (Firmware.get obj k default).
Proof. unfold Firmware.get. py_quiet. Qed.

Lemma quiet_len obj : always_executes [] (Firmware.len obj).
Proof. unfold Firmware.len. py_quiet. Qed.

Lemma quiet_first obj : always_executes [] (Firmware.first obj).
Proof. unfold Firmware.first. py_quiet. Qed.

Lemma quiet_iter obj : always_executes [] (Firmware.iter obj).
Proof. unfold Firmware.iter. py_quiet. Qed.

Lemma quiet_dset {V} k (v : V) d : always_executes [] (Firmware.dset k v d).
Proof. unfold Firmware.dset. py_quiet. Qed.

Lemma quiet_devices_loop name_key label fields i data devices :
  always_executes [] (Firmware.devices_loop name_key label fields i data devices).
Proof.
  revert i devices. induction data as [|device rest IH]; intros i devices;
    cbn [Firmware.devices_loop]; [py_quiet|].
  destruct device; try apply IH.
  apply always_executes_bind; [apply quiet_dset|]. intros. apply IH.
Qed.

Lemma quiet_storage_loop devices storage_devices :
  always_executes [] (Firmware.storage_loop devices storage_devices).
Proof.
  revert storage_devices. induction devices as [|device rest IH]; intros storage_devices;
    cbn [Firmware.storage_loop]; [py_quiet|].
  pose proof quiet_get. pose proof (@quiet_dset (list (string * Py.value))). py_quiet.
Qed.

Lemma quiet_use_fields name fields data fi :
  always_executes [] (Firmware.use_fields name fields data fi).
Proof. unfold Firmware.use_fields. py_quiet. Qed.

Lemma quiet_use_devices name name_key label fields data fi :
  always_executes [] (Firmware.use_devices name name_key label fields data fi).
Proof.
  unfold Firmware.use_devices, Firmware.devices_of.
  pose proof quiet_devices_loop. pose proof (@quiet_dset (list (string * Py.value))).
  py_quiet.
Qed.

Lemma quiet_use_hardware data fi : always_executes [] (Firmware.use_hardware data fi).
Proof.
  unfold Firmware.use_hardware.
  pose proof quiet_get. pose proof quiet_len. pose proof quiet_first. py_quiet.
Qed.

Lemma quiet_use_storage data fi : always_executes [] (Firmware.use_storage data fi).
Proof.
  unfold Firmware.use_storage.
  pose proof quiet_get. pose proof quiet_iter. pose proof quiet_storage_loop. py_quiet.
Qed.

Section Commands.
Context (e : Py.env).

Lemma text_scan_executes announce argv parse name failed port_info :
  executes [argv] (PortListener.text_scan e announce argv parse name failed port_info).
Proof. apply executes_of_always. unfold PortListener.text_scan. py_quiet. Qed.

Lemma text_probe_executes announce argv use failed fi :
  executes [argv] (Firmware.text_probe e announce argv use failed fi).
Proof. apply executes_of_always. unfold Firmware.text_probe. py_quiet. Qed.

Lemma json_probe_executes announce script use parse_failed scan_failed fi :
  (∀ data fi, always_executes [] (use data fi)) →
  executes [["powershell"; "-Command"; script]]
    (Firmware.json_probe e announce script use parse_failed scan_failed fi).
Proof. intros Huse. apply executes_of_always. unfold Firmware.json_probe. py_quiet. Qed.

Lemma profiler_probe_executes announce data_type use parse_failed scan_failed fi :
  (∀ data fi, always_executes [] (use data fi)) →
  executes [["system_profiler"; data_type; "-json"]]
    (Firmware.profiler_probe e announce data_type use parse_failed scan_failed fi).
Proof. intros Huse. apply executes_of_always. unfold Firmware.profiler_probe. py_quiet. Qed.

Lemma silent_probe_executes announce argv parse :
  executes [argv] (Macos.silent_probe e announce argv parse).
Proof. apply executes_of_always. unfold Macos.silent_probe. py_quiet. Qed.

Lemma json_method_executes announce script entry parse_failed scan_failed software_list :
  executes [["powershell"; "-Command"; script]]
    (Windows.json_method e announce script entry parse_failed scan_failed software_list).
Proof. apply executes_of_always. unfold Windows.json_method. py_quiet. Qed.

Lemma python_packages_executes :
  executes [[Py.sys_executable e; "-m"; "pip"; "list"]] (Linux.get_python_packages e).
Proof. apply executes_of_always. unfold Linux.get_python_packages. py_quiet. Qed.

Lemma registry_loop_executes paths software_list :
  executes (map (λ p, ["powershell"; "-Command"; Windows.registry_script p]) paths)
    (Windows.registry_loop e paths software_list).
Proof.
  revert software_list. induction paths as [|p paths IH]; intros software_list;
    cbn [Windows.registry_loop map]; [apply executes_ret|].
  apply (executes_bind [_]); [apply json_method_executes | apply IH].
Qed.

End Commands.

(** X20. A port scan of Linux or macOS and a firmware scan of any
    platform that returns has run a fixed list of commands, each once and
    in this order, whatever their outcomes. *)
Theorem scans_run_fixed_commands (e : Py.env) :
  executes [ ["netstat"; "-tulpn"]; ["ss"; "-tulpn"] ] (PortListener.get_linux_ports e)
  ∧ executes [ ["netstat"; "-an"]; ["lsof"; "-i"; "-P"; "-n"] ]
      (PortListener.get_macos_ports e)
  ∧ executes [ ["dmidecode"; "-t"; "bios"]; ["lspci"; "-v"];
               ["lsblk"; "-o"; "NAME,MODEL,SERIAL,REV"] ]
      (Firmware.get_linux_firmware e)
  ∧ executes [ ["system_profiler"; "SPHardwareDataType"; "-json"];
               ["system_profiler"; "SPStorageDataType"; "-json"] ]
      (Firmware.get_macos_firmware e)
  ∧ executes (map (λ script, ["powershell"; "-Command"; script])
                [ Firmware.bios_script; Firmware.baseboard_script;
                  Firmware.network_script; Firmware.disk_script; Firmware.video_script ])
      (Firmware.get_windows_firmware e).
Proof.
  repeat split.
  - unfold PortListener.get_linux_ports.
    apply (executes_bind [_] [_]); intros; apply text_scan_executes.
  - unfold PortListener.get_macos_ports.
    apply (executes_bind [_] [_]); intros; apply text_scan_executes.
  - unfold Firmware.get_linux_firmware.
    apply (executes_bind [_] [_; _]); [apply text_probe_executes|]. intros.
    apply (executes_bind [_] [_]); intros; apply text_probe_executes.
  - unfold Firmware.get_macos_firmware.
    apply (executes_bind [_] [_]); intros; apply profiler_probe_executes;
      auto using quiet_use_hardware, quiet_use_storage.
  - unfold Firmware.get_windows_firmware. cbn [map].
    apply (executes_bind [_] [_; _; _; _]);
      [apply json_probe_executes; auto using quiet_use_fields|]. intros.
    apply (executes_bind [_] [_; _; _]);
      [apply json_probe_executes; auto using quiet_use_fields|]. intros.
    apply (executes_bind [_] [_; _]);
      [apply json_probe_executes; auto using quiet_use_devices|]. intros.
    apply (executes_bind [_] [_]); intros; apply json_probe_executes; auto using quiet_use_devices.
Qed.

Lemma scans_run_fixed_commands_witness :
  let run := PortListener.get_linux_ports Examples.bare_linux Py.initial in
  run = (Py.Ok [], run.2)
  ∧ commands run.2 = commands Py.initial ++ [ ["netstat"; "-tulpn"]; ["ss"; "-tulpn"] ].
Proof.
  cbn zeta.
  match goal with
  | |- ?eq1 ∧ _ => assert eq1 as E1 by (vm_compute; reflexivity)
  end.
  split; [exact E1|].
  exact (proj1 (scans_run_fixed_commands Examples.bare_linux) _ _ _ E1).
Defined.

(** X21. A software collection of Windows or macOS that returns has run
    a fixed list of commands, each once and in this order, whatever their
    outcomes. *)
Theorem software_scans_run_fixed_commands (e : Py.env) :
  executes ([ ["wmic"; "product"; "get"; "name,version"; "/format:csv"] ]
            ++ map (λ script, ["powershell"; "-Command"; script])
                 (map Windows.registry_script Windows.registry_paths
                  ++ [Windows.package_script; Windows.appx_script])
            ++ [ [Py.sys_executable e; "-m"; "pip"; "list"] ])
    (Windows.get_installed_software e)
  ∧ executes [ ["system_profiler"; "SPApplicationsDataType"; "-xml"];
               ["brew"; "list"; "--versions"];
               ["brew"; "list"; "--cask"; "--versions"];
               ["port"; "installed"];
               ["mas"; "list"];
               [Py.sys_executable e; "-m"; "pip"; "list"] ]
      (Macos.get_installed_software e).
Proof.
  split.
  - unfold Windows.get_installed_software, Windows.get_windows_software.
    apply (executes_bind []); [apply executes_of_always, quiet_print|]. intros _.
    cbn [map app].
    apply (executes_bind [_; _; _; _; _; _] [_]).
    + apply (executes_bind [_] [_; _; _; _; _]).
      { apply executes_of_always. unfold Windows.wmi_method. py_quiet. }
      intros. apply (executes_bind [_; _; _] [_; _]); [apply (registry_loop_executes e)|].
      intros. apply (executes_bind [_] [_]); [apply json_method_executes|].
      intros. apply (executes_bind [_] []); [apply json_method_executes|].
      intros. apply executes_ret.
    + intros. apply (executes_bind [_] []); [apply python_packages_executes|].
      intros. apply executes_ret.
  - unfold Macos.get_installed_software.
    apply (executes_bind []); [apply executes_of_always, quiet_print|]. intros _.
    apply (executes_bind [_] [_; _; _; _; _]).
    { apply executes_of_always. unfold Macos.get_macos_applications. py_quiet. }
    intros. apply (executes_bind [_] [_; _; _; _]); [apply silent_probe_executes|].
    intros. apply (executes_bind [_] [_; _; _]); [apply silent_probe_executes|].
    intros. apply (executes_bind [_] [_; _]); [apply silent_probe_executes|].
    intros. apply (executes_bind [_] [_]); [apply silent_probe_executes|].
    intros. apply (executes_bind [_] []); [apply python_packages_executes|].
    intros. apply executes_ret.
Qed.

Lemma software_scans_run_fixed_commands_witness :
  let run := Macos.get_installed_software Examples.brew_host Py.initial in
  let software : gmap string string :=
    <["Homebrew: wget" := "1.21.4"]> {["Homebrew Cask: firefox" := "120.0"]} in
  run = (Py.Ok software, run.2)
  ∧ commands run.2
    = commands Py.initial
      ++ [ ["system_profiler"; "SPApplicationsDataType"; "-xml"];
           ["brew"; "list"; "--versions"];
           ["brew"; "list"; "--cask"; "--versions"];
           ["port"; "installed"];
           ["mas"; "list"];
           [Py.sys_executable Examples.brew_host; "-m"; "pip"; "list"] ].
Proof.
  cbn zeta.
  match goal with
  | |- ?eq1 ∧ _ => assert eq1 as E1 by (vm_compute; reflexivity)
  end.
  split; [exact E1|].
  exact (proj2 (software_scans_run_fixed_commands Examples.brew_host) _ _ _ E1).
Defined.
